(** * TruckHub: the dashboard aggregation and threshold rules

    A shallow embedding of the aggregate computations of the TruckHub
    food-truck application, and the properties its specification states of
    them:

    - [server/storage.ts], [getDashboardStats] (the specification's
      [computeDashboardStats]): sales, order count, average rating and
      active-location count of one truck;
    - the Reviews page: [averageRating] and [ratingDistribution]
      ([computeRatingDistribution]);
    - the Profile page: [averageRating];
    - the Dashboard and Inventory pages: [lowStockItems] ([computeLowStock])
      and [getStockStatus];
    - the Protein page: [getUsagePercentage] and the [isLow] flag
      ([computeProteinUsage]);
    - the Recent Orders card: [formatOrderItems].

    Beside these it covers what surrounds them in the same files: the
    queries of [server/storage.ts] that return rows in order
    ([getOrdersByTruckId], [getReviewsByTruckId]), [deleteLocation] and
    [getFoodTruckByUserId]; the rows and badges of the Recent Orders card;
    the stars, badges and texts of the Reviews page; the cards of
    [dashboard-stats.tsx]; the active location and the alerts of the
    dashboard page.

    The code is TypeScript.  Its arithmetic is the arithmetic of JavaScript
    numbers, and several functions receive values typed [any] on which they
    rely on the language's coercions ([Number(x)], truthiness, template
    literals).  The embedding keeps both.  Every function is written once,
    over an interface of number operations ([JSNumber]) that is instantiated
    twice: by exact rationals extended with [NaN] and the infinities
    ([Exact]), and by IEEE 754 binary64 ([Binary64], the numbers the program
    runs on).  A property that needs no law of arithmetic is proved for every
    instance; one that needs the laws of a field is proved for the exact
    instance; what rounding does to it is shown on doubles.

    Tables are lists of rows and a query is a filter over them.  The length
    of an array is an integer, compared as such and turned into a number
    where the code divides by it. *)

From Stdlib Require Import ZArith QArith Qcanon Qround.
From Stdlib Require Import List String Ascii Bool Lia DecimalString DecimalPos.
From Stdlib Require Import Permutation.
From Stdlib Require Import Floats.
Import ListNotations.

Set Implicit Arguments.
Set Warnings "-inexact-float".
Local Open Scope string_scope.
Local Open Scope list_scope.
Local Open Scope Z_scope.

(* ================================================================== *)
(** * JavaScript numbers, primitive values and JSON data *)

Module JS.

(** The operations on numbers the sources use.  [ofZ] is an integer as a
    number (an integer literal, the length of an array, an [integer]
    column), [ofDecimal m e] the number that the decimal text of
    [m * 10^e] denotes (a literal such as [0.2], the text of a [decimal]
    column).  [eqb] is [===] on two numbers, [ltb] and [leb] are [<] and
    [<=]: all three are [false] as soon as an operand is [NaN]. *)
Class JSNumber : Type := {
  number : Type;
  ofZ : Z -> number;
  ofDecimal : Z -> Z -> number;
  NaN : number;
  add : number -> number -> number;
  mul : number -> number -> number;
  div : number -> number -> number;
  ltb : number -> number -> bool;
  leb : number -> number -> bool;
  eqb : number -> number -> bool;
  Math_round : number -> number
}.

(** Abrupt completion: the two errors the modelled code can meet. *)
Inductive exn : Type := TypeError | SyntaxError.

Inductive completion (A : Type) : Type :=
| Normal (a : A)
| Throw (e : exn).
Arguments Normal {A} a.
Arguments Throw {A} e.

Definition bind {A B : Type} (c : completion A) (k : A -> completion B)
  : completion B :=
  match c with
  | Normal a => k a
  | Throw e => Throw e
  end.

Fixpoint mapM {A B : Type} (f : A -> completion B) (l : list A)
  : completion (list B) :=
  match l with
  | [] => Normal []
  | a :: l' =>
      bind (f a) (fun b => bind (mapM f l') (fun bs => Normal (b :: bs)))
  end.

Section Values.
Context {N : JSNumber}.

(** [x > y] is [y < x]. *)
Definition gtb (x y : number) : bool := ltb y x.

(** [ToBoolean] on a number: everything but [+0], [-0] and [NaN]. *)
Definition numberToBoolean (n : number) : bool :=
  eqb n n && negb (eqb n (ofZ 0)).

(** Primitive values, as a field of a JSON row holds them. *)
Inductive prim : Type :=
| PUndefined
| PNull
| PBool (b : bool)
| PNum (n : number)
| PStr (s : string).

(** JSON data: what [JSON.parse] and [response.json()] build, and
    [undefined] for what is absent. *)
#[warnings="-register-all"]
Inductive value : Type :=
| VPrim (p : prim)
| VArr (elems : list value)
| VObj (props : list (string * value)).

Definition undefined : value := VPrim PUndefined.

(** The built-in conversions between strings and numbers, and [JSON.parse]
    ([None]: the text is not JSON and a [SyntaxError] is thrown).  They are
    the runtime's, not the repository's: the development is parametric in
    them. *)
Class Builtins : Type := {
  StringToNumber : string -> number;
  NumberToString : number -> string;
  JSON_parse : string -> option value
}.

Context {B : Builtins}.

(** [ToBoolean]. *)
Definition ToBoolean (p : prim) : bool :=
  match p with
  | PUndefined | PNull => false
  | PBool b => b
  | PNum n => numberToBoolean n
  | PStr s => negb (String.eqb s EmptyString)
  end.

(** [Number(p)], that is [ToNumber]. *)
Definition Number (p : prim) : number :=
  match p with
  | PUndefined => NaN
  | PNull => ofZ 0
  | PBool true => ofZ 1
  | PBool false => ofZ 0
  | PNum n => n
  | PStr s => StringToNumber s
  end.

Definition primToString (p : prim) : string :=
  match p with
  | PUndefined => "undefined"
  | PNull => "null"
  | PBool true => "true"
  | PBool false => "false"
  | PNum n => NumberToString n
  | PStr s => s
  end.

(** Own property lookup; the first binding of a key is the live one. *)
Fixpoint lookup (k : string) (props : list (string * value)) : option value :=
  match props with
  | [] => None
  | (k', v) :: rest => if String.eqb k k' then Some v else lookup k rest
  end.

(** [Array.prototype.join]. *)
Fixpoint join (sep : string) (l : list string) : string :=
  match l with
  | [] => EmptyString
  | [s] => s
  | s :: rest => (s ++ sep ++ join sep rest)%string
  end.

(** [ToString], as a template literal applies it.  An array is joined with
    commas, [null] and [undefined] elements giving the empty string.  A plain
    object is converted by [Object.prototype.toString]; JSON data holds no
    function, so an own [toString] property shadows that method with
    something that cannot be called, no primitive is obtained and the
    conversion throws. *)
Fixpoint ToString (v : value) : completion string :=
  match v with
  | VPrim p => Normal (primToString p)
  | VArr elems =>
      let elem (e : value) : completion string :=
        match e with
        | VPrim PUndefined | VPrim PNull => Normal EmptyString
        | _ => ToString e
        end in
      bind ((fix each (l : list value) : completion (list string) :=
               match l with
               | [] => Normal []
               | e :: l' =>
                   bind (elem e) (fun s =>
                   bind (each l') (fun ss => Normal (s :: ss)))
               end) elems)
           (fun ss => Normal (join "," ss))
  | VObj props =>
      match lookup "toString" props with
      | Some _ => Throw TypeError
      | None => Normal "[object Object]"
      end
  end.

(** [v.k] for a key [k] that no prototype of JSON data defines (the sources
    read [quantity] and [name]): reading a property of [null] or [undefined]
    throws, an object gives its own property, anything else [undefined]. *)
Definition getProp (v : value) (k : string) : completion value :=
  match v with
  | VPrim PUndefined | VPrim PNull => Throw TypeError
  | VObj props =>
      match lookup k props with
      | Some x => Normal x
      | None => Normal undefined
      end
  | _ => Normal undefined
  end.

End Values.

Arguments prim : clear implicits.
Arguments prim {N}.
Arguments value : clear implicits.
Arguments value {N}.
Arguments Builtins : clear implicits.
Arguments Builtins {N}.

(** [Number.prototype.toFixed(fractionDigits)], the runtime's as well.  The
    sources call it with the literals 1 and 2; beyond 100 digits the method
    raises a [RangeError], which no call of the sources reaches. *)
Class NumberFormat {N : JSNumber} : Type := {
  toFixed : number -> nat -> string
}.

End JS.

(* ================================================================== *)
(** * The built-ins of the runtime *)

(** [StringToNumber] (the grammar [StringNumericLiteral] of ECMAScript),
    [JSON.parse] and [Number::toString], written over the number interface.
    Text is a sequence of bytes: white space is the ASCII white space, and a
    [\uXXXX] escape of a JSON string becomes the UTF-8 bytes of that code
    unit. *)
Module Runtime.
Import JS.
Section Parsers.
Context {N : JSNumber}.

Definition code (c : ascii) : Z := Z.of_N (N_of_ascii c).

Definition digitValue (c : ascii) : option Z :=
  let n := code c in
  if (48 <=? n) && (n <=? 57) then Some (n - 48)
  else if (97 <=? n) && (n <=? 102) then Some (n - 87)
  else if (65 <=? n) && (n <=? 70) then Some (n - 55)
  else None.

Definition digitIn (radix : Z) (c : ascii) : option Z :=
  match digitValue c with
  | Some d => if d <? radix then Some d else None
  | None => None
  end.

(** The longest prefix of digits: its value (continuing [acc]), how many
    digits it has, and the rest of the text. *)
Fixpoint takeDigits (radix : Z) (s : list ascii) (acc n : Z)
  : Z * Z * list ascii :=
  match s with
  | c :: r =>
      match digitIn radix c with
      | Some d => takeDigits radix r (acc * radix + d) (n + 1)
      | None => (acc, n, s)
      end
  | [] => (acc, n, s)
  end.

Definition isStrWhiteSpace (c : ascii) : bool :=
  let n := code c in ((9 <=? n) && (n <=? 13)) || (n =? 32).

Fixpoint dropWhile (p : ascii -> bool) (s : list ascii) : list ascii :=
  match s with
  | c :: r => if p c then dropWhile p r else s
  | [] => []
  end.

Definition trim (s : list ascii) : list ascii :=
  rev (dropWhile isStrWhiteSpace (rev (dropWhile isStrWhiteSpace s))).

Definition isNil {A : Type} (l : list A) : bool :=
  match l with [] => true | _ => false end.

Definition signOf (s : list ascii) : bool * list ascii :=
  match s with
  | "-"%char :: r => (true, r)
  | "+"%char :: r => (false, r)
  | _ => (false, s)
  end.

Definition applySign (negative : bool) (x : number) : number :=
  if negative then mul (ofZ (-1)) x else x.

Definition isE (c : ascii) : bool := (code c =? 101) || (code c =? 69).

(** An optional exponent part that must end the text. *)
Definition exponentPart (s : list ascii) : option Z :=
  match s with
  | [] => Some 0
  | c :: r =>
      if isE c then
        let (negative, r') := signOf r in
        let '(v, n, rest) := takeDigits 10 r' 0 0 in
        if (0 <? n) && isNil rest
        then Some (if negative then - v else v)
        else None
      else None
  end.

Definition decimalLiteral (s : list ascii) : option number :=
  let (negative, s0) := signOf s in
  if String.eqb (string_of_list_ascii s0) "Infinity"
  then Some (applySign negative (div (ofZ 1) (ofZ 0)))
  else
    let '(ip, ni, s1) := takeDigits 10 s0 0 0 in
    let '(m, nf, s2) :=
      match s1 with
      | "."%char :: r => takeDigits 10 r ip 0
      | _ => (ip, 0, s1)
      end in
    if ni + nf =? 0 then None
    else
      match exponentPart s2 with
      | Some e => Some (applySign negative (ofDecimal m (e - nf)))
      | None => None
      end.

Definition radixOf (c : ascii) : option Z :=
  let n := code c in
  if (n =? 120) || (n =? 88) then Some 16
  else if (n =? 111) || (n =? 79) then Some 8
  else if (n =? 98) || (n =? 66) then Some 2
  else None.

Definition nonDecimalLiteral (s : list ascii) : option number :=
  match s with
  | "0"%char :: p :: r =>
      match radixOf p with
      | Some radix =>
          let '(v, n, rest) := takeDigits radix r 0 0 in
          if (0 <? n) && isNil rest then Some (ofZ v) else None
      | None => None
      end
  | _ => None
  end.

Definition StringToNumber (str : string) : number :=
  let s := trim (list_ascii_of_string str) in
  if isNil s then ofZ 0
  else
    match nonDecimalLiteral s with
    | Some x => x
    | None =>
        match decimalLiteral s with
        | Some x => x
        | None => NaN
        end
    end.

(** ** JSON.parse *)

Definition isJsonWhiteSpace (c : ascii) : bool :=
  let n := code c in (n =? 32) || (n =? 9) || (n =? 10) || (n =? 13).

Definition skipWs (s : list ascii) : list ascii := dropWhile isJsonWhiteSpace s.

(** A JSON number: no leading [+], no leading zeros, digits on both sides
    of the point. *)
Definition pNumber (s : list ascii) : option (number * list ascii) :=
  let (negative, s0) :=
    match s with "-"%char :: r => (true, r) | _ => (false, s) end in
  let '(ip, ni, s1) := takeDigits 10 s0 0 0 in
  let leadingZero :=
    match s0 with "0"%char :: _ => 1 <? ni | _ => false end in
  if (ni =? 0) || leadingZero then None
  else
    let frac :=
      match s1 with
      | "."%char :: r =>
          let '(m, nf, s2) := takeDigits 10 r ip 0 in
          if nf =? 0 then None else Some (m, nf, s2)
      | _ => Some (ip, 0, s1)
      end in
    match frac with
    | None => None
    | Some (m, nf, s2) =>
        match s2 with
        | c :: r =>
            if isE c then
              let (eneg, r') := signOf r in
              let '(v, n, rest) := takeDigits 10 r' 0 0 in
              if n =? 0 then None
              else Some (applySign negative
                           (ofDecimal m ((if eneg then - v else v) - nf)),
                         rest)
            else Some (applySign negative (ofDecimal m (- nf)), s2)
        | [] => Some (applySign negative (ofDecimal m (- nf)), s2)
        end
    end.

Definition byte (n : Z) : ascii := ascii_of_N (Z.to_N n).

(** A string is held as bytes: the UTF-8 text of its characters, and the
    three bytes of its code unit for a surrogate that has no partner. *)
Definition utf8 (cp : Z) : list ascii :=
  if cp <? 128 then [byte cp]
  else if cp <? 2048 then [byte (192 + cp / 64); byte (128 + cp mod 64)]
  else if cp <? 65536
  then [byte (224 + cp / 4096); byte (128 + (cp / 64) mod 64);
        byte (128 + cp mod 64)]
  else [byte (240 + cp / 262144); byte (128 + (cp / 4096) mod 64);
        byte (128 + (cp / 64) mod 64); byte (128 + cp mod 64)].

Definition isHighSurrogate (cp : Z) : bool := (55296 <=? cp) && (cp <? 56320).

Definition isLowSurrogate (cp : Z) : bool := (56320 <=? cp) && (cp <? 57344).

(** The code unit that the three bytes [b1 b2 b3] hold, when they hold a
    surrogate. *)
Definition surrogateOf (b1 b2 b3 : ascii) : option Z :=
  let cp := (code b1 - 224) * 4096 + (code b2 - 128) * 64 + (code b3 - 128) in
  if (code b1 =? 237) && (160 <=? code b2) && (code b2 <? 192)
     && (128 <=? code b3) && (code b3 <? 192)
  then Some cp
  else None.

(** Appends the code unit [cp] to the bytes [acc], which are in reverse: a
    low surrogate that follows a high one is one character with it. *)
Definition pushUnit (cp : Z) (acc : list ascii) : list ascii :=
  match acc with
  | b3 :: b2 :: b1 :: acc' =>
      match surrogateOf b1 b2 b3 with
      | Some hi =>
          if isHighSurrogate hi && isLowSurrogate cp
          then rev_append
                 (utf8 (65536 + (hi - 55296) * 1024 + (cp - 56320))) acc'
          else rev_append (utf8 cp) acc
      | None => rev_append (utf8 cp) acc
      end
  | _ => rev_append (utf8 cp) acc
  end.

Definition hex4 (a b c d : ascii) : option Z :=
  match digitIn 16 a, digitIn 16 b, digitIn 16 c, digitIn 16 d with
  | Some x, Some y, Some z, Some w => Some (((x * 16 + y) * 16 + z) * 16 + w)
  | _, _, _, _ => None
  end.

Definition escape (c : ascii) : option ascii :=
  let n := code c in
  if (n =? 34) || (n =? 92) || (n =? 47) then Some c
  else if n =? 98 then Some (byte 8)
  else if n =? 102 then Some (byte 12)
  else if n =? 110 then Some (byte 10)
  else if n =? 114 then Some (byte 13)
  else if n =? 116 then Some (byte 9)
  else None.

(** The characters of a JSON string, after its opening quote; [acc] holds
    the decoded bytes in reverse.  An escape [\uXXXX] is one code unit; two
    surrogates in a row, escaped or not, are the character they encode, as
    when the character itself is in the text. *)
Fixpoint pString (s acc : list ascii) : option (string * list ascii) :=
  match s with
  | [] => None
  | c :: r =>
      if code c =? 34 then Some (string_of_list_ascii (rev acc), r)
      else if code c =? 92 then
        match r with
        | "u"%char :: h1 :: h2 :: h3 :: h4 :: r' =>
            match hex4 h1 h2 h3 h4 with
            | Some cp => pString r' (pushUnit cp acc)
            | None => None
            end
        | e :: r' =>
            match escape e with
            | Some x => pString r' (x :: acc)
            | None => None
            end
        | [] => None
        end
      else if code c <? 32 then None
      else
        match r with
        | b2 :: b3 :: r' =>
            match surrogateOf c b2 b3 with
            | Some cp => pString r' (pushUnit cp acc)
            | None => pString r (c :: acc)
            end
        | _ => pString r (c :: acc)
        end
  end.

(** A later member of an object replaces an earlier one of the same name. *)
Fixpoint setProp (k : string) (v : value) (props : list (string * value))
  : list (string * value) :=
  match props with
  | [] => [(k, v)]
  | (k', v') :: rest =>
      if String.eqb k k' then (k, v) :: rest else (k', v') :: setProp k v rest
  end.

Definition startsWith (lit : string) (s : list ascii) : option (list ascii) :=
  let l := list_ascii_of_string lit in
  if String.eqb (string_of_list_ascii (firstn (List.length l) s)) lit
  then Some (skipn (List.length l) s)
  else None.

Section Composite.
Variable pValue : list ascii -> option (value * list ascii).

(** The elements of an array after the first. *)
Fixpoint pElements (fuel : nat) (s : list ascii) (acc : list value)
  : option (list value * list ascii) :=
  match fuel with
  | O => None
  | S fuel' =>
      match pValue s with
      | Some (v, r) =>
          match skipWs r with
          | c :: r' =>
              if code c =? 44 then pElements fuel' r' (v :: acc)
              else if code c =? 93 then Some (rev (v :: acc), r')
              else None
          | [] => None
          end
      | None => None
      end
  end.

Fixpoint pMembers (fuel : nat) (s : list ascii) (acc : list (string * value))
  : option (list (string * value) * list ascii) :=
  match fuel with
  | O => None
  | S fuel' =>
      match skipWs s with
      | q :: r =>
          if code q =? 34 then
            match pString r [] with
            | Some (k, r1) =>
                match skipWs r1 with
                | colon :: r2 =>
                    if code colon =? 58 then
                      match pValue r2 with
                      | Some (v, r3) =>
                          match skipWs r3 with
                          | c :: r4 =>
                              if code c =? 44
                              then pMembers fuel' r4 (setProp k v acc)
                              else if code c =? 125
                              then Some (setProp k v acc, r4)
                              else None
                          | [] => None
                          end
                      | None => None
                      end
                    else None
                | [] => None
                end
            | None => None
            end
          else None
      | [] => None
      end
  end.

End Composite.

Fixpoint pValue (fuel : nat) (s : list ascii) : option (value * list ascii) :=
  match fuel with
  | O => None
  | S fuel' =>
      let s := skipWs s in
      match s with
      | [] => None
      | c :: r =>
          if code c =? 34 then
            match pString r [] with
            | Some (str, r') => Some (VPrim (PStr str), r')
            | None => None
            end
          else if code c =? 91 then
            match skipWs r with
            | c' :: r' =>
                if code c' =? 93 then Some (VArr [], r')
                else
                  match pElements (pValue fuel') fuel' r [] with
                  | Some (elems, r'') => Some (VArr elems, r'')
                  | None => None
                  end
            | [] => None
            end
          else if code c =? 123 then
            match skipWs r with
            | c' :: r' =>
                if code c' =? 125 then Some (VObj [], r')
                else
                  match pMembers (pValue fuel') fuel' r [] with
                  | Some (props, r'') => Some (VObj props, r'')
                  | None => None
                  end
            | [] => None
            end
          else
            match startsWith "null" s, startsWith "true" s,
                  startsWith "false" s with
            | Some r', _, _ => Some (VPrim PNull, r')
            | _, Some r', _ => Some (VPrim (PBool true), r')
            | _, _, Some r' => Some (VPrim (PBool false), r')
            | None, None, None =>
                match pNumber s with
                | Some (x, r') => Some (VPrim (PNum x), r')
                | None => None
                end
            end
      end
  end.

(** One value, white space around it, and nothing else.  Every level of
    nesting and every element takes a character, so the length of the text
    bounds the recursion. *)
Definition JSON_parse (str : string) : option value :=
  let s := list_ascii_of_string str in
  match pValue (S (List.length s)) s with
  | Some (v, rest) => if isNil (skipWs rest) then Some v else None
  | None => None
  end.

End Parsers.

(** ** Number::toString, radix 10 *)

Definition digitsOf (z : Z) : string := NilZero.string_of_int (Z.to_int z).

Definition zeros (n : Z) : string :=
  string_of_list_ascii (repeat "0"%char (Z.to_nat n)).

Definition sub (from count : Z) (str : string) : string :=
  substring (Z.to_nat from) (Z.to_nat count) str.

(** The text of [s * 10^(n-k)], where [s > 0] has the [k] digits to print
    and does not end in zero (ECMAScript, Number::toString, steps 6 to
    10). *)
Definition formatDecimal (s n : Z) : string :=
  let ds := digitsOf s in
  let k := Z.of_nat (String.length ds) in
  if (k <=? n) && (n <=? 21) then (ds ++ zeros (n - k))%string
  else if (0 <? n) && (n <=? 21)
  then (sub 0 n ds ++ "." ++ sub n (k - n) ds)%string
  else if (-6 <? n) && (n <=? 0)
  then ("0." ++ zeros (- n) ++ ds)%string
  else
    let e := n - 1 in
    let sign := if 0 <=? e then "+" else "-" in
    let es := (sign ++ digitsOf (Z.abs e))%string in
    if k =? 1 then (ds ++ "e" ++ es)%string
    else (sub 0 1 ds ++ "." ++ sub 1 (k - 1) ds ++ "e" ++ es)%string.

(** The decimal exponent of a positive fraction [a / b]: the [n] with
    [10^(n-1) <= a/b < 10^n]. *)
Definition exponent10 (a b : Z) : Z :=
  let n0 := Z.of_nat (String.length (digitsOf a))
            - Z.of_nat (String.length (digitsOf b)) in
  let below :=                              (* a / b < 10 ^ n0 *)
    if 0 <=? n0 then a <? b * 10 ^ n0 else a * 10 ^ (- n0) <? b in
  if below then n0 else n0 + 1.

(** [floor (a / b * 10^e + 1/2)]. *)
Definition scaledRound (a b e : Z) : Z :=
  let num := if 0 <=? e then a * 10 ^ e else a in
  let den := if 0 <=? e then b else b * 10 ^ (- e) in
  (2 * num + den) / (2 * den).

Fixpoint stripZeros (fuel : nat) (s : Z) : Z :=
  match fuel with
  | O => s
  | S fuel' => if s mod 10 =? 0 then stripZeros fuel' (s / 10) else s
  end.

(** ** Number.prototype.toFixed *)

(** The text of a magnitude [a / b] below [10^21] with [f] digits after the
    point (ECMAScript, Number.prototype.toFixed, steps 10 to 12): the digits
    of the integer [n] for which [n / 10^f - a/b] is as close to zero as
    possible, the larger [n] of two, filled up with zeros in front to
    [f + 1] digits, a point set before the last [f]. *)
Definition fixedDigits (f a b : Z) : string :=
  let n := scaledRound a b f in
  let m := digitsOf n in
  if f =? 0 then m
  else
    let k := Z.of_nat (String.length m) in
    let m := if k <=? f then (zeros (f + 1 - k) ++ m)%string else m in
    let k := if k <=? f then f + 1 else k in
    (sub 0 (k - f) m ++ "." ++ sub (k - f) f m)%string.

(** ** String.prototype.toLowerCase *)

(** Text is a sequence of bytes: the letters [A] to [Z] go to [a] to [z] and
    every other byte, so every byte of a character outside ASCII, stays.
    The lower case of a character outside ASCII is outside ASCII as well,
    but for the Kelvin sign, which goes to [k], and the dotted capital I,
    which goes to [i] followed by a combining dot: the result equals a word
    of ASCII letters without [k] exactly when the runtime's does. *)
Definition lowerChar (c : ascii) : ascii :=
  let n := Z.of_N (N_of_ascii c) in
  if (65 <=? n) && (n <=? 90) then ascii_of_N (N_of_ascii c + 32) else c.

Fixpoint toLowerCase (s : string) : string :=
  match s with
  | EmptyString => EmptyString
  | String c r => String (lowerChar c) (toLowerCase r)
  end.

End Runtime.

(* ================================================================== *)
(** * Exact arithmetic *)

(** Numbers as rationals in lowest terms, with [NaN] and the two infinities:
    the arithmetic of the runtime without its rounding (and with a single
    zero).  Equality of two such numbers is Leibniz equality. *)
Module Exact.
Import JS.

Inductive xnum : Type :=
| XNaN
| XInf (negative : bool)
| XFin (q : Qc).

Definition Qc_ltb (a b : Qc) : bool :=
  match (a ?= b)%Qc with Lt => true | _ => false end.

Definition Qc_leb (a b : Qc) : bool :=
  match (a ?= b)%Qc with Gt => false | _ => true end.

Definition Qc_eqb (a b : Qc) : bool :=
  match (a ?= b)%Qc with Eq => true | _ => false end.

Definition Qc_of_Z (z : Z) : Qc := Q2Qc (inject_Z z).

Definition isNeg (q : Qc) : bool := Qc_ltb q (Qc_of_Z 0).

Definition xadd (x y : xnum) : xnum :=
  match x, y with
  | XNaN, _ | _, XNaN => XNaN
  | XInf s, XInf t => if Bool.eqb s t then XInf s else XNaN
  | XInf s, XFin _ | XFin _, XInf s => XInf s
  | XFin a, XFin b => XFin (a + b)%Qc
  end.

Definition xmul (x y : xnum) : xnum :=
  match x, y with
  | XNaN, _ | _, XNaN => XNaN
  | XInf s, XInf t => XInf (xorb s t)
  | XInf s, XFin q | XFin q, XInf s =>
      if Qc_eqb q (Qc_of_Z 0) then XNaN else XInf (xorb s (isNeg q))
  | XFin a, XFin b => XFin (a * b)%Qc
  end.

Definition xdiv (x y : xnum) : xnum :=
  match x, y with
  | XNaN, _ | _, XNaN => XNaN
  | XInf _, XInf _ => XNaN
  | XInf s, XFin q => XInf (xorb s (isNeg q))
  | XFin _, XInf _ => XFin (Qc_of_Z 0)
  | XFin a, XFin b =>
      if Qc_eqb b (Qc_of_Z 0)
      then if Qc_eqb a (Qc_of_Z 0) then XNaN else XInf (isNeg a)
      else XFin (a / b)%Qc
  end.

Definition xltb (x y : xnum) : bool :=
  match x, y with
  | XNaN, _ | _, XNaN => false
  | XInf s, XInf t => s && negb t
  | XInf s, XFin _ => s
  | XFin _, XInf t => negb t
  | XFin a, XFin b => Qc_ltb a b
  end.

Definition xeqb (x y : xnum) : bool :=
  match x, y with
  | XNaN, _ | _, XNaN => false
  | XInf s, XInf t => Bool.eqb s t
  | XFin a, XFin b => Qc_eqb a b
  | _, _ => false
  end.

Definition xleb (x y : xnum) : bool := xltb x y || xeqb x y.

(** [Math.round] on a rational: the integer nearest to it, the larger one of
    the two when it lies half way, which is [floor (q + 1/2)]. *)
Definition roundHalfUp (q : Qc) : Z := Qfloor (q + Q2Qc (1 # 2))%Qc.

Definition xround (x : xnum) : xnum :=
  match x with
  | XFin q => XFin (Qc_of_Z (roundHalfUp q))
  | _ => x
  end.

Definition xdecimal (m e : Z) : xnum :=
  if 0 <=? e
  then XFin (Qc_of_Z (m * 10 ^ e))
  else XFin (Qc_of_Z m / Qc_of_Z (10 ^ (- e)))%Qc.

Definition exact : JSNumber := {|
  number := xnum;
  ofZ := fun z => XFin (Qc_of_Z z);
  ofDecimal := xdecimal;
  NaN := XNaN;
  add := xadd;
  mul := xmul;
  div := xdiv;
  ltb := xltb;
  leb := xleb;
  eqb := xeqb;
  Math_round := xround
|}.

(** A positive rational is printed with the digits it has, up to 17
    significant ones as for a double. *)
Definition positiveToString (q : Qc) : string :=
  let a := Qnum q in
  let b := Z.pos (Qden q) in
  let n := Runtime.exponent10 a b in
  let s := Runtime.scaledRound a b (17 - n) in
  let n := if 10 ^ 17 <=? s then n + 1 else n in
  Runtime.formatDecimal (Runtime.stripZeros 17 s) n.

Definition xtoString (x : xnum) : string :=
  match x with
  | XNaN => "NaN"
  | XInf false => "Infinity"
  | XInf true => "-Infinity"
  | XFin q =>
      if Qc_eqb q (Qc_of_Z 0) then "0"
      else if isNeg q then ("-" ++ positiveToString (- q)%Qc)%string
      else positiveToString q
  end.

Definition builtins : Builtins (N := exact) := {|
  StringToNumber := Runtime.StringToNumber (N := exact);
  NumberToString := xtoString;
  JSON_parse := Runtime.JSON_parse (N := exact)
|}.

(** [toFixed]: the sign apart, a magnitude of [10^21] or more is printed as
    [ToString] prints it, a smaller one with the digits asked for. *)
Definition xtoFixed (x : xnum) (f : nat) : string :=
  match x with
  | XFin q =>
      let negative := isNeg q in
      let q := if negative then (- q)%Qc else q in
      let m :=
        if Qc_leb (Qc_of_Z (10 ^ 21)) q then xtoString (XFin q)
        else Runtime.fixedDigits (Z.of_nat f) (Qnum q) (Z.pos (Qden q)) in
      if negative then ("-" ++ m)%string else m
  | _ => xtoString x
  end.

Definition format : NumberFormat (N := exact) :=
  @Build_NumberFormat exact xtoFixed.

End Exact.

(* ================================================================== *)
(** * IEEE 754 binary64 *)

(** The numbers of the runtime: the kernel's primitive floats, which are
    binary64 with round-to-nearest-even, as ECMAScript prescribes. *)
Module Binary64.
Import JS.

(** An integer as the nearest double (exact up to [2^53]). *)
Definition b64_of_Z (z : Z) : float :=
  SF2Prim (binary_normalize prec emax z 0 false).

(** [Math.round]: a double whose exponent is not negative is an integer
    already; otherwise [± m * 2^e] is rounded to [floor (x + 1/2)], which is
    below [2^53] in magnitude and so a double.  A result of zero keeps the
    sign of the argument. *)
Definition b64_round (x : float) : float :=
  match Prim2SF x with
  | S754_finite s m e =>
      if 0 <=? e then x
      else
        let sm := if s then Z.neg m else Z.pos m in
        let n := (sm + 2 ^ (- e - 1)) / 2 ^ (- e) in
        if n =? 0 then (if s then neg_zero else zero) else b64_of_Z n
  | _ => x
  end.

(** The double nearest to [a / b] (ties to even).  The quotient is taken
    with 64 or more significant bits and one more bit that records whether
    the division left a remainder; rounding that to 53 bits is rounding the
    fraction itself. *)
Definition b64_of_fraction (a : Z) (b : positive) : float :=
  if a =? 0 then zero
  else
    let s := 64 + Z.log2 (Z.pos b) - Z.log2 (Z.abs a) in
    let num := if 0 <=? s then Z.abs a * 2 ^ s else Z.abs a in
    let den := if 0 <=? s then Z.pos b else Z.pos b * 2 ^ (- s) in
    let q := num / den in
    let sticky := if num mod den =? 0 then 0 else 1 in
    let m := 2 * q + sticky in
    SF2Prim (binary_normalize prec emax
               (if a <? 0 then - m else m) (- s - 1) false).

Definition b64_decimal (m e : Z) : float :=
  if 0 <=? e
  then b64_of_Z (m * 10 ^ e)
  else b64_of_fraction m (Z.to_pos (10 ^ (- e))).

Definition binary64 : JSNumber := {|
  number := float;
  ofZ := b64_of_Z;
  ofDecimal := b64_decimal;
  NaN := nan;
  add := PrimFloat.add;
  mul := PrimFloat.mul;
  div := PrimFloat.div;
  ltb := PrimFloat.ltb;
  leb := PrimFloat.leb;
  eqb := PrimFloat.eqb;
  Math_round := b64_round
|}.

(** The positive double [x = a / b] has the digits of the shortest decimal
    that reads back as [x]; among the decimals of that length, the one
    nearest to [x].  [k] is the number of digits tried, [n] the decimal
    exponent of [x]; seventeen digits always suffice. *)
Fixpoint shortest (fuel : nat) (k : Z) (x : float) (a b n : Z) : Z * Z :=
  match fuel with
  | O => (0, n)
  | S fuel' =>
      let e := k - n in
      let num := if 0 <=? e then a * 10 ^ e else a in
      let den := if 0 <=? e then b else b * 10 ^ (- e) in
      let lo := num / den in
      let hi := lo + 1 in
      let okLo := (10 ^ (k - 1) <=? lo)
                  && PrimFloat.eqb (b64_decimal lo (n - k)) x in
      let okHi := PrimFloat.eqb (b64_decimal hi (n - k)) x in
      let loCloser := 2 * (num - lo * den) <=? den in
      if okLo && (negb okHi || loCloser) then (lo, n)
      else if okHi then (if hi =? 10 ^ k then (10 ^ (k - 1), n + 1) else (hi, n))
      else shortest fuel' (k + 1) x a b n
  end.

Definition b64_toString (x : float) : string :=
  match Prim2SF x with
  | S754_nan => "NaN"
  | S754_infinity false => "Infinity"
  | S754_infinity true => "-Infinity"
  | S754_zero _ => "0"
  | S754_finite negative m e =>
      let a := if 0 <=? e then Z.pos m * 2 ^ e else Z.pos m in
      let b := if 0 <=? e then 1 else 2 ^ (- e) in
      let '(s, n) := shortest 17 1 (abs x) a b (Runtime.exponent10 a b) in
      let text := Runtime.formatDecimal (Runtime.stripZeros 17 s) n in
      if negative then ("-" ++ text)%string else text
  end.

Definition builtins : Builtins (N := binary64) := {|
  StringToNumber := Runtime.StringToNumber (N := binary64);
  NumberToString := b64_toString;
  JSON_parse := Runtime.JSON_parse (N := binary64)
|}.

(** [toFixed] rounds the real number the double stands for, not its
    shortest decimal text; a zero of either sign has no sign in the
    result. *)
Definition b64_toFixed (x : float) (f : nat) : string :=
  match Prim2SF x with
  | S754_zero _ => Runtime.fixedDigits (Z.of_nat f) 0 1
  | S754_finite negative m e =>
      let a := if 0 <=? e then Z.pos m * 2 ^ e else Z.pos m in
      let b := if 0 <=? e then 1 else 2 ^ (- e) in
      let text :=
        if b * 10 ^ 21 <=? a then b64_toString (abs x)
        else Runtime.fixedDigits (Z.of_nat f) a b in
      if negative then ("-" ++ text)%string else text
  | _ => b64_toString x
  end.

Definition format : NumberFormat (N := binary64) :=
  @Build_NumberFormat binary64 b64_toFixed.

(** The sum of a list of doubles, as the runtime adds them up. *)
Definition total (l : list float) : float := fold_left PrimFloat.add l zero.

(** The real number a double stands for ([None] for [NaN] and the
    infinities). *)
Definition toQ (x : float) : option Q :=
  match Prim2SF x with
  | S754_zero _ => Some (inject_Z 0)
  | S754_finite s m e =>
      let sm := if s then Z.neg m else Z.pos m in
      Some (if 0 <=? e then inject_Z (sm * 2 ^ e)
            else Qmake sm (Z.to_pos (2 ^ (- e))))
  | _ => None
  end.

(** The sum of the real numbers a list of finite doubles stands for. *)
Fixpoint realTotal (l : list float) : option Q :=
  match l with
  | [] => Some (inject_Z 0)
  | x :: l' =>
      match toQ x, realTotal l' with
      | Some q, Some t => Some (Qred (q + t))
      | _, _ => None
      end
  end.

End Binary64.

(* ================================================================== *)
(** * The rows of [shared/schema.ts] *)

(** One record per table, with the columns the aggregation code reads.  A
    [decimal] column arrives as the text of the number (the type drizzle
    infers for it is [string]), a nullable column as an [option], a JSON
    field read by [any]-typed client code as a primitive value. *)
Module Schema.
Import JS.

Module Order.
Record t {N : JSNumber} : Type := make {
  id : Z;
  truckId : Z;
  orderNumber : string;
  items : value;
  totalAmount : string;
  status : string;
  createdAt : option Z
}.
End Order.

Module Review.
Record t : Type := make {
  id : Z;
  truckId : Z;
  customerName : string;
  rating : Z;
  comment : option string;
  createdAt : option Z
}.
End Review.

Module Location.
Record t : Type := make {
  id : Z;
  truckId : Z;
  name : string;
  address : string;
  isActive : option bool
}.
End Location.

Module InventoryItem.
Record t {N : JSNumber} : Type := make {
  id : Z;
  truckId : Z;
  name : string;
  currentStock : prim;
  unit : string;
  lowStockThreshold : prim
}.
End InventoryItem.

Module ProteinInventory.
Record t {N : JSNumber} : Type := make {
  id : Z;
  truckId : Z;
  proteinType : string;
  allocatedAmount : prim;
  currentStock : prim;
  usedAmount : prim
}.
End ProteinInventory.

Module Organization.
Record t : Type := make {
  id : Z;
  name : string;
  ownerId : string
}.
End Organization.

Module TeamMember.
Record t : Type := make {
  id : Z;
  organizationId : Z;
  userId : string;
  truckId : option Z
}.
End TeamMember.

Module FoodTruck.
Record t : Type := make {
  id : Z;
  organizationId : Z;
  name : string
}.
End FoodTruck.

End Schema.

(* ================================================================== *)
(** * [server/storage.ts] *)

Module Storage.
Import JS Schema.
Section Server.
Context {N : JSNumber} {B : Builtins}.

Record Database : Type := {
  orders : list Order.t;
  reviews : list Review.t;
  locations : list Location.t
}.

(** What a call can observe and change: the wall clock (milliseconds), the
    host's calendar (the start of the local day of an instant, and the same
    local time one day later) and the tables. *)
Record World : Type := {
  clock : Z;
  localMidnight : Z -> Z;
  localNextDay : Z -> Z;
  db : Database
}.

(** Server code runs in a world and ends normally or by throwing. *)
Definition IO (A : Type) : Type := World -> completion A * World.

Definition ret {A : Type} (a : A) : IO A := fun w => (Normal a, w).

Definition bindIO {A C : Type} (m : IO A) (k : A -> IO C) : IO C :=
  fun w =>
    match m w with
    | (Normal a, w') => k a w'
    | (Throw e, w') => (Throw e, w')
    end.

Notation "x <- m ;; k" := (bindIO m (fun x => k))
  (at level 61, m at next level, right associativity).

(** [new Date()]. *)
Definition new_Date : IO Z := fun w => (Normal (clock w), w).

(** [d.setHours(0, 0, 0, 0)]; the date object is local to the call, so the
    new instant is returned. *)
Definition setHours0 (d : Z) : IO Z := fun w => (Normal (localMidnight w d), w).

(** [d.setDate(d.getDate() + 1)]. *)
Definition setDateNext (d : Z) : IO Z := fun w => (Normal (localNextDay w d), w).

(** [db.select().from(table).where(cond)]: the rows of the table that
    satisfy the condition, the tables left as they are. *)
Definition select {R : Type} (table : Database -> list R) (cond : R -> bool)
  : IO (list R) :=
  fun w => (Normal (filter cond (table (db w))), w).

(** [eq(column, true)] on a nullable boolean column: SQL equality, which no
    [NULL] satisfies. *)
Definition eq_true (c : option bool) : bool :=
  match c with Some true => true | _ => false end.

(** [rows.length]. *)
Definition len {R : Type} (rows : list R) : Z := Z.of_nat (List.length rows).

Record DashboardStats : Type := {
  todaySales : number;
  ordersToday : number;
  averageRating : number;
  activeLocations : number
}.

Definition getDashboardStats (truckId : Z) : IO DashboardStats :=
  (* Get today's date range *)
  today <- new_Date ;;
  today <- setHours0 today ;;
  tomorrow <- setDateNext today ;;
  (* Get today's orders *)
  todayOrders <-
    select orders
      (fun o => (Order.truckId o =? truckId)
                && String.eqb (Order.status o) "completed") ;;
  (* Calculate today's sales and order count *)
  let todaySales :=
    fold_left
      (fun sum order => add sum (Number (PStr (Order.totalAmount order))))
      todayOrders (ofZ 0) in
  let ordersToday := len todayOrders in
  (* Get average rating *)
  reviewList <- select reviews (fun r => Review.truckId r =? truckId) ;;
  let averageRating :=
    if 0 <? len reviewList
    then div (fold_left (fun sum review => add sum (ofZ (Review.rating review)))
                        reviewList (ofZ 0))
             (ofZ (len reviewList))
    else ofZ 0 in
  (* Get active locations count *)
  activeLocationsList <-
    select locations
      (fun l => (Location.truckId l =? truckId)
                && eq_true (Location.isActive l)) ;;
  ret {| todaySales := todaySales;
         ordersToday := ofZ ordersToday;
         averageRating := div (Math_round (mul averageRating (ofZ 10))) (ofZ 10);
         activeLocations := ofZ (len activeLocationsList) |}.

(** [orderBy(desc(column))] on a nullable timestamp column: [a] may stand
    before [b] when it is at least as late.  PostgreSQL sorts [NULL] as
    larger than every value, so first in descending order. *)
Definition desc (a b : option Z) : bool :=
  match a, b with
  | None, _ => true
  | Some _, None => false
  | Some x, Some y => y <=? x
  end.

Fixpoint insertBy {R : Type} (before : R -> R -> bool) (r : R) (sorted : list R)
  : list R :=
  match sorted with
  | [] => [r]
  | s :: rest =>
      if before r s then r :: sorted else s :: insertBy before r rest
  end.

(** The rows in the order asked for.  Rows that the order does not tell
    apart stay as the table has them; the database promises no order among
    them, and nothing below depends on the one taken here. *)
Definition orderBy {R : Type} (before : R -> R -> bool) (rows : list R)
  : list R :=
  fold_right (insertBy before) [] rows.

(** [db.select().from(table).where(cond).orderBy(desc(column))]. *)
Definition selectOrdered {R : Type} (table : Database -> list R)
  (cond : R -> bool) (column : R -> option Z) : IO (list R) :=
  rows <- select table cond ;;
  ret (orderBy (fun a b => desc (column a) (column b)) rows).

(** [getOrdersByTruckId(truckId, limit = 50)]; [limit] is a row count. *)
Definition getOrdersByTruckId (truckId : Z) (limit : option nat)
  : IO (list Order.t) :=
  let limit := match limit with Some n => n | None => 50%nat end in
  rows <- selectOrdered orders (fun o => Order.truckId o =? truckId)
                        Order.createdAt ;;
  ret (firstn limit rows).

Definition getReviewsByTruckId (truckId : Z) : IO (list Review.t) :=
  selectOrdered reviews (fun r => Review.truckId r =? truckId) Review.createdAt.

(** [db.delete(locations).where(eq(locations.id, id))]: no table refers to
    a location by a constraint, so the statement cannot be refused. *)
Definition deleteLocation (id : Z) : IO unit :=
  fun w =>
    (Normal tt,
     {| clock := clock w;
        localMidnight := localMidnight w;
        localNextDay := localNextDay w;
        db := {| orders := orders (db w);
                 reviews := reviews (db w);
                 locations :=
                   filter (fun l => negb (Location.id l =? id))
                          (locations (db w)) |} |}).

(** The tables that say whose a truck is.  The queries on them change
    nothing and cannot fail; they are written as functions of the tables. *)
Record Directory : Type := {
  organizations : list Organization.t;
  teamMembers : list TeamMember.t;
  foodTrucks : list FoodTruck.t
}.

(** [const [row] = await query]: the first row, [undefined] if there is
    none. *)
Definition firstRow {R : Type} (rows : list R) : option R :=
  match rows with
  | [] => None
  | row :: _ => Some row
  end.

Definition getOrganizationByOwnerId (ownerId : string) (d : Directory)
  : option Organization.t :=
  firstRow (filter (fun o => String.eqb (Organization.ownerId o) ownerId)
                   (organizations d)).

Definition getTeamMemberByUserId (userId : string) (d : Directory)
  : option TeamMember.t :=
  firstRow (filter (fun m => String.eqb (TeamMember.userId m) userId)
                   (teamMembers d)).

Definition getFoodTrucksByOrganizationId (organizationId : Z) (d : Directory)
  : list FoodTruck.t :=
  filter (fun t => FoodTruck.organizationId t =? organizationId) (foodTrucks d).

(** [teamMember?.truckId] is read for its truth: a member without a truck,
    and one whose truck number is 0, are not assigned. *)
Definition getFoodTruckByUserId (userId : string) (d : Directory)
  : option FoodTruck.t :=
  (* First try to find user's organization *)
  match getOrganizationByOwnerId userId d with
  | Some organization =>
      (* If user owns an organization, get the first truck *)
      firstRow (getFoodTrucksByOrganizationId (Organization.id organization) d)
  | None =>
      (* Otherwise, check if user is a team member assigned to a truck *)
      match getTeamMemberByUserId userId d with
      | Some teamMember =>
          match TeamMember.truckId teamMember with
          | Some truckId =>
              if truckId =? 0 then None
              else firstRow (filter (fun t => FoodTruck.id t =? truckId)
                                    (foodTrucks d))
          | None => None
          end
      | None => None
      end
  end.

End Server.
End Storage.

(* ================================================================== *)
(** * The client pages *)

Module Client.
Import JS Schema.

(** [client/src/pages/reviews.tsx] *)
Module ReviewsPage.
Section Page.
Context {N : JSNumber}.

Definition len (reviews : list Review.t) : Z := Z.of_nat (List.length reviews).

Definition averageRating (reviews : list Review.t) : number :=
  if 0 <? len reviews
  then div (fold_left (fun sum review => add sum (ofZ (Review.rating review)))
                      reviews (ofZ 0))
           (ofZ (len reviews))
  else ofZ 0.

Record Bucket : Type := {
  rating : Z;
  count : Z;
  percentage : number
}.

Definition ratingDistribution (reviews : list Review.t) : list Bucket :=
  map (fun rating =>
         {| rating := rating;
            count := len (filter (fun review => Review.rating review =? rating)
                                 reviews);
            percentage :=
              if 0 <? len reviews
              then mul (div (ofZ (len (filter
                                         (fun review => Review.rating review =? rating)
                                         reviews)))
                            (ofZ (len reviews)))
                       (ofZ 100)
              else ofZ 0 |})
      [5; 4; 3; 2; 1].

Context {F : NumberFormat}.

(** [renderStars(rating, size = "h-4 w-4")]: the class of each of the five
    stars, a star being filled when [star <= rating]. *)
Definition renderStars (rating : number) (size : option string) : list string :=
  let size := match size with Some s => s | None => "h-4 w-4" end in
  map (fun star =>
         (size ++ " "
          ++ (if leb (ofZ star) rating
              then "text-yellow-400 fill-current"
              else "text-gray-300"))%string)
      [1; 2; 3; 4; 5].

(** The card "Average Rating" of the page: the mean with one digit after
    the point, and its stars. *)
Record Summary : Type := {
  averageText : string;
  averageStars : list string;
  basedOn : Z
}.

Definition summary (reviews : list Review.t) : Summary :=
  {| averageText := toFixed (averageRating reviews) 1;
     averageStars := renderStars (Math_round (averageRating reviews))
                                 (Some "h-5 w-5");
     basedOn := len reviews |}.

(** One entry of the list of reviews: its stars, and the variant of its
    badge, [review.rating >= 4 ? "default" : "destructive"]. *)
Definition reviewStars (review : Review.t) : list string :=
  renderStars (ofZ (Review.rating review)) None.

Definition ratingBadge (review : Review.t) : string :=
  if leb (ofZ 4) (ofZ (Review.rating review)) then "default" else "destructive".

End Page.
End ReviewsPage.

(** The profile page (food-truck form and review summary). *)
Module ProfilePage.
Section Page.
Context {N : JSNumber}.

Definition averageRating (reviews : list Review.t) : number :=
  if 0 <? Z.of_nat (List.length reviews)
  then div (fold_left (fun sum review => add sum (ofZ (Review.rating review)))
                      reviews (ofZ 0))
           (ofZ (Z.of_nat (List.length reviews)))
  else ofZ 0.

Context {F : NumberFormat}.

(** [{averageRating.toFixed(1)}]. *)
Definition averageText (reviews : list Review.t) : string :=
  toFixed (averageRating reviews) 1.

End Page.
End ProfilePage.

(** What a query hands to a page: the decoded response, which the dashboard
    tests with [Array.isArray] before it uses it. *)
Inductive queryData (A : Type) : Type :=
| Rows (rows : list A)
| NotAnArray.
Arguments Rows {A} rows.
Arguments NotAnArray {A}.

(** The dashboard page. *)
Module DashboardPage.
Section Page.
Context {N : JSNumber} {B : Builtins}.

(** [a && b] inside a filter callback: the callback's result is read
    through [ToBoolean], and the right operand is a boolean. *)
Definition lowStockItems (inventory : queryData InventoryItem.t)
  : list InventoryItem.t :=
  let inventoryArray :=
    match inventory with Rows rows => rows | NotAnArray => [] end in
  filter (fun item =>
            ToBoolean (InventoryItem.lowStockThreshold item)
            && leb (Number (InventoryItem.currentStock item))
                   (Number (InventoryItem.lowStockThreshold item)))
         inventoryArray.

(** [locationsArray.find((loc) => loc.isActive)]: the first location whose
    [isActive] is true ([null] is not). *)
Definition activeLocation (locations : queryData Location.t)
  : option Location.t :=
  let locationsArray :=
    match locations with Rows rows => rows | NotAnArray => [] end in
  find (fun loc => match Location.isActive loc with
                   | Some b => b
                   | None => false
                   end)
       locationsArray.

(** The card "Inventory Alerts": [lowStockItems.slice(0, 3)]. *)
Definition inventoryAlerts (inventory : queryData InventoryItem.t)
  : list InventoryItem.t :=
  firstn 3 (lowStockItems inventory).

(** The dot on the bell: [lowStockItems.length > 0]. *)
Definition bellDot (inventory : queryData InventoryItem.t) : bool :=
  0 <? Z.of_nat (List.length (lowStockItems inventory)).

End Page.
End DashboardPage.

(** The inventory page. *)
Module InventoryPage.
Section Page.
Context {N : JSNumber} {B : Builtins}.

Record StockStatus : Type := { status : string; color : string }.

Definition getStockStatus (item : InventoryItem.t) : StockStatus :=
  if ToBoolean (InventoryItem.lowStockThreshold item)
     && leb (Number (InventoryItem.currentStock item))
            (Number (InventoryItem.lowStockThreshold item))
  then {| status := "low"; color := "destructive" |}
  else {| status := "normal"; color := "default" |}.

Definition lowStockItems (inventory : list InventoryItem.t)
  : list InventoryItem.t :=
  filter (fun item =>
            ToBoolean (InventoryItem.lowStockThreshold item)
            && leb (Number (InventoryItem.currentStock item))
                   (Number (InventoryItem.lowStockThreshold item)))
         inventory.

End Page.
End InventoryPage.

(** The protein inventory page. *)
Module ProteinPage.
Section Page.
Context {N : JSNumber} {B : Builtins}.

Definition getUsagePercentage (used allocated : number) : number :=
  if gtb allocated (ofZ 0)
  then mul (div used allocated) (ofZ 100)
  else ofZ 0.

(** The literal [0.2]. *)
Definition lit_0_2 : number := ofDecimal 2 (-1).

Record Card : Type := {
  usagePercent : number;
  remaining : number;
  isLow : bool
}.

(** The values computed for one card of [proteinInventory.map]. *)
Definition proteinCard (protein : ProteinInventory.t) : Card :=
  let usagePercent :=
    getUsagePercentage (Number (ProteinInventory.usedAmount protein))
                       (Number (ProteinInventory.allocatedAmount protein)) in
  let remaining := Number (ProteinInventory.currentStock protein) in
  let isLow :=
    ltb remaining
        (mul (Number (ProteinInventory.allocatedAmount protein)) lit_0_2) in
  {| usagePercent := usagePercent; remaining := remaining; isLow := isLow |}.

End Page.
End ProteinPage.

(** [client/src/components/recent-orders.tsx] *)
Module RecentOrders.
Section Component.
Context {N : JSNumber} {B : Builtins}.

(** The template literal [`${item.quantity}x ${item.name}`]. *)
Definition renderItem (item : value) : completion string :=
  bind (getProp item "quantity") (fun quantity =>
  bind (ToString quantity) (fun q =>
  bind (getProp item "name") (fun name =>
  bind (ToString name) (fun n =>
  Normal (q ++ "x " ++ n)%string)))).

Definition formatOrderItems (items : value) : completion string :=
  let parsed : value + string :=
    match items with
    | VPrim (PStr s) =>
        match JSON_parse s with
        | Some v => inl v
        | None => inr "Invalid order data"
        end
    | _ => inl items
    end in
  match parsed with
  | inr sentinel => Normal sentinel
  | inl (VArr elems) =>
      bind (mapM renderItem elems) (fun parts => Normal (join ", " parts))
  | inl _ => Normal "No items"
  end.

Definition getStatusColor (status : string) : string :=
  let s := Runtime.toLowerCase status in
  if String.eqb s "completed" then "default"
  else if String.eqb s "preparing" then "secondary"
  else if String.eqb s "pending" then "outline"
  else if String.eqb s "cancelled" then "destructive"
  else "outline".

Context {F : NumberFormat}.

(** A row of the table, with the cells computed from the columns that
    [Order.t] holds: the number of the order, its items, its amount and its
    badge.  The two other cells, the customer's name (or "Walk-in
    Customer") and the time of day of [createdAt], cannot fail on a row of
    the table. *)
Record Row : Type := {
  orderId : string;
  itemsText : string;
  amount : string;
  badge : string;
  label : string
}.

Definition renderRow (order : Order.t) : completion Row :=
  bind (formatOrderItems (Order.items order)) (fun itemsText =>
  Normal {| orderId := ("#" ++ Order.orderNumber order)%string;
            itemsText := itemsText;
            amount := ("$" ++ toFixed (Number (PStr (Order.totalAmount order))) 2)%string;
            badge := getStatusColor (Order.status order);
            label := Order.status order |}).

(** [orders.slice(0, 10).map(...)]: an error in one row is the error of the
    card. *)
Definition tableRows (orders : list Order.t) : completion (list Row) :=
  mapM renderRow (firstn 10 orders).

End Component.
End RecentOrders.

(** [client/src/components/dashboard-stats.tsx] *)
Module StatCards.
Section Component.
Context {N : JSNumber} {B : Builtins} {F : NumberFormat}.

Record StatCard : Type := { title : string; value : string }.

(** Nothing is shown while there are no statistics. *)
Definition statCards (stats : option Storage.DashboardStats)
  : option (list StatCard) :=
  match stats with
  | None => None
  | Some stats =>
      Some [ {| title := "Today's Sales";
                value := ("$" ++ toFixed (Storage.todaySales stats) 2)%string |};
             {| title := "Orders Today";
                value := NumberToString (Storage.ordersToday stats) |};
             {| title := "Average Rating";
                value := toFixed (Storage.averageRating stats) 1 |};
             {| title := "Active Locations";
                value := NumberToString (Storage.activeLocations stats) |} ]
  end.

End Component.
End StatCards.

End Client.

(* ================================================================== *)
(** * What the claims speak of *)

Import JS Schema.

Section Specification.
Context {N : JSNumber}.

(** The sum of [f] over the elements that satisfy [p], added up from the
    left starting at [acc]. *)
Fixpoint sumOver {A : Type} (p : A -> bool) (f : A -> number) (l : list A)
  (acc : number) : number :=
  match l with
  | [] => acc
  | a :: l' => sumOver p f l' (if p a then add acc (f a) else acc)
  end.

(** The number of elements that satisfy [p]. *)
Fixpoint countOver {A : Type} (p : A -> bool) (l : list A) : Z :=
  match l with
  | [] => 0
  | a :: l' => (if p a then 1 else 0) + countOver p l'
  end.

(** An order of truck [t] whose status is ["completed"]. *)
Definition completedFor (t : Z) (o : Order.t) : bool :=
  (Order.truckId o =? t) && String.eqb (Order.status o) "completed".

(** A location of truck [t] with [isActive == true]. *)
Definition activeFor (t : Z) (l : Location.t) : bool :=
  (Location.truckId l =? t)
  && match Location.isActive l with Some b => b | None => false end.

(** The reviews of truck [t], in table order. *)
Definition reviewsOf (t : Z) (rs : list Review.t) : list Review.t :=
  filter (fun r => Review.truckId r =? t) rs.

Definition sumRatings (rs : list Review.t) : Z :=
  fold_right (fun r s => Review.rating r + s) 0 rs.

(** The rounding to one decimal place of [getDashboardStats]:
    [Math.round(x * 10) / 10]. *)
Definition round1 (x : number) : number :=
  div (Math_round (mul x (ofZ 10))) (ofZ 10).

(** An order with another creation time. *)
Definition restamp (f : Order.t -> option Z) (o : Order.t) : Order.t :=
  {| Order.id := Order.id o;
     Order.truckId := Order.truckId o;
     Order.orderNumber := Order.orderNumber o;
     Order.items := Order.items o;
     Order.totalAmount := Order.totalAmount o;
     Order.status := Order.status o;
     Order.createdAt := f o |}.

(** [l1] is [l2] with some elements left out, the others in their order. *)
Inductive Subsequence {A : Type} : list A -> list A -> Prop :=
| sub_nil : Subsequence [] []
| sub_skip : forall a l1 l2, Subsequence l1 l2 -> Subsequence l1 (a :: l2)
| sub_keep : forall a l1 l2, Subsequence l1 l2 -> Subsequence (a :: l1) (a :: l2).

End Specification.

(** *** The statistics *)

Section DashboardSpec.
Import Storage.
Context {N : JSNumber} {B : Builtins}.

(** The statistics as a function of the tables. *)
Definition statsOf (t : Z) (d : Database) : DashboardStats :=
  {| todaySales :=
       sumOver (completedFor t) (fun o => Number (PStr (Order.totalAmount o)))
               (orders d) (ofZ 0);
     ordersToday := ofZ (countOver (completedFor t) (orders d));
     averageRating := round1 (Client.ReviewsPage.averageRating (reviewsOf t (reviews d)));
     activeLocations := ofZ (countOver (activeFor t) (locations d)) |}.

(** The world [w] with the creation time of every order replaced. *)
Definition restampOrders (f : Order.t -> option Z) (w : World) : World :=
  {| clock := clock w;
     localMidnight := localMidnight w;
     localNextDay := localNextDay w;
     db := {| orders := map (restamp f) (orders (db w));
              reviews := reviews (db w);
              locations := locations (db w) |} |}.

End DashboardSpec.

(** *** In exact arithmetic *)

Module ExactSpec.
Import Exact.

(** Rounding to the nearest integer, a tie going away from zero. *)
Definition roundHalfAway (q : Qc) : Z :=
  if Qc_leb (Qc_of_Z 0) q
  then Qfloor (q + Q2Qc (1 # 2))%Qc
  else - Qfloor (- q + Q2Qc (1 # 2))%Qc.

(** [round1] as the specification words it: round-half-away-from-zero of
    [x * 10], divided by 10. *)
Definition specRound1 (q : Qc) : Qc :=
  (Qc_of_Z (roundHalfAway (q * Qc_of_Z 10)) / Qc_of_Z 10)%Qc.

(** The arithmetic mean of the ratings of a non-empty sequence. *)
Definition mean (rs : list Review.t) : Qc :=
  (Qc_of_Z (sumRatings rs) / Qc_of_Z (Z.of_nat (List.length rs)))%Qc.

(** The average rating as the specification words it. *)
Definition specAverageRating (rs : list Review.t) : xnum :=
  match rs with
  | [] => XFin (Qc_of_Z 0)
  | _ :: _ => XFin (specRound1 (mean rs))
  end.

(** The sum of a list of numbers. *)
Definition total (l : list xnum) : xnum := fold_left xadd l (XFin (Qc_of_Z 0)).

(** Two numbers are equal when they are the same rational. *)
Definition sameNumber (x y : xnum) : bool :=
  match x, y with
  | XNaN, XNaN => true
  | XInf s, XInf t => Bool.eqb s t
  | XFin a, XFin b => Qeq_bool a b
  | _, _ => false
  end.

End ExactSpec.

(** *** Low stock and protein usage, as the specification words them *)

Section LowStockSpec.
Context {N : JSNumber} {B : Builtins}.

(** A threshold that is present: neither [null] nor absent. *)
Definition isPresent (p : prim) : bool :=
  match p with
  | PUndefined | PNull => false
  | _ => true
  end.

(** A threshold as the server delivers it.  [lowStockThreshold] is a
    nullable [decimal] column: it arrives as [null] or as the text of a
    number, which is not empty. *)
Definition delivered (p : prim) : bool :=
  match p with
  | PNull => true
  | PStr s => negb (String.eqb s EmptyString)
  | _ => false
  end.

(** Flagged iff the threshold is present and the stock is at or below it. *)
Definition specLowStock (item : InventoryItem.t) : bool :=
  isPresent (InventoryItem.lowStockThreshold item)
  && leb (Number (InventoryItem.currentStock item))
         (Number (InventoryItem.lowStockThreshold item)).

Definition specLowStockItems (items : list InventoryItem.t)
  : list InventoryItem.t :=
  filter specLowStock items.

(** A protein row with another used amount. *)
Definition withUsed (used : prim) (p : ProteinInventory.t) : ProteinInventory.t :=
  {| ProteinInventory.id := ProteinInventory.id p;
     ProteinInventory.truckId := ProteinInventory.truckId p;
     ProteinInventory.proteinType := ProteinInventory.proteinType p;
     ProteinInventory.allocatedAmount := ProteinInventory.allocatedAmount p;
     ProteinInventory.currentStock := ProteinInventory.currentStock p;
     ProteinInventory.usedAmount := used |}.

End LowStockSpec.

(** What the arithmetic must satisfy for the zero test of the protein page:
    a number that [=== 0] is not [> 0]. *)
Definition ZeroIsNotPositive (N : JSNumber) : Prop :=
  forall x : number, eqb x (ofZ 0) = true -> gtb x (ofZ 0) = false.

(** *** Order lines *)

Section OrderLines.
Context {N : JSNumber} {B : Builtins}.

(** An order line: an object whose [quantity] and [name] are primitive
    values. *)
Definition lineOf (v : value) : option (prim * prim) :=
  match v with
  | VObj props =>
      match lookup "quantity" props, lookup "name" props with
      | Some (VPrim q), Some (VPrim n) => Some (q, n)
      | _, _ => None
      end
  | _ => None
  end.

Definition isLine (v : value) : Prop := lineOf v <> None.

(** ["{quantity}x {name}"]. *)
Definition lineText (v : value) : string :=
  match lineOf v with
  | Some (q, n) => (primToString q ++ "x " ++ primToString n)%string
  | None => EmptyString
  end.

(** A value that is neither a string nor an array. *)
Definition notStringNorArray (v : value) : Prop :=
  match v with
  | VPrim (PStr _) | VArr _ => False
  | _ => True
  end.

Definition notArray (v : value) : Prop :=
  match v with
  | VArr _ => False
  | _ => True
  end.

End OrderLines.

(** *** The rating distribution, as the specification words it *)

Section DistributionSpec.
Context {N : JSNumber}.

(** The number of reviews with the rating [k]. *)
Definition countRating (k : Z) (rs : list Review.t) : Z :=
  countOver (fun r => Review.rating r =? k) rs.

(** [count / totalReviews * 100], and 0 when there is no review. *)
Definition specPercentage (k : Z) (rs : list Review.t) : number :=
  if 0 <? Z.of_nat (List.length rs)
  then mul (div (ofZ (countRating k rs)) (ofZ (Z.of_nat (List.length rs))))
           (ofZ 100)
  else ofZ 0.

Definition specBucket (rs : list Review.t) (k : Z) : Client.ReviewsPage.Bucket :=
  {| Client.ReviewsPage.rating := k;
     Client.ReviewsPage.count := countRating k rs;
     Client.ReviewsPage.percentage := specPercentage k rs |}.

Definition sumZ (l : list Z) : Z := fold_right Z.add 0 l.

End DistributionSpec.

(** *** Sample rows *)

Module Fixtures.
Import Storage.

Definition review (truck rating : Z) : Review.t :=
  Review.make 0 truck "customer" rating None None.

Definition order {N : JSNumber} (truck : Z) (status amount : string) : Order.t :=
  Order.make 0 truck "A-1" (VArr []) amount status None.

Definition location (truck : Z) (active : option bool) : Location.t :=
  Location.make 0 truck "Market" "1 Main St" active.

Definition world {N : JSNumber} (d : Database) : World :=
  {| clock := 1700000000000;
     localMidnight := fun d => d - d mod 86400000;
     localNextDay := fun d => d + 86400000;
     db := d |}.

(** Four reviews of truck 1 whose mean is -0.25: the [integer] column and
    the insert schema of the server accept any integer. *)
Definition tieBelowZero {N : JSNumber} : World :=
  world {| orders := [];
           reviews := [review 1 (-1); review 1 0; review 1 0; review 1 0];
           locations := [] |}.

(** The reviews [5, 4, 5] of truck 1, two orders and two locations. *)
Definition sample {N : JSNumber} : World :=
  world {| orders := [order 1 "completed" "12.50"; order 1 "pending" "9.00"];
           reviews := [review 1 5; review 1 4; review 1 5];
           locations := [location 1 (Some true); location 1 None] |}.

(** An inventory item with a stock and a threshold. *)
Definition stocked {N : JSNumber} (stock threshold : prim) : InventoryItem.t :=
  InventoryItem.make 0 1 "Tortillas" stock "bags" threshold.

(** A protein row with the given amounts. *)
Definition allocation {N : JSNumber} (allocated stock used : prim)
  : ProteinInventory.t :=
  ProteinInventory.make 0 1 "pork" allocated stock used.

Definition quoted (s : string) : string :=
  let quote := String (ascii_of_nat 34) EmptyString in
  (quote ++ s ++ quote)%string.

(** The JSON text of two order lines, 2 of Taco and 1.5 of Agua fresca. *)
Definition twoLines : string :=
  ("[{" ++ quoted "name" ++ ": " ++ quoted "Taco" ++ ", "
        ++ quoted "quantity" ++ ": 2}, {"
        ++ quoted "name" ++ ": " ++ quoted "Agua fresca" ++ ", "
        ++ quoted "quantity" ++ ": 1.5}]")%string.

(** The JSON text of one order line, 1 of [name]. *)
Definition oneLine (name : string) : string :=
  ("[{" ++ quoted "name" ++ ": " ++ quoted name ++ ", "
        ++ quoted "quantity" ++ ": 1}]")%string.

(** The character U+1F32E, a taco, and its two surrogates as escapes. *)
Definition taco : string :=
  string_of_list_ascii (map Runtime.byte [240; 159; 140; 174]).

Definition tacoEscaped : string := "\ud83c\udf2e".

End Fixtures.

(** *** Ordered queries, stars and further sample rows *)

(** A list in which every row may stand before all the rows after it. *)
Fixpoint sortedBy {R : Type} (before : R -> R -> bool) (l : list R) : bool :=
  match l with
  | [] => true
  | r :: rest => forallb (before r) rest && sortedBy before rest
  end.

(** The rows of a table that satisfy a condition, latest first. *)
Definition latestFirst {R : Type} (column : R -> option Z) (cond : R -> bool)
  (rows : list R) : list R :=
  Storage.orderBy (fun a b => Storage.desc (column a) (column b))
                  (filter cond rows).

(** The classes of the five stars when the stars up to [filled] are
    filled. *)
Definition starsFor (size : string) (filled : Z) : list string :=
  map (fun star =>
         let filled := star <=? filled in
         (size ++ " "
          ++ (if filled then "text-yellow-400 fill-current"
              else "text-gray-300"))%string)
      [1; 2; 3; 4; 5].

(** *** Amounts *)

(** The text of an amount of [cents] hundredths, as a [decimal(10, 2)]
    column holds it: the units, a point and two digits. *)
Definition amountText (cents : Z) : string := Runtime.fixedDigits 2 cents 100.

(** The value of a decimal digit, and of a sequence of them read from the
    left. *)
Definition digitOf (c : ascii) : Z :=
  match Runtime.digitIn 10 c with Some d => d | None => 0 end.

Definition isDigit (c : ascii) : bool :=
  match Runtime.digitIn 10 c with Some _ => true | None => false end.

Definition valueOf (l : list ascii) (acc : Z) : Z :=
  fold_left (fun a c => a * 10 + digitOf c) l acc.

(** The sum of [cents] over the elements that satisfy [p]. *)
Definition centsOver {A : Type} (p : A -> bool) (cents : A -> Z) (l : list A)
  : Z :=
  fold_right (fun a s => if p a then cents a + s else s) 0 l.

(** The characters of a sequence of decimal digits. *)
Definition chars (d : Decimal.uint) : list ascii :=
  list_ascii_of_string (NilEmpty.string_of_uint d).

(** [p] holds of the [n] numbers from [k] on. *)
Fixpoint allFrom (p : Z -> bool) (k : Z) (n : nat) : bool :=
  match n with
  | O => true
  | S n' => if p k then allFrom p (k + 1) n' else false
  end.

(** On doubles, the amount of [cents] hundredths is printed as its text. *)
Definition printsAsStored (cents : Z) : bool :=
  String.eqb
    (toFixed (NumberFormat := Binary64.format)
             (Number (B := Binary64.builtins) (PStr (amountText cents))) 2)
    (amountText cents).

(** [Math.round] of ten times the fraction [s / n], for a positive [n]. *)
Definition tenths (s n : Z) : Z := (20 * s + n) / (2 * n).

(** The [averageRating] of [n] reviews whose ratings add up to [s], as
    [getDashboardStats] computes it on doubles. *)
Definition ratingOnDoubles (s n : Z) : float :=
  round1 (N := Binary64.binary64)
         (div (JSNumber := Binary64.binary64) (ofZ s) (ofZ n)).

(** On doubles, adding a rating in 1..5 to the sum [s] is exact. *)
Definition sumIsExact (s : Z) : bool :=
  allFrom (fun r =>
             Leibniz.eqb (add (JSNumber := Binary64.binary64) (ofZ s) (ofZ r))
                         (ofZ (JSNumber := Binary64.binary64) (s + r)))
          1 5.

(** On doubles, the statistic of [n] reviews is the double of the exact
    one, whatever their ratings in 1..5 add up to. *)
Definition ratingIsExact (n : Z) : bool :=
  allFrom (fun s => Leibniz.eqb (ratingOnDoubles s n)
                                (Binary64.b64_decimal (tenths s n) (-1)))
          n (Z.to_nat (4 * n + 1)).

(** On doubles, [k] tenths are printed as in exact arithmetic. *)
Definition tenthsPrintExactly (k : Z) : bool :=
  String.eqb (Binary64.b64_toFixed (Binary64.b64_decimal k (-1)) 1)
             (Runtime.fixedDigits 1 k 10).

Module Samples.
Import Storage.

(** One organization, owned by ["ana"], with the truck 7 on which ["ben"]
    works. *)
Definition elFuego : FoodTruck.t := FoodTruck.make 7 1 "El Fuego".

Definition directory : Directory :=
  {| organizations := [Organization.make 1 "Tacos" "ana"];
     teamMembers := [TeamMember.make 1 1 "ben" (Some 7)];
     foodTrucks := [elFuego] |}.

(** The rows of [Fixtures.sample] and, besides, rows of truck 2. *)
Definition twoTrucks {N : JSNumber} : World :=
  Fixtures.world
    {| orders := Fixtures.order 2 "completed" "30.00"
                 :: orders (db Fixtures.sample);
       reviews := Fixtures.review 2 1 :: reviews (db Fixtures.sample);
       locations := Fixtures.location 2 (Some true)
                    :: locations (db Fixtures.sample) |}.

(** Twenty reviews of truck 1, seven with the rating 5 and thirteen with
    the rating 4: their mean is 4.35. *)
Definition twenty {N : JSNumber} : World :=
  Fixtures.world
    {| orders := [];
       reviews := repeat (Fixtures.review 1 5) 7
                  ++ repeat (Fixtures.review 1 4) 13;
       locations := [] |}.

End Samples.

(* ================================================================== *)
(** * Properties *)

(** ** Lists *)

Section ListFacts.
Context {N : JSNumber}.

Lemma fold_left_filter_sumOver :
  forall (A : Type) (p : A -> bool) (f : A -> number) (l : list A) (acc : number),
    fold_left (fun sum a => add sum (f a)) (filter p l) acc = sumOver p f l acc.
Proof.
  intros A p f l; induction l as [| a l IH]; intros acc; simpl.
  - reflexivity.
  - destruct (p a); simpl; apply IH.
Qed.

Lemma length_filter_countOver :
  forall (A : Type) (p : A -> bool) (l : list A),
    Z.of_nat (List.length (filter p l)) = countOver p l.
Proof.
  intros A p l; induction l as [| a l IH]; simpl.
  - reflexivity.
  - destruct (p a); simpl List.length; rewrite <- IH; lia.
Qed.

Lemma filter_Subsequence :
  forall (A : Type) (p : A -> bool) (l : list A), Subsequence (filter p l) l.
Proof.
  intros A p l; induction l as [| a l IH]; simpl.
  - constructor.
  - destruct (p a); constructor; exact IH.
Qed.

Lemma completedFor_restamp :
  forall (t : Z) (f : Order.t -> option Z) (o : Order.t),
    completedFor t (restamp f o) = completedFor t o.
Proof. reflexivity. Qed.

Lemma sumOver_restamp :
  forall (B : Builtins) (t : Z) (f : Order.t -> option Z) (l : list Order.t)
         (acc : number),
    sumOver (completedFor t) (fun o => Number (PStr (Order.totalAmount o)))
            (map (restamp f) l) acc
    = sumOver (completedFor t) (fun o => Number (PStr (Order.totalAmount o)))
              l acc.
Proof.
  intros B t f l; induction l as [| o l IH]; intros acc; simpl; [reflexivity |].
  rewrite completedFor_restamp; apply IH.
Qed.

Lemma countOver_restamp :
  forall (t : Z) (f : Order.t -> option Z) (l : list Order.t),
    countOver (completedFor t) (map (restamp f) l) = countOver (completedFor t) l.
Proof.
  intros t f l; induction l as [| o l IH]; simpl; [reflexivity |].
  rewrite completedFor_restamp, IH; reflexivity.
Qed.

End ListFacts.

(** ** The server's statistics *)

Section DashboardStats.
Import Storage.
Context {N : JSNumber} {B : Builtins}.

Lemma eq_true_activeFor :
  forall (t : Z) (l : Location.t),
    (Location.truckId l =? t) && eq_true (Location.isActive l) = activeFor t l.
Proof.
  intros t l; unfold activeFor, eq_true.
  destruct (Location.isActive l) as [[|] |]; reflexivity.
Qed.

(** A call reads the clock and the tables, returns normally and leaves the
    world as it found it. *)
Lemma getDashboardStats_run :
  forall (t : Z) (w : World),
    getDashboardStats t w = (Normal (statsOf t (db w)), w).
Proof.
  intros t w.
  unfold getDashboardStats, bindIO, new_Date, setHours0, setDateNext, select, ret.
  cbv beta iota.
  unfold statsOf, Storage.len.
  f_equal. f_equal. f_equal.
  - apply (fold_left_filter_sumOver (completedFor t)).
  - f_equal. apply (length_filter_countOver (completedFor t)).
  - f_equal. rewrite (filter_ext _ (activeFor t)).
    + apply length_filter_countOver.
    + intros l; apply eq_true_activeFor.
Qed.

End DashboardStats.

Section DashboardClaims.
Import Storage.
Context {N : JSNumber} {B : Builtins}.

(** C1.  Whatever the tables and the time of the call, [getDashboardStats]
    returns as [todaySales] the sum of [totalAmount] over the orders of the
    truck whose status is ["completed"], as [ordersToday] the number of
    those orders and as [activeLocations] the number of the truck's
    locations with [isActive == true].  No day filter is applied: giving
    the orders any other creation times changes neither the sum nor the
    count. *)
Theorem getDashboardStats_totals :
  forall (t : Z) (w : World),
    exists stats : DashboardStats,
      getDashboardStats t w = (Normal stats, w)
      /\ todaySales stats
         = sumOver (completedFor t)
                   (fun o => Number (PStr (Order.totalAmount o)))
                   (orders (db w)) (ofZ 0)
      /\ ordersToday stats = ofZ (countOver (completedFor t) (orders (db w)))
      /\ activeLocations stats
         = ofZ (countOver (activeFor t) (locations (db w)))
      /\ forall f : Order.t -> option Z,
           exists stats' : DashboardStats,
             getDashboardStats t (restampOrders f w)
             = (Normal stats', restampOrders f w)
             /\ todaySales stats' = todaySales stats
             /\ ordersToday stats' = ordersToday stats.
Proof.
  intros t w.
  exists (statsOf t (db w)).
  split; [apply getDashboardStats_run |].
  repeat split.
  intros f.
  exists (statsOf t (db (restampOrders f w))).
  split; [apply getDashboardStats_run |].
  unfold statsOf, restampOrders; cbn [db orders todaySales ordersToday].
  rewrite sumOver_restamp, countOver_restamp.
  split; reflexivity.
Qed.

(** C7.  [getDashboardStats] is a function of the tables alone: two calls
    on the same tables return the same statistics whatever the clock and the
    calendar of the host say (the date range it computes is not used), each
    call returns normally, and each leaves the tables as they were. *)
Theorem getDashboardStats_pure_total :
  forall (t : Z) (d : Database) (clock1 clock2 : Z)
         (midnight1 midnight2 next1 next2 : Z -> Z),
    let w1 := {| clock := clock1; localMidnight := midnight1;
                 localNextDay := next1; db := d |} in
    let w2 := {| clock := clock2; localMidnight := midnight2;
                 localNextDay := next2; db := d |} in
    exists stats : DashboardStats,
      getDashboardStats t w1 = (Normal stats, w1)
      /\ getDashboardStats t w2 = (Normal stats, w2).
Proof.
  intros t d clock1 clock2 midnight1 midnight2 next1 next2 w1 w2.
  exists (statsOf t d).
  split; [apply (getDashboardStats_run t w1) | apply (getDashboardStats_run t w2)].
Qed.


End DashboardClaims.

(** ** Exact arithmetic *)

Module ExactFacts.
Import Exact.

Lemma this_of_Z : forall z : Z, (this (Qc_of_Z z) == inject_Z z)%Q.
Proof. intros z; unfold Qc_of_Z, Q2Qc; cbn [this]; apply Qred_correct. Qed.

Lemma Qc_of_Z_add :
  forall a b : Z, Qc_of_Z (a + b) = (Qc_of_Z a + Qc_of_Z b)%Qc.
Proof.
  intros a b; unfold Qc_of_Z, Qcplus.
  apply Q2Qc_eq_iff; cbn [this Q2Qc]; rewrite !Qred_correct, inject_Z_plus; reflexivity.
Qed.

Lemma Qc_of_Z_inj : forall a b : Z, Qc_of_Z a = Qc_of_Z b -> a = b.
Proof.
  intros a b H; apply inject_Z_injective.
  rewrite <- (this_of_Z a), <- (this_of_Z b), H; reflexivity.
Qed.

Lemma Qc_eqb_eq : forall a b : Qc, Qc_eqb a b = true <-> a = b.
Proof.
  intros a b; unfold Qc_eqb; rewrite Qceq_alt.
  destruct (a ?= b)%Qc; split; intros H; try reflexivity; discriminate.
Qed.

Lemma Qc_eqb_neq : forall a b : Qc, Qc_eqb a b = false <-> a <> b.
Proof.
  intros a b; rewrite <- Qc_eqb_eq; destruct (Qc_eqb a b); split; intros H;
    try reflexivity; try discriminate; exfalso; apply H; reflexivity.
Qed.

Lemma Qc_of_Z_eqb : forall a b : Z, Qc_eqb (Qc_of_Z a) (Qc_of_Z b) = (a =? b).
Proof.
  intros a b; destruct (Z.eqb_spec a b) as [E | E].
  - subst; apply Qc_eqb_eq; reflexivity.
  - apply Qc_eqb_neq; intros H; apply E, Qc_of_Z_inj, H.
Qed.

Lemma Qc_of_Z_lt : forall a b : Z, a < b -> (Qc_of_Z a < Qc_of_Z b)%Qc.
Proof.
  intros a b H; unfold Qclt; rewrite !this_of_Z, <- Zlt_Qlt; exact H.
Qed.

Lemma Qc_of_Z_le : forall a b : Z, a <= b -> (Qc_of_Z a <= Qc_of_Z b)%Qc.
Proof.
  intros a b H; unfold Qcle; rewrite !this_of_Z, <- Zle_Qle; exact H.
Qed.

Lemma Qc_of_Z_nonzero : forall z : Z, z <> 0 -> Qc_of_Z z <> Qc_of_Z 0.
Proof. intros z H E; apply H, Qc_of_Z_inj, E. Qed.

(** An integer is its own rounding. *)
Lemma roundHalfUp_of_Z : forall k : Z, roundHalfUp (Qc_of_Z k) = k.
Proof.
  intros k; unfold roundHalfUp.
  assert (E : (this (Qc_of_Z k + Q2Qc (1 # 2))%Qc == (2 * k + 1) # 2)%Q).
  { unfold Qcplus; cbn [this Q2Qc]; rewrite !Qred_correct, this_of_Z.
    unfold Qeq, Qplus, inject_Z; cbn [Qnum Qden]; lia. }
  rewrite E; unfold Qfloor.
  change (Z.pos 2) with 2.
  Z.div_mod_to_equations; lia.
Qed.

(** The rounding to one decimal place, on a rational. *)
Lemma round1_rational :
  forall q : Qc,
    round1 (N := exact) (XFin q)
    = XFin (Qc_of_Z (roundHalfUp (q * Qc_of_Z 10)) / Qc_of_Z 10)%Qc.
Proof. intros q; reflexivity. Qed.

Lemma tenth_times_ten :
  forall q : Qc, (q / Qc_of_Z 10 * Qc_of_Z 10)%Qc = q.
Proof.
  intros q.
  assert (H : Qc_of_Z 10 <> 0%Qc) by (apply (Qc_of_Z_nonzero (z := 10)); lia).
  field; exact H.
Qed.

(** The ratings of a sequence add up, in the numbers, to their integer
    sum. *)
Lemma fold_ratings :
  forall (rs : list Review.t) (acc : Z),
    fold_left (fun sum review => add (JSNumber := exact) sum
                                     (ofZ (Review.rating review)))
              rs (XFin (Qc_of_Z acc))
    = XFin (Qc_of_Z (acc + sumRatings rs)).
Proof.
  induction rs as [| r rs IH]; intros acc; simpl.
  - f_equal; f_equal; lia.
  - rewrite <- Qc_of_Z_add, IH; f_equal; f_equal; lia.
Qed.

End ExactFacts.

(** ** Rounding and the average rating *)

Module RoundingClaims.
Import Exact ExactSpec ExactFacts Storage.

Lemma Qc_of_Z_opp : forall z : Z, (- Qc_of_Z z)%Qc = Qc_of_Z (- z).
Proof.
  intros z; unfold Qcopp, Qc_of_Z.
  apply Q2Qc_eq_iff; cbn [this Q2Qc]; rewrite Qred_correct.
  unfold Qeq, Qopp, inject_Z; cbn [Qnum Qden]; lia.
Qed.

Lemma Qc_leb_le : forall a b : Qc, Qc_leb a b = true <-> (a <= b)%Qc.
Proof.
  intros a b; unfold Qc_leb; rewrite Qcle_alt.
  destruct (a ?= b)%Qc; split; intros H; try reflexivity; try discriminate;
    try (intros E; discriminate); exfalso; apply H; reflexivity.
Qed.

Lemma roundHalfAway_nonneg :
  forall q : Qc, (Qc_of_Z 0 <= q)%Qc -> roundHalfAway q = roundHalfUp q.
Proof.
  intros q H; unfold roundHalfAway.
  apply Qc_leb_le in H; rewrite H; reflexivity.
Qed.

Lemma roundHalfAway_of_Z : forall k : Z, roundHalfAway (Qc_of_Z k) = k.
Proof.
  intros k; unfold roundHalfAway.
  destruct (Qc_leb (Qc_of_Z 0) (Qc_of_Z k)).
  - apply roundHalfUp_of_Z.
  - rewrite Qc_of_Z_opp.
    change (- roundHalfUp (Qc_of_Z (- k)) = k).
    rewrite roundHalfUp_of_Z; lia.
Qed.

(** C8.  Rounding to one decimal place is idempotent on every rational:
    [round1 (round1 x) = round1 x], for the rounding of the code
    ([Math.round(x * 10) / 10]) and for round-half-away-from-zero as
    well. *)
Theorem round1_idempotent :
  forall q : Qc,
    round1 (N := exact) (round1 (N := exact) (XFin q))
    = round1 (N := exact) (XFin q)
    /\ specRound1 (specRound1 q) = specRound1 q.
Proof.
  intros q; split.
  - rewrite (round1_rational q), round1_rational.
    rewrite tenth_times_ten, roundHalfUp_of_Z; reflexivity.
  - unfold specRound1 at 1 2.
    rewrite tenth_times_ten, roundHalfAway_of_Z; reflexivity.
Qed.

Lemma Qc_div_nonneg :
  forall a b : Qc,
    (Qc_of_Z 0 <= a)%Qc -> (Qc_of_Z 0 < b)%Qc -> (Qc_of_Z 0 <= a / b)%Qc.
Proof.
  intros a b Ha Hb; unfold Qcle, Qclt in *.
  unfold Qcdiv, Qcmult, Qcinv; cbn [this Q2Qc] in *.
  rewrite !Qred_correct in *.
  apply Qmult_le_0_compat; [exact Ha |].
  apply Qinv_le_0_compat, Qlt_le_weak, Hb.
Qed.

Lemma Qc_mul_nonneg :
  forall a b : Qc,
    (Qc_of_Z 0 <= a)%Qc -> (Qc_of_Z 0 <= b)%Qc -> (Qc_of_Z 0 <= a * b)%Qc.
Proof.
  intros a b Ha Hb; unfold Qcle in *.
  unfold Qcmult; cbn [this Q2Qc] in *.
  rewrite !Qred_correct in *.
  apply Qmult_le_0_compat; assumption.
Qed.

(** The unrounded mean, as the pages and the server compute it. *)
Lemma averageRating_mean :
  forall (r : Review.t) (rs : list Review.t),
    Client.ReviewsPage.averageRating (N := exact) (r :: rs)
    = XFin (mean (r :: rs)).
Proof.
  intros r rs.
  unfold Client.ReviewsPage.averageRating, Client.ReviewsPage.len.
  assert (L : 0 < Z.of_nat (List.length (r :: rs))) by (simpl List.length; lia).
  apply Z.ltb_lt in L; rewrite L.
  change (ofZ (JSNumber := exact) 0) with (XFin (Qc_of_Z 0)).
  rewrite fold_ratings.
  change (xdiv (XFin (Qc_of_Z (0 + sumRatings (r :: rs))))
               (XFin (Qc_of_Z (Z.of_nat (List.length (r :: rs)))))
          = XFin (mean (r :: rs))).
  unfold xdiv.
  rewrite Qc_of_Z_eqb.
  apply Z.ltb_lt in L.
  destruct (Z.eqb_spec (Z.of_nat (List.length (r :: rs))) 0) as [E | _]; [lia |].
  reflexivity.
Qed.

(** In exact arithmetic the mean does not depend on the order in which a
    query returns the reviews. *)
Lemma averageRating_order_free :
  forall rs rs' : list Review.t,
    Permutation rs rs' ->
    Client.ReviewsPage.averageRating (N := exact) rs
    = Client.ReviewsPage.averageRating (N := exact) rs'.
Proof.
  intros rs rs' P.
  assert (S : sumRatings rs = sumRatings rs')
    by (induction P; simpl; lia).
  pose proof (Permutation_length P) as L.
  destruct rs as [| r rs]; destruct rs' as [| r' rs']; try discriminate.
  - reflexivity.
  - rewrite !averageRating_mean; unfold mean; rewrite S, L; reflexivity.
Qed.

Lemma mean_nonneg :
  forall (r : Review.t) (rs : list Review.t),
    0 <= sumRatings (r :: rs) ->
    (Qc_of_Z 0 <= mean (r :: rs) * Qc_of_Z 10)%Qc.
Proof.
  intros r rs H; unfold mean.
  apply Qc_mul_nonneg.
  - apply Qc_div_nonneg.
    + apply Qc_of_Z_le, H.
    + apply Qc_of_Z_lt; simpl List.length; lia.
  - apply Qc_of_Z_le; lia.
Qed.

Lemma sumRatings_in_range :
  forall rs : list Review.t,
    Forall (fun r => 1 <= Review.rating r <= 5) rs -> 0 <= sumRatings rs.
Proof.
  induction 1 as [| r rs Hr _ IH]; simpl; lia.
Qed.

Lemma sameNumber_eq : forall x y : xnum, sameNumber x y = true -> x = y.
Proof.
  intros [| s | a] [| t | b] H; simpl in H; try discriminate.
  - reflexivity.
  - apply Bool.eqb_prop in H; subst; reflexivity.
  - f_equal; apply Qc_is_canon, Qeq_bool_iff, H.
Qed.

Ltac number_eq := apply sameNumber_eq; vm_compute; reflexivity.

(** The average rating in exact arithmetic. *)
Lemma averageRating_exact :
  forall (B : Builtins (N := exact)) (t : Z) (d : Database),
    averageRating (statsOf t d)
    = match reviewsOf t (reviews d) with
      | [] => XFin (Qc_of_Z 0)
      | r :: rs =>
          XFin (Qc_of_Z (roundHalfUp (mean (r :: rs) * Qc_of_Z 10))
                / Qc_of_Z 10)%Qc
      end.
Proof.
  intros B t d; unfold statsOf; cbn [averageRating].
  destruct (reviewsOf t (reviews d)) as [| r rs].
  - number_eq.
  - rewrite averageRating_mean; apply round1_rational.
Qed.

(** C2, as the code has it.  [averageRating] is 0 when the truck has no
    review; otherwise it is the arithmetic mean of the ratings, times 10,
    rounded by [Math.round] (to the nearest integer, a tie going up) and
    divided by 10.  Whenever the ratings do not sum below zero, and so
    whenever they all lie in 1..5, that is round-half-away-from-zero.  The
    ratings [5, 4, 5] give 4.7, in exact arithmetic and on doubles. *)
Theorem averageRating_rounded_mean :
  (forall (B : Builtins (N := exact)) (t : Z) (w : World (N := exact)),
      let rs := reviewsOf t (reviews (db w)) in
      exists stats : DashboardStats (N := exact),
        getDashboardStats t w = (Normal stats, w)
        /\ averageRating stats
           = match rs with
             | [] => XFin (Qc_of_Z 0)
             | _ :: _ =>
                 XFin (Qc_of_Z (roundHalfUp (mean rs * Qc_of_Z 10))
                       / Qc_of_Z 10)%Qc
             end
        /\ (0 <= sumRatings rs -> averageRating stats = specAverageRating rs)
        /\ (Forall (fun r => 1 <= Review.rating r <= 5) rs ->
            averageRating stats = specAverageRating rs))
  /\ averageRating (statsOf (B := Exact.builtins) 1 (db Fixtures.sample))
     = XFin (Q2Qc (47 # 10))
  /\ averageRating (statsOf (B := Binary64.builtins) 1 (db Fixtures.sample))
     = 4.7%float.
Proof.
  split; [| split].
  - intros B t w rs.
    exists (statsOf t (db w)).
    split; [apply getDashboardStats_run |].
    assert (A : 0 <= sumRatings rs ->
                averageRating (statsOf t (db w)) = specAverageRating rs).
    { intros H; rewrite averageRating_exact; fold rs.
      destruct rs as [| r rs']; [reflexivity |].
      unfold specAverageRating, specRound1.
      rewrite roundHalfAway_nonneg by (apply mean_nonneg, H).
      reflexivity. }
    split.
    { rewrite averageRating_exact; fold rs.
      destruct rs as [| r rs']; reflexivity. }
    split; [exact A |].
    intros H; apply A, sumRatings_in_range, H.
  - number_eq.
  - vm_compute; reflexivity.
Qed.

Local Abbreviation tieExact := (Fixtures.tieBelowZero (N := exact)).
Local Abbreviation tieDouble := (Fixtures.tieBelowZero (N := Binary64.binary64)).

(** C2 as the claim words it fails below zero: four reviews with the ratings
    [-1, 0, 0, 0] have the mean -0.25; [Math.round(-2.5)] is -2 and the
    statistic is -0.2, in exact arithmetic and on doubles, where
    round-half-away-from-zero gives -0.3. *)
Lemma averageRating_tie_below_zero :
  (exists stats : DashboardStats,
      getDashboardStats (B := Exact.builtins) 1 tieExact
      = (Normal stats, tieExact)
      /\ averageRating stats = XFin (Q2Qc (-2 # 10))
      /\ specAverageRating (reviewsOf 1 (reviews (db tieExact)))
         = XFin (Q2Qc (-3 # 10))
      /\ averageRating stats
         <> specAverageRating (reviewsOf 1 (reviews (db tieExact))))
  /\ exists stats : DashboardStats,
       getDashboardStats (B := Binary64.builtins) 1 tieDouble
       = (Normal stats, tieDouble)
       /\ averageRating stats = (-0.2)%float.
Proof.
  split.
  - exists (statsOf (B := Exact.builtins) 1 (db tieExact)).
    split; [apply getDashboardStats_run |].
    assert (E1 : averageRating (statsOf (B := Exact.builtins) 1 (db tieExact))
                 = XFin (Q2Qc (-2 # 10))) by number_eq.
    assert (E2 : specAverageRating (reviewsOf 1 (reviews (db tieExact)))
                 = XFin (Q2Qc (-3 # 10))) by number_eq.
    split; [exact E1 |]. split; [exact E2 |].
    rewrite E1, E2; intros H; inversion H.
  - exists (statsOf (B := Binary64.builtins) 1 (db tieDouble)).
    split; [apply getDashboardStats_run | vm_compute; reflexivity].
Qed.

End RoundingClaims.

(** ** Low stock *)

Section LowStockClaims.
Import Client.
Context {N : JSNumber} {B : Builtins}.

Lemma zero_is_falsy :
  forall z : number, eqb z (ofZ 0) = true -> ToBoolean (PNum z) = false.
Proof.
  intros z H; unfold ToBoolean, numberToBoolean.
  rewrite H; apply andb_false_r.
Qed.

(** The two pages filter alike. *)
Lemma lowStockItems_same :
  forall items : list InventoryItem.t,
    DashboardPage.lowStockItems (Rows items) = InventoryPage.lowStockItems items.
Proof. reflexivity. Qed.

(** An item is flagged iff its threshold is truthy ([null], [undefined],
    [false], the empty string and the numbers 0 and [NaN] are not; every
    other number and every non-empty string is) and its stock, as a number,
    is at or below the threshold, as a number.  An item without a threshold
    is never flagged; the result is the flagged items in the order of the
    input; the dashboard, whose data may not be an array, then has no item
    to flag. *)
Lemma lowStockItems_filter :
  forall items : list InventoryItem.t,
    (forall item : InventoryItem.t,
        In item (InventoryPage.lowStockItems items)
        <-> In item items
            /\ ToBoolean (InventoryItem.lowStockThreshold item) = true
            /\ leb (Number (InventoryItem.currentStock item))
                   (Number (InventoryItem.lowStockThreshold item)) = true)
    /\ (forall item : InventoryItem.t,
           isPresent (InventoryItem.lowStockThreshold item) = false ->
           ~ In item (InventoryPage.lowStockItems items))
    /\ Subsequence (InventoryPage.lowStockItems items) items
    /\ DashboardPage.lowStockItems (Rows items)
       = InventoryPage.lowStockItems items
    /\ DashboardPage.lowStockItems NotAnArray = []
    /\ (forall p : prim,
           ToBoolean p
           = match p with
             | PUndefined | PNull => false
             | PBool b => b
             | PNum n => eqb n n && negb (eqb n (ofZ 0))
             | PStr s => negb (String.eqb s EmptyString)
             end).
Proof.
  intros items.
  assert (I : forall item : InventoryItem.t,
             In item (InventoryPage.lowStockItems items)
             <-> In item items
                 /\ ToBoolean (InventoryItem.lowStockThreshold item) = true
                 /\ leb (Number (InventoryItem.currentStock item))
                        (Number (InventoryItem.lowStockThreshold item)) = true).
  { intros item; unfold InventoryPage.lowStockItems.
    rewrite filter_In, andb_true_iff; reflexivity. }
  split; [exact I |].
  split.
  { intros item H Hin; apply I in Hin; destruct Hin as [_ [T _]].
    destruct (InventoryItem.lowStockThreshold item); simpl in *; discriminate. }
  split; [apply filter_Subsequence |].
  split; [reflexivity |].
  split; [reflexivity |].
  intros [| | b | n | s]; reflexivity.
Qed.

(** On a threshold as the server delivers it, truthy is present. *)
Lemma delivered_truthy :
  forall p : prim, delivered p = true -> ToBoolean p = isPresent p.
Proof.
  intros [| | b | n | s] H; try discriminate H; [reflexivity |].
  simpl in *; exact H.
Qed.

(** On rows whose thresholds are as delivered, the test of the pages is the
    test of the specification. *)
Lemma lowStock_delivered :
  forall items : list InventoryItem.t,
    Forall (fun item => delivered (InventoryItem.lowStockThreshold item) = true)
           items ->
    InventoryPage.lowStockItems items = specLowStockItems items.
Proof.
  intros items D; unfold InventoryPage.lowStockItems, specLowStockItems.
  apply filter_ext_in; intros item Hin.
  rewrite Forall_forall in D.
  unfold specLowStock; rewrite (delivered_truthy _ (D item Hin)); reflexivity.
Qed.

(** C3.  On the rows the server delivers, where a threshold is [null] or
    the text of a number, both pages flag an item iff its threshold is
    present and its stock is at or below it; an item without a threshold is
    never flagged, whatever its stock; the result is the flagged items in
    the order of the input, and it is the filter as the specification words
    it. *)
Theorem lowStockItems_delivered :
  forall items : list InventoryItem.t,
    Forall (fun item => delivered (InventoryItem.lowStockThreshold item) = true)
           items ->
    (forall item : InventoryItem.t,
        In item (InventoryPage.lowStockItems items)
        <-> In item items
            /\ isPresent (InventoryItem.lowStockThreshold item) = true
            /\ leb (Number (InventoryItem.currentStock item))
                   (Number (InventoryItem.lowStockThreshold item)) = true)
    /\ (forall item : InventoryItem.t,
           isPresent (InventoryItem.lowStockThreshold item) = false ->
           ~ In item (InventoryPage.lowStockItems items))
    /\ Subsequence (InventoryPage.lowStockItems items) items
    /\ InventoryPage.lowStockItems items = specLowStockItems items
    /\ DashboardPage.lowStockItems (Rows items) = specLowStockItems items.
Proof.
  intros items D.
  pose proof (lowStock_delivered D) as E.
  split.
  { intros item; rewrite E; unfold specLowStockItems, specLowStock.
    rewrite filter_In, andb_true_iff; reflexivity. }
  split.
  { intros item H; rewrite E; unfold specLowStockItems, specLowStock.
    rewrite filter_In, H; intros [_ F]; discriminate F. }
  split; [apply filter_Subsequence |].
  split; [exact E |].
  rewrite lowStockItems_same; exact E.
Qed.

(** C9.  The threshold is tested for truthiness.  An item whose threshold
    is the number 0 is flagged by neither page, whatever its stock, and its
    stock status is "normal": 0 is not truthy.  An item whose threshold is
    a non-empty text, as a [decimal] column delivers also a threshold of 0,
    is flagged by both pages exactly when its stock is at or below the
    threshold, and its stock status is then "low": a non-empty text is
    truthy whatever number it reads as. *)
Theorem zero_threshold_low_stock :
  forall (items : list InventoryItem.t) (item : InventoryItem.t),
    (forall z : number,
        InventoryItem.lowStockThreshold item = PNum z ->
        eqb z (ofZ 0) = true ->
        ~ In item (DashboardPage.lowStockItems (Rows items))
        /\ ~ In item (InventoryPage.lowStockItems items)
        /\ InventoryPage.getStockStatus item
           = {| InventoryPage.status := "normal";
                InventoryPage.color := "default" |})
    /\ (forall s : string,
           InventoryItem.lowStockThreshold item = PStr s ->
           String.eqb s EmptyString = false ->
           (In item (DashboardPage.lowStockItems (Rows items))
            <-> In item items
                /\ leb (Number (InventoryItem.currentStock item))
                       (Number (InventoryItem.lowStockThreshold item)) = true)
           /\ (In item (InventoryPage.lowStockItems items)
               <-> In item items
                   /\ leb (Number (InventoryItem.currentStock item))
                          (Number (InventoryItem.lowStockThreshold item)) = true)
           /\ InventoryPage.getStockStatus item
              = if leb (Number (InventoryItem.currentStock item))
                       (Number (InventoryItem.lowStockThreshold item))
                then {| InventoryPage.status := "low";
                        InventoryPage.color := "destructive" |}
                else {| InventoryPage.status := "normal";
                        InventoryPage.color := "default" |}).
Proof.
  intros items item; split.
  - intros z Hz H0.
    assert (F : ToBoolean (InventoryItem.lowStockThreshold item) = false)
      by (rewrite Hz; apply zero_is_falsy, H0).
    assert (NI : ~ In item (InventoryPage.lowStockItems items)).
    { unfold InventoryPage.lowStockItems; rewrite filter_In, F.
      intros [_ H]; discriminate. }
    split; [rewrite lowStockItems_same; exact NI |].
    split; [exact NI |].
    unfold InventoryPage.getStockStatus; rewrite F; reflexivity.
  - intros s Hs Hne.
    assert (T : ToBoolean (InventoryItem.lowStockThreshold item) = true)
      by (rewrite Hs; simpl; rewrite Hne; reflexivity).
    assert (I : In item (InventoryPage.lowStockItems items)
                <-> In item items
                    /\ leb (Number (InventoryItem.currentStock item))
                           (Number (InventoryItem.lowStockThreshold item)) = true).
    { unfold InventoryPage.lowStockItems; rewrite filter_In, T; reflexivity. }
    split; [rewrite lowStockItems_same; exact I |].
    split; [exact I |].
    unfold InventoryPage.getStockStatus; rewrite T; reflexivity.
Qed.

End LowStockClaims.

Module LowStockExamples.
Import Client Exact.

Local Abbreviation zero := (PNum (N := exact) (XFin (Qc_of_Z 0))).
Local Abbreviation minusThree := (PNum (N := exact) (XFin (Qc_of_Z (-3)))).
Local Abbreviation zeroDouble := (PNum (N := Binary64.binary64) 0%float).

(** Four rows as the server delivers them: below the threshold, without
    one, at a threshold of zero, above the threshold. *)
Local Abbreviation shelf :=
  [Fixtures.stocked (N := exact) (PStr "2.00") (PStr "5.00");
   Fixtures.stocked (PStr "0.00") PNull;
   Fixtures.stocked (PStr "0.00") (PStr "0.00");
   Fixtures.stocked (PStr "7.00") (PStr "5.00")].

(** C3 on the four rows of [shelf]. *)
Lemma lowStockItems_delivered_witness :
  (forall item : InventoryItem.t,
      In item (InventoryPage.lowStockItems (B := Exact.builtins) shelf)
      <-> In item shelf
          /\ isPresent (InventoryItem.lowStockThreshold item) = true
          /\ leb (Number (B := Exact.builtins) (InventoryItem.currentStock item))
                 (Number (B := Exact.builtins)
                    (InventoryItem.lowStockThreshold item)) = true)
  /\ (forall item : InventoryItem.t,
         isPresent (InventoryItem.lowStockThreshold item) = false ->
         ~ In item (InventoryPage.lowStockItems (B := Exact.builtins) shelf))
  /\ Subsequence (InventoryPage.lowStockItems (B := Exact.builtins) shelf) shelf
  /\ InventoryPage.lowStockItems (B := Exact.builtins) shelf
     = specLowStockItems (B := Exact.builtins) shelf
  /\ DashboardPage.lowStockItems (B := Exact.builtins) (Rows shelf)
     = specLowStockItems (B := Exact.builtins) shelf.
Proof.
  apply (lowStockItems_delivered (B := Exact.builtins) (items := shelf)).
  repeat constructor.
Defined.

(** The rows of [shelf] that the pages flag: the first and the third. *)
Remark shelf_flagged :
  InventoryPage.lowStockItems (B := Exact.builtins) shelf
  = [Fixtures.stocked (PStr "2.00") (PStr "5.00");
     Fixtures.stocked (PStr "0.00") (PStr "0.00")].
Proof.
  assert (T : forall (A : Type) (p : A -> bool) (a : A) (l : list A),
             p a = true -> filter p (a :: l) = a :: filter p l)
    by (intros A p a l H; simpl; rewrite H; reflexivity).
  assert (F : forall (A : Type) (p : A -> bool) (a : A) (l : list A),
             p a = false -> filter p (a :: l) = filter p l)
    by (intros A p a l H; simpl; rewrite H; reflexivity).
  unfold Client.InventoryPage.lowStockItems.
  rewrite T by (vm_compute; reflexivity).
  rewrite F by (vm_compute; reflexivity).
  rewrite T by (vm_compute; reflexivity).
  rewrite F by (vm_compute; reflexivity).
  reflexivity.
Qed.

(** The condition on the thresholds is needed.  On the number 0, which the
    column does not deliver, the pages and the specification's words part:
    an item with stock 0 and threshold 0 has a threshold and is at it, yet
    neither page flags it, in exact arithmetic and on doubles. *)
Remark zero_threshold_not_flagged :
  specLowStockItems (B := Exact.builtins) [Fixtures.stocked zero zero]
  = [Fixtures.stocked zero zero]
  /\ InventoryPage.lowStockItems (B := Exact.builtins) [Fixtures.stocked zero zero] = []
  /\ DashboardPage.lowStockItems (B := Exact.builtins)
       (Rows [Fixtures.stocked zero zero]) = []
  /\ specLowStockItems (B := Binary64.builtins) [Fixtures.stocked zeroDouble zeroDouble]
     = [Fixtures.stocked zeroDouble zeroDouble]
  /\ InventoryPage.lowStockItems (B := Binary64.builtins)
       [Fixtures.stocked zeroDouble zeroDouble] = [].
Proof.
  unfold specLowStockItems, Client.InventoryPage.lowStockItems,
    Client.DashboardPage.lowStockItems; cbn [filter].
  assert (T : forall (A : Type) (b : bool) (i : A),
             b = true -> (if b then [i] else []) = [i])
    by (intros A b i H; rewrite H; reflexivity).
  assert (F : forall (A : Type) (b : bool) (i : A),
             b = false -> (if b then [i] else []) = [])
    by (intros A b i H; rewrite H; reflexivity).
  split; [| split; [| split; [| split]]];
    (apply T || apply F); vm_compute; reflexivity.
Qed.

Local Abbreviation atZero :=
  (Fixtures.stocked (N := exact) (PStr "0.00") (PStr "0.00")).
Local Abbreviation belowZero :=
  (Fixtures.stocked (N := exact) (PStr "-3.00") (PStr "0.00")).
Local Abbreviation atZeroDouble :=
  (Fixtures.stocked (N := Binary64.binary64) (PStr "0.00") (PStr "0.00")).
Local Abbreviation belowZeroDouble :=
  (Fixtures.stocked (N := Binary64.binary64) (PStr "-3.00") (PStr "0.00")).

(** C9 as the claim words it fails on a threshold of 0 as the server
    delivers it.  The text ["0.00"] is the number 0, and an item with that
    threshold and the stock ["0.00"] or ["-3.00"] is flagged by both pages
    and has the stock status "low", in exact arithmetic and on doubles. *)
Lemma zero_decimal_threshold_flagged :
  (eqb (Number (B := Exact.builtins) (PStr "0.00")) (ofZ 0) = true
   /\ In atZero (DashboardPage.lowStockItems (B := Exact.builtins) (Rows [atZero]))
   /\ In atZero (InventoryPage.lowStockItems (B := Exact.builtins) [atZero])
   /\ InventoryPage.status (InventoryPage.getStockStatus (B := Exact.builtins) atZero)
      = "low"
   /\ In belowZero
         (DashboardPage.lowStockItems (B := Exact.builtins) (Rows [belowZero]))
   /\ In belowZero (InventoryPage.lowStockItems (B := Exact.builtins) [belowZero])
   /\ InventoryPage.status
        (InventoryPage.getStockStatus (B := Exact.builtins) belowZero)
      = "low")
  /\ eqb (Number (B := Binary64.builtins) (PStr "0.00")) (ofZ 0) = true
  /\ In atZeroDouble
        (DashboardPage.lowStockItems (B := Binary64.builtins) (Rows [atZeroDouble]))
  /\ In atZeroDouble
        (InventoryPage.lowStockItems (B := Binary64.builtins) [atZeroDouble])
  /\ InventoryPage.status
       (InventoryPage.getStockStatus (B := Binary64.builtins) atZeroDouble)
     = "low"
  /\ In belowZeroDouble
        (InventoryPage.lowStockItems (B := Binary64.builtins) [belowZeroDouble])
  /\ InventoryPage.status
       (InventoryPage.getStockStatus (B := Binary64.builtins) belowZeroDouble)
     = "low".
Proof.
  assert (I : forall (A : Type) (b : bool) (i : A),
             b = true -> In i (if b then [i] else []))
    by (intros A b i H; rewrite H; left; reflexivity).
  assert (S : forall (b : bool),
             b = true ->
             InventoryPage.status
               (if b
                then {| InventoryPage.status := "low";
                        InventoryPage.color := "destructive" |}
                else {| InventoryPage.status := "normal";
                        InventoryPage.color := "default" |})
             = "low")
    by (intros b H; rewrite H; reflexivity).
  unfold Client.InventoryPage.lowStockItems, Client.DashboardPage.lowStockItems,
    Client.InventoryPage.getStockStatus; cbn [filter].
  repeat split;
    first [apply I | apply S | idtac]; vm_compute; reflexivity.
Qed.

(** C9 on two items with the stock -3: one whose threshold is the number 0,
    one whose threshold is the text ["0.00"]. *)
Lemma zero_threshold_low_stock_witness :
  (~ In (Fixtures.stocked minusThree zero)
        (DashboardPage.lowStockItems (B := Exact.builtins)
           (Rows [Fixtures.stocked minusThree zero]))
   /\ ~ In (Fixtures.stocked minusThree zero)
           (InventoryPage.lowStockItems (B := Exact.builtins)
              [Fixtures.stocked minusThree zero])
   /\ InventoryPage.getStockStatus (B := Exact.builtins)
        (Fixtures.stocked minusThree zero)
      = {| InventoryPage.status := "normal";
           InventoryPage.color := "default" |})
  /\ (In belowZero
         (DashboardPage.lowStockItems (B := Exact.builtins) (Rows [belowZero]))
      <-> In belowZero [belowZero]
          /\ leb (Number (B := Exact.builtins) (InventoryItem.currentStock belowZero))
                 (Number (B := Exact.builtins)
                    (InventoryItem.lowStockThreshold belowZero)) = true)
  /\ (In belowZero (InventoryPage.lowStockItems (B := Exact.builtins) [belowZero])
      <-> In belowZero [belowZero]
          /\ leb (Number (B := Exact.builtins) (InventoryItem.currentStock belowZero))
                 (Number (B := Exact.builtins)
                    (InventoryItem.lowStockThreshold belowZero)) = true)
  /\ InventoryPage.getStockStatus (B := Exact.builtins) belowZero
     = if leb (Number (B := Exact.builtins) (InventoryItem.currentStock belowZero))
              (Number (B := Exact.builtins)
                 (InventoryItem.lowStockThreshold belowZero))
       then {| InventoryPage.status := "low";
               InventoryPage.color := "destructive" |}
       else {| InventoryPage.status := "normal";
               InventoryPage.color := "default" |}.
Proof.
  split.
  - apply (proj1 (zero_threshold_low_stock (B := Exact.builtins)
                    [Fixtures.stocked minusThree zero]
                    (Fixtures.stocked minusThree zero))
             (XFin (Qc_of_Z 0)));
      reflexivity.
  - apply (proj2 (zero_threshold_low_stock (B := Exact.builtins)
                    [belowZero] belowZero) "0.00");
      reflexivity.
Defined.

End LowStockExamples.

(** ** Protein usage *)

Module ProteinClaims.
Import Client.

Lemma exact_zero_is_not_positive : ZeroIsNotPositive Exact.exact.
Proof.
  intros [| s | q]; unfold gtb; cbn [eqb ltb ofZ Exact.exact Exact.xeqb Exact.xltb];
    try discriminate.
  unfold Exact.Qc_eqb, Exact.Qc_ltb, Qccompare.
  rewrite <- (Qcompare_antisym (Exact.Qc_of_Z 0) q).
  destruct (Qcompare (Exact.Qc_of_Z 0) q); cbn [CompOpp]; intros H;
    try reflexivity; discriminate.
Qed.

Lemma binary64_zero_is_not_positive : ZeroIsNotPositive Binary64.binary64.
Proof.
  intros x; unfold gtb; simpl.
  rewrite eqb_spec, ltb_spec.
  change (Prim2SF (Binary64.b64_of_Z 0)) with (S754_zero false).
  unfold SFeqb, SFltb, SFcompare.
  destruct (Prim2SF x) as [s | s | | s m e]; try destruct s;
    intros H; try reflexivity; discriminate.
Qed.

Section Generic.
Context {N : JSNumber} (L : ZeroIsNotPositive N) {B : Builtins}.

(** C4.  For every protein row, with [used], [allocated] and [stock] the
    numbers its amounts convert to: the usage percentage is
    [used / allocated * 100] when [allocated > 0] and 0 when
    [allocated === 0], no division taking place; [isLow] is
    [stock < allocated * 0.2]; and [isLow] is the same whatever the used
    amount. *)
Theorem proteinCard_usage :
  forall protein : ProteinInventory.t,
    let used := Number (ProteinInventory.usedAmount protein) in
    let allocated := Number (ProteinInventory.allocatedAmount protein) in
    let stock := Number (ProteinInventory.currentStock protein) in
    (gtb allocated (ofZ 0) = true ->
     ProteinPage.usagePercent (ProteinPage.proteinCard protein)
     = mul (div used allocated) (ofZ 100))
    /\ (eqb allocated (ofZ 0) = true ->
        ProteinPage.usagePercent (ProteinPage.proteinCard protein) = ofZ 0)
    /\ ProteinPage.isLow (ProteinPage.proteinCard protein)
       = ltb stock (mul allocated (ofDecimal 2 (-1)))
    /\ forall used' : prim,
         ProteinPage.isLow (ProteinPage.proteinCard (withUsed used' protein))
         = ProteinPage.isLow (ProteinPage.proteinCard protein).
Proof.
  intros protein used allocated stock.
  unfold ProteinPage.proteinCard, ProteinPage.getUsagePercentage;
    cbn [ProteinPage.usagePercent ProteinPage.isLow].
  fold used allocated stock.
  split; [intros H; rewrite H; reflexivity |].
  split; [intros H; rewrite (L _ H); reflexivity |].
  split; reflexivity.
Qed.

End Generic.

Local Abbreviation num z := (PNum (N := Exact.exact) (Exact.XFin (Exact.Qc_of_Z z))).

(** C4 on the row [{allocatedAmount: 50, currentStock: 8, usedAmount: 20}]
    and the arithmetic of exact rationals. *)
Lemma proteinCard_usage_witness :
  let protein := Fixtures.allocation (num 50) (num 8) (num 20) in
  let used := Number (B := Exact.builtins) (ProteinInventory.usedAmount protein) in
  let allocated :=
    Number (B := Exact.builtins) (ProteinInventory.allocatedAmount protein) in
  let stock :=
    Number (B := Exact.builtins) (ProteinInventory.currentStock protein) in
  (gtb allocated (ofZ 0) = true ->
   ProteinPage.usagePercent (ProteinPage.proteinCard (B := Exact.builtins) protein)
   = mul (div used allocated) (ofZ 100))
  /\ (eqb allocated (ofZ 0) = true ->
      ProteinPage.usagePercent
        (ProteinPage.proteinCard (B := Exact.builtins) protein) = ofZ 0)
  /\ ProteinPage.isLow (ProteinPage.proteinCard (B := Exact.builtins) protein)
     = ltb stock (mul allocated (ofDecimal 2 (-1)))
  /\ forall used' : prim,
       ProteinPage.isLow
         (ProteinPage.proteinCard (B := Exact.builtins) (withUsed used' protein))
       = ProteinPage.isLow
           (ProteinPage.proteinCard (B := Exact.builtins) protein).
Proof.
  exact (proteinCard_usage exact_zero_is_not_positive (B := Exact.builtins)
           (Fixtures.allocation (num 50) (num 8) (num 20))).
Defined.

(** The protein row [{allocatedAmount: 50, currentStock: 8}] is low (8 is
    below 10) and, with 20 used, 40% used; a row with nothing allocated is
    0% used.  The same holds when the amounts arrive as decimal text and the
    numbers are doubles. *)
Example protein_50_8 :
  ProteinPage.proteinCard (B := Exact.builtins)
    (Fixtures.allocation (num 50) (num 8) (num 20))
  = ProteinPage.Build_Card (N := Exact.exact)
      (Exact.XFin (Exact.Qc_of_Z 40)) (Exact.XFin (Exact.Qc_of_Z 8)) true
  /\ ProteinPage.usagePercent
       (ProteinPage.proteinCard (B := Exact.builtins)
          (Fixtures.allocation (num 0) (num 8) (num 20)))
     = Exact.XFin (Exact.Qc_of_Z 0)
  /\ ProteinPage.proteinCard (B := Binary64.builtins)
       (Fixtures.allocation (PStr "50.00") (PStr "8.00") (PStr "20.00"))
     = ProteinPage.Build_Card (N := Binary64.binary64) 40%float 8%float true
  /\ ProteinPage.usagePercent
       (ProteinPage.proteinCard (B := Binary64.builtins)
          (Fixtures.allocation (PStr "0.00") (PStr "8.00") PNull))
     = 0%float.
Proof.
  split; [| split; [| split]].
  - unfold ProteinPage.proteinCard; f_equal.
    apply RoundingClaims.sameNumber_eq; vm_compute; reflexivity.
  - apply RoundingClaims.sameNumber_eq; vm_compute; reflexivity.
  - unfold ProteinPage.proteinCard; f_equal; vm_compute; reflexivity.
  - vm_compute; reflexivity.
Qed.

End ProteinClaims.

(** ** Order items *)

Section FormatLemmas.
Import Client.RecentOrders.
Context {N : JSNumber} {B : Builtins}.

(** Text that is not JSON gives the sentinel for invalid data. *)
Lemma formatOrderItems_decode_failure :
  forall s : string,
    JSON_parse s = None ->
    formatOrderItems (VPrim (PStr s)) = Normal "Invalid order data".
Proof. intros s H; unfold formatOrderItems; rewrite H; reflexivity. Qed.

(** A value, given or decoded, that is not an array gives the sentinel for
    no items. *)
Lemma formatOrderItems_not_a_sequence :
  (forall v : value, notStringNorArray v -> formatOrderItems v = Normal "No items")
  /\ (forall (s : string) (v : value),
         JSON_parse s = Some v -> notArray v ->
         formatOrderItems (VPrim (PStr s)) = Normal "No items").
Proof.
  split.
  - intros [[| | b | n | s] | elems | props] H; simpl in H;
      try contradiction; reflexivity.
  - intros s v P H; unfold formatOrderItems; rewrite P.
    destruct v as [p | elems | props]; simpl in H;
      try contradiction; reflexivity.
Qed.

Lemma renderItem_line :
  forall v : value, isLine v -> renderItem v = Normal (lineText v).
Proof.
  intros v H; unfold isLine, lineText in *.
  destruct v as [p | elems | props]; simpl in *; try congruence.
  unfold renderItem; simpl.
  destruct (lookup "quantity" props) as [[q | | ] |]; try congruence;
    destruct (lookup "name" props) as [[n | | ] |]; try congruence.
  reflexivity.
Qed.

Lemma mapM_renderItem_lines :
  forall elems : list value,
    Forall isLine elems -> mapM renderItem elems = Normal (map lineText elems).
Proof.
  induction 1 as [| v elems Hv _ IH]; simpl.
  - reflexivity.
  - rewrite (renderItem_line Hv); simpl; rewrite IH; reflexivity.
Qed.

(** X14.  A sequence of order lines, given or decoded, is rendered line by
    line, in order, joined by [", "]. *)
Lemma formatOrderItems_lines :
  forall elems : list value,
    Forall isLine elems ->
    formatOrderItems (VArr elems) = Normal (join ", " (map lineText elems))
    /\ forall s : string,
         JSON_parse s = Some (VArr elems) ->
         formatOrderItems (VPrim (PStr s))
         = Normal (join ", " (map lineText elems)).
Proof.
  intros elems H; split.
  - unfold formatOrderItems; rewrite (mapM_renderItem_lines H); reflexivity.
  - intros s P; unfold formatOrderItems; rewrite P.
    rewrite (mapM_renderItem_lines H); reflexivity.
Qed.

(** An element that is [null] or [undefined] makes the rendering throw. *)
Lemma formatOrderItems_null_element :
  forall (before after : list value) (p : prim),
    Forall isLine before ->
    isPresent p = false ->
    formatOrderItems (VArr (before ++ VPrim p :: after)) = Throw TypeError.
Proof.
  intros before after p H Hp; unfold formatOrderItems.
  assert (E : mapM renderItem (before ++ VPrim p :: after) = Throw TypeError).
  { induction H as [| v before Hv _ IH]; simpl.
    - destruct p; simpl in Hp; try discriminate; reflexivity.
    - rewrite (renderItem_line Hv); simpl; rewrite IH; reflexivity. }
  rewrite E; reflexivity.
Qed.

End FormatLemmas.

Module FormatClaims.
Import Client.RecentOrders.

(** C5, where the code leaves it.  [formatOrderItems] does not return a
    string for every input: on a sequence that holds [null], given as such
    or as the JSON text ["[null]"], reading [item.quantity] throws a
    [TypeError] that nothing catches. *)
Theorem formatOrderItems_throws_on_null :
  (forall (N : JSNumber) (B : Builtins),
      formatOrderItems (VArr [VPrim PNull]) = Throw TypeError)
  /\ formatOrderItems (B := Exact.builtins) (VPrim (PStr "[null]"))
     = Throw TypeError
  /\ formatOrderItems (B := Binary64.builtins) (VPrim (PStr "[null]"))
     = Throw TypeError.
Proof.
  split; [| split].
  - intros N B; reflexivity.
  - vm_compute; reflexivity.
  - vm_compute; reflexivity.
Qed.

(** Text that is not JSON, a value that is not a sequence, and the text of
    a sequence of two lines. *)
Example formatOrderItems_samples :
  formatOrderItems (B := Binary64.builtins) (VPrim (PStr "not json"))
  = Normal "Invalid order data"
  /\ formatOrderItems (B := Binary64.builtins) (VPrim (PStr "{}"))
     = Normal "No items"
  /\ formatOrderItems (B := Binary64.builtins) undefined = Normal "No items"
  /\ formatOrderItems (B := Binary64.builtins)
       (VPrim (PStr Fixtures.twoLines))
     = Normal "2x Taco, 1.5x Agua fresca".
Proof. repeat split; vm_compute; reflexivity. Qed.

(** A name is the same whether the JSON text holds a character or the
    escapes of its two surrogates. *)
Example formatOrderItems_escaped_pair :
  formatOrderItems (B := Binary64.builtins)
    (VPrim (PStr (Fixtures.oneLine Fixtures.tacoEscaped)))
  = Normal ("1x " ++ Fixtures.taco)%string
  /\ formatOrderItems (B := Binary64.builtins)
       (VPrim (PStr (Fixtures.oneLine Fixtures.taco)))
     = Normal ("1x " ++ Fixtures.taco)%string.
Proof. split; vm_compute; reflexivity. Qed.

End FormatClaims.

(** ** The rating distribution *)

Module DistributionClaims.
Import Client.ReviewsPage Exact ExactSpec ExactFacts.

Section Generic.
Context {N : JSNumber}.

Lemma ratingDistribution_specBuckets :
  forall rs : list Review.t,
    ratingDistribution rs = map (specBucket rs) [5; 4; 3; 2; 1].
Proof.
  intros rs; unfold ratingDistribution, specBucket, specPercentage, countRating, len.
  cbn [map].
  rewrite !length_filter_countOver; reflexivity.
Qed.

(** Every review with a rating in 1..5 is counted in one bucket. *)
Lemma counts_partition :
  forall rs : list Review.t,
    Forall (fun r => 1 <= Review.rating r <= 5) rs ->
    countRating 5 rs + countRating 4 rs + countRating 3 rs
    + countRating 2 rs + countRating 1 rs
    = Z.of_nat (List.length rs).
Proof.
  unfold countRating.
  induction 1 as [| r rs Hr _ IH]; [reflexivity |].
  cbn [countOver List.length]; rewrite Nat2Z.inj_succ, <- IH.
  destruct (Z.eqb_spec (Review.rating r) 5), (Z.eqb_spec (Review.rating r) 4),
    (Z.eqb_spec (Review.rating r) 3), (Z.eqb_spec (Review.rating r) 2),
    (Z.eqb_spec (Review.rating r) 1); lia.
Qed.

End Generic.

Lemma exact_percentage :
  forall c n : Z,
    n <> 0 ->
    mul (JSNumber := exact) (div (ofZ c) (ofZ n)) (ofZ 100)
    = XFin (Qc_of_Z c / Qc_of_Z n * Qc_of_Z 100)%Qc.
Proof.
  intros c n H; cbn [mul div ofZ exact]; unfold xdiv.
  rewrite Qc_of_Z_eqb.
  destruct (Z.eqb_spec n 0) as [E | _]; [contradiction | reflexivity].
Qed.

Lemma exact_percentages_total :
  forall rs : list Review.t,
    Forall (fun r => 1 <= Review.rating r <= 5) rs ->
    rs <> [] ->
    total (map percentage (ratingDistribution (N := exact) rs))
    = XFin (Qc_of_Z 100).
Proof.
  intros rs H NE.
  assert (P : 0 < Z.of_nat (List.length rs))
    by (destruct rs; [contradiction | simpl List.length; lia]).
  rewrite ratingDistribution_specBuckets; cbn [map specBucket percentage].
  unfold specPercentage.
  apply Z.ltb_lt in P; rewrite P; apply Z.ltb_lt in P.
  rewrite !exact_percentage by lia.
  unfold total; cbn [fold_left xadd].
  f_equal.
  pose proof (counts_partition H) as S.
  assert (Q : (Qc_of_Z (countRating 5 rs) + Qc_of_Z (countRating 4 rs)
               + Qc_of_Z (countRating 3 rs) + Qc_of_Z (countRating 2 rs)
               + Qc_of_Z (countRating 1 rs))%Qc
              = Qc_of_Z (Z.of_nat (List.length rs)))
    by (rewrite <- !Qc_of_Z_add, S; reflexivity).
  assert (NZ : Qc_of_Z (Z.of_nat (List.length rs)) <> 0%Qc)
    by (apply (Qc_of_Z_nonzero (z := Z.of_nat (List.length rs))); lia).
  change (Qc_of_Z 0) with 0%Qc.
  set (a5 := Qc_of_Z (countRating 5 rs)) in *.
  set (a4 := Qc_of_Z (countRating 4 rs)) in *.
  set (a3 := Qc_of_Z (countRating 3 rs)) in *.
  set (a2 := Qc_of_Z (countRating 2 rs)) in *.
  set (a1 := Qc_of_Z (countRating 1 rs)) in *.
  set (n := Qc_of_Z (Z.of_nat (List.length rs))) in *.
  set (h := Qc_of_Z 100).
  transitivity ((a5 + a4 + a3 + a2 + a1) / n * h)%Qc.
  - field; exact NZ.
  - rewrite Q; field; exact NZ.
Qed.

(** C6, as the code has it.  For reviews with ratings in 1..5 the
    distribution has the five buckets 5, 4, 3, 2, 1, once each and in that
    order; each holds the number of reviews with its rating and
    [count / totalReviews * 100], or 0 when there is no review; the five
    counts sum to the number of reviews, and with no review they are all 0.
    In exact arithmetic the five percentages sum to 100 when there is a
    review. *)
Theorem ratingDistribution_buckets :
  forall rs : list Review.t,
    Forall (fun r => 1 <= Review.rating r <= 5) rs ->
    (forall N : JSNumber,
        ratingDistribution rs = map (specBucket rs) [5; 4; 3; 2; 1]
        /\ sumZ (map count (ratingDistribution rs)) = Z.of_nat (List.length rs)
        /\ (rs = [] ->
            Forall (fun b => count b = 0 /\ percentage b = ofZ 0)
                   (ratingDistribution rs)))
    /\ (rs <> [] ->
        total (map percentage (ratingDistribution (N := exact) rs))
        = XFin (Qc_of_Z 100)).
Proof.
  intros rs H; split.
  - intros N.
    split; [apply ratingDistribution_specBuckets |].
    split.
    + rewrite ratingDistribution_specBuckets; cbn [map specBucket count sumZ fold_right].
      rewrite <- (counts_partition H); lia.
    + intros E; subst rs; repeat constructor.
  - apply exact_percentages_total, H.
Qed.

Local Abbreviation threeReviews :=
  [Fixtures.review 1 5; Fixtures.review 1 4; Fixtures.review 1 3].

(** C6 on the ratings [5, 4, 3]. *)
Lemma ratingDistribution_buckets_witness :
  (forall N : JSNumber,
      ratingDistribution threeReviews
      = map (specBucket threeReviews) [5; 4; 3; 2; 1]
      /\ sumZ (map count (ratingDistribution threeReviews))
         = Z.of_nat (List.length threeReviews)
      /\ (threeReviews = [] ->
          Forall (fun b => count b = 0 /\ percentage b = ofZ 0)
                 (ratingDistribution threeReviews)))
  /\ (threeReviews <> [] ->
      total (map percentage (ratingDistribution (N := exact) threeReviews))
      = XFin (Qc_of_Z 100)).
Proof.
  apply (ratingDistribution_buckets (rs := threeReviews)).
  repeat constructor; simpl; lia.
Defined.

(** C6 as the claim words it fails on doubles: for the ratings [5, 4, 3]
    each of the three percentages is the double [1/3 * 100], which is
    33.33333333333333 and a little below a third of 100.  Added up by the
    runtime the five percentages give 99.99999999999999, and as real
    numbers they sum to a fraction that is not 100 either. *)
Lemma percentages_of_three_not_100 :
  map percentage (ratingDistribution (N := Binary64.binary64) threeReviews)
  = [33.333333333333329; 33.333333333333329; 33.333333333333329; 0; 0]%float
  /\ Binary64.total
       (map percentage (ratingDistribution (N := Binary64.binary64) threeReviews))
     = 99.999999999999986%float
  /\ PrimFloat.eqb
       (Binary64.total
          (map percentage
               (ratingDistribution (N := Binary64.binary64) threeReviews)))
       100%float
     = false
  /\ Binary64.realTotal
       (map percentage (ratingDistribution (N := Binary64.binary64) threeReviews))
     = Some (7036874417766399 # 70368744177664)
  /\ Qeq_bool (7036874417766399 # 70368744177664) (inject_Z 100) = false.
Proof. repeat split; vm_compute; reflexivity. Qed.

End DistributionClaims.

(** ** The specification's examples *)

Module Examples.
Import Storage.

(** Orders [{completed, 12.50}, {pending, 9.00}], reviews [5, 4, 5] and one
    active location out of two: sales 12.5, one order, rating 4.7, one
    active location. *)
Example dashboard_sample :
  fst (getDashboardStats (B := Binary64.builtins) 1 Fixtures.sample)
  = Normal (Build_DashboardStats (N := Binary64.binary64)
              12.5%float 1%float 4.7%float 1%float)
  /\ statsOf (B := Exact.builtins) 1 (db Fixtures.sample)
     = Build_DashboardStats (N := Exact.exact)
         (Exact.XFin (Q2Qc (25 # 2))) (Exact.XFin (Q2Qc 1))
         (Exact.XFin (Q2Qc (47 # 10))) (Exact.XFin (Q2Qc 1)).
Proof.
  split.
  - rewrite getDashboardStats_run; cbn [fst]; unfold statsOf.
    f_equal; f_equal; vm_compute; reflexivity.
  - unfold statsOf; f_equal; apply RoundingClaims.sameNumber_eq;
      vm_compute; reflexivity.
Qed.

End Examples.

(* ================================================================== *)
(** * Further properties of the code *)

(** What the code shows besides: the queries that return rows in order, the
    deletion of a location, the lookup of a user's truck, and what the pages
    make of the rows (the rows of the Recent Orders card, the badges, the
    stars, the alerts and the texts of the numbers). *)

(** ** Queries in order *)

Section OrderedQueries.
Import Storage.
Context {N : JSNumber} {B : Builtins}.

Lemma insertBy_Permutation :
  forall (R : Type) (before : R -> R -> bool) (r : R) (l : list R),
    Permutation (insertBy before r l) (r :: l).
Proof.
  intros R before r l; induction l as [| s l IH]; simpl.
  - apply Permutation_refl.
  - destruct (before r s).
    + apply Permutation_refl.
    + apply perm_trans with (s :: r :: l); [apply perm_skip, IH | apply perm_swap].
Qed.

Lemma orderBy_Permutation :
  forall (R : Type) (before : R -> R -> bool) (l : list R),
    Permutation (orderBy before l) l.
Proof.
  intros R before l; induction l as [| r l IH]; simpl.
  - apply perm_nil.
  - apply perm_trans with (r :: orderBy before l);
      [apply insertBy_Permutation | apply perm_skip, IH].
Qed.

Section Sorting.
Variables (R : Type) (before : R -> R -> bool).
Hypothesis total : forall a b : R, before a b = false -> before b a = true.
Hypothesis trans :
  forall a b c : R, before a b = true -> before b c = true -> before a c = true.

Lemma forallb_insertBy :
  forall (a r : R) (l : list R),
    before a r = true -> forallb (before a) l = true ->
    forallb (before a) (insertBy before r l) = true.
Proof.
  intros a r l Har; induction l as [| s l IH]; simpl; intros H.
  - rewrite Har; reflexivity.
  - apply andb_true_iff in H; destruct H as [Has Hl].
    destruct (before r s); simpl.
    + rewrite Har, Has, Hl; reflexivity.
    + rewrite Has, (IH Hl); reflexivity.
Qed.

Lemma sortedBy_insertBy :
  forall (r : R) (l : list R),
    sortedBy before l = true -> sortedBy before (insertBy before r l) = true.
Proof.
  intros r l; induction l as [| s l IH]; simpl; intros H.
  - reflexivity.
  - apply andb_true_iff in H; destruct H as [Hs Hl].
    destruct (before r s) eqn:E; simpl.
    + rewrite E, Hs, Hl; simpl.
      rewrite andb_true_r.
      apply forallb_forall; intros x Hx.
      apply trans with s; [exact E |].
      rewrite forallb_forall in Hs; apply Hs, Hx.
    + rewrite (IH Hl), andb_true_r.
      apply forallb_insertBy; [apply total, E | exact Hs].
Qed.

Lemma sortedBy_orderBy :
  forall l : list R, sortedBy before (orderBy before l) = true.
Proof.
  induction l as [| r l IH]; simpl; [reflexivity |].
  apply sortedBy_insertBy, IH.
Qed.

(** In a sorted list every row of a prefix may stand before every row
    after the prefix. *)
Lemma sortedBy_firstn_skipn :
  forall (n : nat) (l : list R),
    sortedBy before l = true ->
    forall a b : R, In a (firstn n l) -> In b (skipn n l) -> before a b = true.
Proof.
  induction n as [| n IH]; intros l S a b Ha Hb.
  - destruct Ha.
  - destruct l as [| r l]; [destruct Ha |].
    simpl in S, Ha, Hb.
    apply andb_true_iff in S; destruct S as [Sr Sl].
    destruct Ha as [E | Ha].
    + subst a. rewrite forallb_forall in Sr.
      apply Sr. rewrite <- (firstn_skipn n l); apply in_or_app; right; exact Hb.
    + apply (IH l Sl a b Ha Hb).
Qed.

Lemma sortedBy_firstn :
  forall (n : nat) (l : list R),
    sortedBy before l = true -> sortedBy before (firstn n l) = true.
Proof.
  induction n as [| n IH]; intros l S; [reflexivity |].
  destruct l as [| r l]; [reflexivity |].
  simpl in *. apply andb_true_iff in S; destruct S as [Sr Sl].
  rewrite (IH l Sl), andb_true_r.
  apply forallb_forall; intros x Hx.
  rewrite forallb_forall in Sr; apply Sr.
  rewrite <- (firstn_skipn n l); apply in_or_app; left; exact Hx.
Qed.

End Sorting.

Lemma desc_total :
  forall a b : option Z, desc a b = false -> desc b a = true.
Proof.
  intros [x |] [y |]; simpl; intros H; try reflexivity; try discriminate.
  apply Z.leb_le; apply Z.leb_gt in H; lia.
Qed.

Lemma desc_trans :
  forall a b c : option Z, desc a b = true -> desc b c = true -> desc a c = true.
Proof.
  intros [x |] [y |] [z |]; simpl; intros H1 H2;
    try reflexivity; try discriminate.
  apply Z.leb_le; apply Z.leb_le in H1; apply Z.leb_le in H2; lia.
Qed.

Lemma selectOrdered_run :
  forall (R : Type) (table : Database -> list R) (cond : R -> bool)
         (column : R -> option Z) (w : World),
    selectOrdered table cond column w
    = (Normal (latestFirst column cond (table (db w))), w).
Proof. reflexivity. Qed.

Lemma latestFirst_sorted :
  forall (R : Type) (column : R -> option Z) (cond : R -> bool) (rows : list R),
    sortedBy (fun a b => desc (column a) (column b))
             (latestFirst column cond rows) = true.
Proof.
  intros R column cond rows; unfold latestFirst.
  apply sortedBy_orderBy.
  - intros a b; apply desc_total.
  - intros a b c; apply desc_trans.
Qed.

Lemma latestFirst_Permutation :
  forall (R : Type) (column : R -> option Z) (cond : R -> bool) (rows : list R),
    Permutation (latestFirst column cond rows) (filter cond rows).
Proof. intros; apply orderBy_Permutation. Qed.

(** X1.  [getOrdersByTruckId(truckId, limit)] returns normally and changes
    nothing.  With [n] the limit (50 when none is given) it returns the [n]
    latest orders of the truck, latest first, an order without a creation
    time counting as the latest: the orders returned and the orders left out
    are together the orders of the truck and of no other, [n] are returned
    or all when the truck has fewer, they are in descending order of
    [createdAt], and none that is left out is later than one that is
    returned. *)
Theorem getOrdersByTruckId_latest :
  forall (t : Z) (limit : option nat) (w : World),
    let n := match limit with Some n => n | None => 50%nat end in
    let ofTruck := filter (fun o => Order.truckId o =? t) (orders (db w)) in
    exists shown rest : list Order.t,
      getOrdersByTruckId t limit w = (Normal shown, w)
      /\ Permutation (shown ++ rest) ofTruck
      /\ List.length shown = Nat.min n (List.length ofTruck)
      /\ sortedBy (fun a b => desc (Order.createdAt a) (Order.createdAt b))
                  shown = true
      /\ forall a b : Order.t,
           In a shown -> In b rest ->
           desc (Order.createdAt a) (Order.createdAt b) = true.
Proof.
  intros t limit w n ofTruck.
  set (sorted := latestFirst Order.createdAt
                             (fun o => Order.truckId o =? t) (orders (db w))).
  exists (firstn n sorted), (skipn n sorted).
  assert (P : Permutation sorted ofTruck) by apply latestFirst_Permutation.
  assert (S : sortedBy (fun a b => desc (Order.createdAt a) (Order.createdAt b))
                       sorted = true) by apply latestFirst_sorted.
  split; [reflexivity |].
  split; [rewrite firstn_skipn; exact P |].
  split; [rewrite length_firstn, (Permutation_length P); reflexivity |].
  split.
  - apply sortedBy_firstn, S.
  - apply sortedBy_firstn_skipn, S.
Qed.

Lemma firstn_firstn_min :
  forall (A : Type) (l : list A) (i j : nat),
    (i <= j)%nat -> firstn i (firstn j l) = firstn i l.
Proof.
  intros A l i j H; rewrite firstn_firstn.
  replace (Nat.min i j) with i by lia; reflexivity.
Qed.

(** X2.  The Recent Orders card shows the ten latest orders of the truck.
    The route calls [getOrdersByTruckId] without a limit; of the fifty
    orders at most that it answers with, the card renders the first ten
    ([orders.slice(0, 10)]): ten orders of the truck, or all when it has
    fewer, none of the orders left out being later than one that is
    shown. *)
Theorem recent_orders_latest_ten :
  forall (F : NumberFormat) (t : Z) (w : World),
    let ofTruck := filter (fun o => Order.truckId o =? t) (orders (db w)) in
    exists api shown rest : list Order.t,
      getOrdersByTruckId t None w = (Normal api, w)
      /\ Client.RecentOrders.tableRows api
         = mapM Client.RecentOrders.renderRow shown
      /\ Permutation (shown ++ rest) ofTruck
      /\ List.length shown = Nat.min 10 (List.length ofTruck)
      /\ forall a b : Order.t,
           In a shown -> In b rest ->
           desc (Order.createdAt a) (Order.createdAt b) = true.
Proof.
  intros F t w ofTruck.
  set (sorted := latestFirst Order.createdAt
                             (fun o => Order.truckId o =? t) (orders (db w))).
  exists (firstn 50 sorted), (firstn 10 sorted), (skipn 10 sorted).
  assert (P : Permutation sorted ofTruck) by apply latestFirst_Permutation.
  split; [reflexivity |].
  split.
  { unfold Client.RecentOrders.tableRows.
    rewrite firstn_firstn_min by lia; reflexivity. }
  split; [rewrite firstn_skipn; exact P |].
  split; [rewrite length_firstn, (Permutation_length P); reflexivity |].
  apply sortedBy_firstn_skipn, latestFirst_sorted.
Qed.

Lemma getReviewsByTruckId_run :
  forall (t : Z) (w : World),
    getReviewsByTruckId t w
    = (Normal (orderBy (fun a b => desc (Review.createdAt a) (Review.createdAt b))
                       (reviewsOf t (reviews (db w)))), w).
Proof. reflexivity. Qed.

(** ** The statistics of one truck *)

Lemma sumOver_filter :
  forall (A : Type) (p q : A -> bool) (f : A -> number) (l : list A)
         (acc : number),
    sumOver (fun a => p a && q a) f l acc = sumOver q f (filter p l) acc.
Proof.
  intros A p q f l; induction l as [| a l IH]; intros acc; simpl;
    [reflexivity |].
  destruct (p a); simpl; apply IH.
Qed.

Lemma countOver_filter :
  forall (A : Type) (p q : A -> bool) (l : list A),
    countOver (fun a => p a && q a) l = countOver q (filter p l).
Proof.
  intros A p q l; induction l as [| a l IH]; simpl; [reflexivity |].
  destruct (p a); simpl; rewrite IH; reflexivity.
Qed.

(** The statistics of a truck, from the rows of that truck alone. *)
Lemma statsOf_truck_rows :
  forall (t : Z) (d : Database),
    statsOf t d
    = {| todaySales :=
           sumOver (fun o => String.eqb (Order.status o) "completed")
                   (fun o => Number (PStr (Order.totalAmount o)))
                   (filter (fun o => Order.truckId o =? t) (orders d)) (ofZ 0);
         ordersToday :=
           ofZ (countOver (fun o => String.eqb (Order.status o) "completed")
                          (filter (fun o => Order.truckId o =? t) (orders d)));
         averageRating :=
           round1 (Client.ReviewsPage.averageRating (reviewsOf t (reviews d)));
         activeLocations :=
           ofZ (countOver (fun l => match Location.isActive l with
                                    | Some b => b
                                    | None => false
                                    end)
                          (filter (fun l => Location.truckId l =? t)
                                  (locations d))) |}.
Proof.
  intros t d; unfold statsOf.
  rewrite <- sumOver_filter, <- !countOver_filter; reflexivity.
Qed.

(** X5.  The statistics of a truck depend on the rows of that truck alone:
    two states of the tables that hold the same orders, reviews and
    locations of the truck, in the same order, give the same four numbers,
    whatever rows of other trucks they hold. *)
Theorem getDashboardStats_truck_isolation :
  forall (t : Z) (w w' : World),
    filter (fun o => Order.truckId o =? t) (orders (db w))
    = filter (fun o => Order.truckId o =? t) (orders (db w')) ->
    reviewsOf t (reviews (db w)) = reviewsOf t (reviews (db w')) ->
    filter (fun l => Location.truckId l =? t) (locations (db w))
    = filter (fun l => Location.truckId l =? t) (locations (db w')) ->
    exists stats : DashboardStats,
      getDashboardStats t w = (Normal stats, w)
      /\ getDashboardStats t w' = (Normal stats, w').
Proof.
  intros t w w' O R L.
  exists (statsOf t (db w)).
  split; [apply getDashboardStats_run |].
  rewrite getDashboardStats_run; f_equal; f_equal.
  rewrite !statsOf_truck_rows, O, R, L; reflexivity.
Qed.

(** ** Deleting a location *)

Lemma countOver_filter_out :
  forall (A : Type) (p q : A -> bool) (l : list A),
    countOver p (filter (fun a => negb (q a)) l)
    = countOver p l - countOver (fun a => p a && q a) l.
Proof.
  intros A p q l; induction l as [| a l IH]; simpl; [reflexivity |].
  destruct (q a); simpl.
  - rewrite IH, andb_true_r; lia.
  - rewrite IH, andb_false_r; lia.
Qed.

Lemma filter_idempotent :
  forall (A : Type) (p : A -> bool) (l : list A),
    filter p (filter p l) = filter p l.
Proof.
  intros A p l; induction l as [| a l IH]; simpl; [reflexivity |].
  destruct (p a) eqn:E; simpl; [rewrite E, IH |]; auto.
Qed.

(** X6.  [deleteLocation(id)] returns normally, whether or not a location
    has that id; afterwards exactly the locations with another id are left,
    and deleting once more changes nothing.  Of the statistics of any truck
    it changes [activeLocations] alone, which goes down by the number of
    active locations of the truck that had the id: sales, order count and
    average rating stay. *)
Theorem deleteLocation_statistics :
  forall (id t : Z) (w : World),
    exists (w' : World) (before after : DashboardStats),
      deleteLocation id w = (Normal tt, w')
      /\ deleteLocation id w' = (Normal tt, w')
      /\ (forall l : Location.t,
             In l (locations (db w'))
             <-> In l (locations (db w)) /\ Location.id l <> id)
      /\ getDashboardStats t w = (Normal before, w)
      /\ getDashboardStats t w' = (Normal after, w')
      /\ todaySales after = todaySales before
      /\ ordersToday after = ordersToday before
      /\ averageRating after = averageRating before
      /\ activeLocations after
         = ofZ (countOver (activeFor t) (locations (db w))
                - countOver (fun l => activeFor t l && (Location.id l =? id))
                            (locations (db w))).
Proof.
  intros id t w.
  set (w' := snd (deleteLocation id w)).
  exists w', (statsOf t (db w)), (statsOf t (db w')).
  split; [reflexivity |].
  split.
  { unfold deleteLocation at 1; cbn [db locations orders reviews w' snd
                                      clock localMidnight localNextDay deleteLocation].
    rewrite filter_idempotent; reflexivity. }
  split.
  { intros l; cbn [w' snd deleteLocation db locations].
    rewrite filter_In, negb_true_iff, Z.eqb_neq; reflexivity. }
  split; [apply getDashboardStats_run |].
  split; [apply getDashboardStats_run |].
  repeat split.
  unfold statsOf; cbn [activeLocations w' snd deleteLocation db locations].
  rewrite (countOver_filter_out (activeFor t) (fun l => Location.id l =? id)).
  reflexivity.
Qed.

End OrderedQueries.

(** ** The dashboard page *)

Section DashboardPageFacts.
Import Storage Client.
Context {N : JSNumber} {B : Builtins}.

Lemma countOver_nonneg :
  forall (A : Type) (p : A -> bool) (l : list A), 0 <= countOver p l.
Proof.
  intros A p l; induction l as [| a l IH]; simpl; [lia |].
  destruct (p a); lia.
Qed.

Lemma countOver_zero :
  forall (A : Type) (p : A -> bool) (l : list A),
    countOver p l = 0 <-> forall a : A, In a l -> p a = false.
Proof.
  intros A p l; induction l as [| a l IH]; simpl.
  - split; [intros _ a [] | reflexivity].
  - pose proof (countOver_nonneg p l) as P.
    split.
    + intros H x [E | Hx].
      * subst x; destruct (p a); [lia | reflexivity].
      * apply IH; [destruct (p a); lia | exact Hx].
    + intros H. rewrite (H a (or_introl eq_refl)).
      apply IH; intros x Hx; apply H; right; exact Hx.
Qed.

Lemma find_none_iff :
  forall (A : Type) (p : A -> bool) (l : list A),
    find p l = None <-> forall a : A, In a l -> p a = false.
Proof.
  intros A p l; split; [apply find_none |].
  induction l as [| a l IH]; simpl; intros H; [reflexivity |].
  rewrite (H a (or_introl eq_refl)).
  apply IH; intros x Hx; apply H; right; exact Hx.
Qed.

(** X7.  The dashboard page and the statistic agree on whether the truck is
    somewhere.  The page receives the locations of the truck (the route
    returns them sorted by creation time; any order of the same rows will
    do) and shows the first whose [isActive] is true; it shows "No active
    location" exactly when the count that [activeLocations] returns is 0,
    and a location it shows is a location of the truck that the statistic
    counts. *)
Theorem activeLocation_matches_statistic :
  forall (t : Z) (w : World) (api : list Location.t),
    Permutation api
                (filter (fun l => Location.truckId l =? t) (locations (db w))) ->
    exists stats : DashboardStats,
      getDashboardStats t w = (Normal stats, w)
      /\ activeLocations stats
         = ofZ (countOver (activeFor t) (locations (db w)))
      /\ (DashboardPage.activeLocation (Rows api) = None
          <-> countOver (activeFor t) (locations (db w)) = 0)
      /\ forall l : Location.t,
           DashboardPage.activeLocation (Rows api) = Some l ->
           In l (locations (db w)) /\ activeFor t l = true.
Proof.
  intros t w api P.
  exists (statsOf t (db w)).
  split; [apply getDashboardStats_run |].
  split; [reflexivity |].
  assert (M : forall l : Location.t,
             In l api <-> In l (locations (db w)) /\ (Location.truckId l =? t) = true).
  { intros l.
    rewrite <- (filter_In (fun l => Location.truckId l =? t) l (locations (db w))).
    split; apply Permutation_in; [exact P | apply Permutation_sym, P]. }
  unfold DashboardPage.activeLocation.
  split.
  - rewrite find_none_iff, countOver_zero; split.
    + intros H l Hl; unfold activeFor.
      destruct (Location.truckId l =? t) eqn:E; [| reflexivity].
      apply (H l), M; split; assumption.
    + intros H l Hl; apply M in Hl; destruct Hl as [Hl E].
      specialize (H l Hl); unfold activeFor in H; rewrite E in H; exact H.
  - intros l H; apply find_some in H; destruct H as [Hl A].
    apply M in Hl; destruct Hl as [Hl E].
    split; [exact Hl |].
    unfold activeFor; rewrite E; exact A.
Qed.

(** X8.  The alerts of the two pages are the items with the "low" badge.
    On the inventory page an item is listed under "Low Stock Alerts" exactly
    when [getStockStatus] gives it the status ["low"]; the dashboard's card
    "Inventory Alerts" shows the first three of that same list, in its
    order, and the dot on the bell is there exactly when some item is low.
    A response that is not an array gives no alert and no dot. *)
Theorem low_stock_alerts_consistent :
  forall inventory : list InventoryItem.t,
    (forall item : InventoryItem.t,
        In item (InventoryPage.lowStockItems inventory)
        <-> In item inventory
            /\ InventoryPage.status (InventoryPage.getStockStatus item) = "low")
    /\ DashboardPage.inventoryAlerts (Rows inventory)
       = firstn 3 (InventoryPage.lowStockItems inventory)
    /\ (List.length (DashboardPage.inventoryAlerts (Rows inventory)) <= 3)%nat
    /\ (DashboardPage.bellDot (Rows inventory) = true
        <-> exists item : InventoryItem.t,
              In item inventory
              /\ InventoryPage.status (InventoryPage.getStockStatus item) = "low")
    /\ DashboardPage.inventoryAlerts NotAnArray = []
    /\ DashboardPage.bellDot NotAnArray = false.
Proof.
  intros inventory.
  assert (S : forall item : InventoryItem.t,
             In item (InventoryPage.lowStockItems inventory)
             <-> In item inventory
                 /\ InventoryPage.status (InventoryPage.getStockStatus item) = "low").
  { intros item; unfold InventoryPage.lowStockItems, InventoryPage.getStockStatus.
    rewrite filter_In.
    destruct (ToBoolean (InventoryItem.lowStockThreshold item)
              && leb (Number (InventoryItem.currentStock item))
                     (Number (InventoryItem.lowStockThreshold item)));
      cbn [InventoryPage.status]; split; intros [H1 H2]; split;
      try assumption; try reflexivity; discriminate. }
  split; [exact S |].
  split; [reflexivity |].
  split; [unfold DashboardPage.inventoryAlerts; rewrite length_firstn; lia |].
  split; [| split; reflexivity].
  unfold DashboardPage.bellDot.
  change (DashboardPage.lowStockItems (Rows inventory))
    with (InventoryPage.lowStockItems inventory).
  rewrite Z.ltb_lt; split.
  - intros H.
    destruct (InventoryPage.lowStockItems inventory) as [| item rest] eqn:E;
      [simpl in H; lia |].
    exists item; apply S; left; reflexivity.
  - intros [item H]; apply S in H.
    destruct (InventoryPage.lowStockItems inventory); [destruct H | simpl; lia].
Qed.

End DashboardPageFacts.

(** ** Whose truck *)

Section Tenancy.
Import Storage.

Lemma firstRow_filter_some :
  forall (R : Type) (p : R -> bool) (rows : list R) (row : R),
    firstRow (filter p rows) = Some row -> In row rows /\ p row = true.
Proof.
  intros R p rows row H.
  apply (filter_In p row rows).
  destruct (filter p rows) as [| r rest]; [discriminate |].
  injection H as H; subst r; left; reflexivity.
Qed.

Lemma firstRow_filter_none :
  forall (R : Type) (p : R -> bool) (rows : list R),
    firstRow (filter p rows) = None -> forall row : R, In row rows -> p row = false.
Proof.
  intros R p rows H row Hr.
  destruct (p row) eqn:E; [| reflexivity].
  assert (I : In row (filter p rows)) by (apply filter_In; split; assumption).
  destruct (filter p rows); [destruct I | discriminate].
Qed.

(** X9.  [getFoodTruckByUserId] hands a user no truck of somebody else.  A
    truck it returns is a row of the table, and either it belongs to an
    organization the user owns, or the user owns no organization and is a
    team member assigned to that very truck (whose number is not 0).  So an
    owner is never answered from a team assignment. *)
Theorem getFoodTruckByUserId_sound :
  forall (userId : string) (d : Directory) (truck : FoodTruck.t),
    getFoodTruckByUserId userId d = Some truck ->
    In truck (foodTrucks d)
    /\ ((exists org : Organization.t,
            In org (organizations d)
            /\ Organization.ownerId org = userId
            /\ FoodTruck.organizationId truck = Organization.id org)
        \/ ((forall org : Organization.t,
                In org (organizations d) -> Organization.ownerId org <> userId)
            /\ exists member : TeamMember.t,
                 In member (teamMembers d)
                 /\ TeamMember.userId member = userId
                 /\ TeamMember.truckId member = Some (FoodTruck.id truck)
                 /\ FoodTruck.id truck <> 0)).
Proof.
  intros userId d truck; unfold getFoodTruckByUserId.
  destruct (getOrganizationByOwnerId userId d) as [org |] eqn:O.
  - intros H.
    apply firstRow_filter_some in O; destruct O as [Ho Eo].
    apply firstRow_filter_some in H; destruct H as [Ht Et].
    split; [exact Ht |].
    left; exists org.
    apply String.eqb_eq in Eo; apply Z.eqb_eq in Et; auto.
  - destruct (getTeamMemberByUserId userId d) as [member |] eqn:M;
      [| discriminate].
    destruct (TeamMember.truckId member) as [k |] eqn:K; [| discriminate].
    destruct (Z.eqb_spec k 0) as [| NZ]; [discriminate |].
    intros H.
    apply firstRow_filter_some in M; destruct M as [Hm Em].
    apply firstRow_filter_some in H; destruct H as [Ht Et].
    apply String.eqb_eq in Em; apply Z.eqb_eq in Et.
    split; [exact Ht |].
    right; split.
    + intros org Ho E.
      pose proof (firstRow_filter_none _ _ O org Ho) as F.
      cbv beta in F; apply String.eqb_neq in F; apply F, E.
    + exists member; rewrite Et; auto.
Qed.

End Tenancy.

(** ** The Recent Orders card *)

Section RecentOrdersFacts.
Import Client.RecentOrders.
Context {N : JSNumber} {B : Builtins} {F : NumberFormat}.

Lemma lowerChar_idempotent :
  forall c : ascii, Runtime.lowerChar (Runtime.lowerChar c) = Runtime.lowerChar c.
Proof.
  intros [b0 b1 b2 b3 b4 b5 b6 b7].
  destruct b0, b1, b2, b3, b4, b5, b6, b7; reflexivity.
Qed.

Lemma toLowerCase_idempotent :
  forall s : string,
    Runtime.toLowerCase (Runtime.toLowerCase s) = Runtime.toLowerCase s.
Proof.
  induction s as [| c s IH]; simpl; [reflexivity |].
  rewrite lowerChar_idempotent, IH; reflexivity.
Qed.

(** X4.  The badge of an order and the statistics read the status
    differently.  [getStatusColor] ignores the case of the letters: it
    gives ["default"] exactly when the status in lower case is
    ["completed"], it gives the same variant for a status and for its lower
    case, and it always gives one of the four variants of the badge (an
    unknown status looks like ["pending"]).  The statistics compare the
    status with ["completed"] as it is written.  So every order that
    [getDashboardStats] counts wears the badge of a completed order, but
    not the other way round: an order with the status ["Completed"] wears
    it and is not counted. *)
Theorem counted_orders_wear_completed_badge :
  (forall status : string,
      getStatusColor status = "default"
      <-> Runtime.toLowerCase status = "completed")
  /\ (forall status : string,
         getStatusColor (Runtime.toLowerCase status) = getStatusColor status)
  /\ (forall status : string,
         In (getStatusColor status)
            ["default"; "secondary"; "outline"; "destructive"])
  /\ (forall (t : Z) (o : Order.t),
         completedFor t o = true -> getStatusColor (Order.status o) = "default")
  /\ exists status : string,
       getStatusColor status = "default"
       /\ forall (t : Z) (o : Order.t),
            Order.status o = status -> completedFor t o = false.
Proof.
  split; [| split; [| split; [| split]]].
  - intros status; unfold getStatusColor.
    destruct (String.eqb_spec (Runtime.toLowerCase status) "completed") as [E | E].
    + split; auto.
    + repeat match goal with
             | |- context [String.eqb ?a ?b] => destruct (String.eqb a b)
             end; split; intros H; try discriminate; contradiction.
  - intros status; unfold getStatusColor.
    rewrite toLowerCase_idempotent; reflexivity.
  - intros status; unfold getStatusColor.
    repeat match goal with
           | |- context [String.eqb ?a ?b] => destruct (String.eqb a b)
           end; simpl; auto.
  - intros t o H; unfold completedFor in H.
    apply andb_true_iff in H; destruct H as [_ H].
    apply String.eqb_eq in H; rewrite H; reflexivity.
  - exists "Completed"; split; [reflexivity |].
    intros t o E; unfold completedFor; rewrite E.
    apply andb_false_r.
Qed.

(** The conversion of JSON data to a string fails with a [TypeError]
    only. *)
Lemma ToString_TypeError :
  forall (v : value) (e : exn), ToString v = Throw e -> e = TypeError.
Proof.
  fix IH 1.
  intros [p | elems | props] e.
  - discriminate.
  - cbn [ToString].
    match goal with
    | |- bind (?each elems) _ = _ -> _ =>
        assert (E : forall (l : list value) (e2 : exn),
                   each l = Throw e2 -> e2 = TypeError)
    end.
    { fix IHl 1.
      intros [| x l] e2; [discriminate |].
      pose proof (IH x) as IHx.
      pose proof (IHl l) as IHl'.
      match goal with
      | |- bind ?m _ = _ -> _ =>
          assert (X : forall e3 : exn, m = Throw e3 -> e3 = TypeError)
      end.
      { destruct x as [[| | b | n | s] | xs | ps]; intros e3 H;
          try discriminate H; exact (IHx e3 H). }
      match goal with
      | |- bind ?m _ = _ -> _ => destruct m as [s | e3]
      end; cbn [bind].
      - match goal with
        | |- bind ?m _ = _ -> _ => destruct m as [ss | e3] eqn:L
        end; cbn [bind]; [discriminate |].
        intros H; injection H as H; subst e3; apply (IHl' e2 eq_refl).
      - intros H; injection H as H; subst e3; apply (X e2 eq_refl). }
    match goal with
    | |- bind ?m _ = _ -> _ => destruct m as [ss | e2] eqn:L
    end; cbn [bind]; [discriminate |].
    intros H; injection H as H; subst e2; apply (E elems e L).
  - cbn [ToString]; destruct (lookup "toString" props); [| discriminate].
    intros H; injection H as H; auto.
Qed.

Lemma getProp_TypeError :
  forall (v : value) (k : string) (e : exn),
    getProp v k = Throw e -> e = TypeError.
Proof.
  intros [[| | b | n | s] | xs | ps] k e; simpl; try discriminate;
    try (intros H; injection H as H; auto).
  destruct (lookup k ps); discriminate.
Qed.

Lemma bind_Throw :
  forall (A C : Type) (m : completion A) (k : A -> completion C) (e : exn),
    bind m k = Throw e ->
    m = Throw e \/ exists a : A, m = Normal a /\ k a = Throw e.
Proof.
  intros A C [a | e'] k e H; simpl in H.
  - right; exists a; auto.
  - left; injection H as H; subst e'; reflexivity.
Qed.

Lemma renderItem_TypeError :
  forall (item : value) (e : exn), renderItem item = Throw e -> e = TypeError.
Proof.
  intros item e H; unfold renderItem in H.
  apply bind_Throw in H; destruct H as [H | [quantity [_ H]]];
    [apply getProp_TypeError in H; exact H |].
  apply bind_Throw in H; destruct H as [H | [q [_ H]]];
    [apply ToString_TypeError in H; exact H |].
  apply bind_Throw in H; destruct H as [H | [name [_ H]]];
    [apply getProp_TypeError in H; exact H |].
  apply bind_Throw in H; destruct H as [H | [n [_ H]]];
    [apply ToString_TypeError in H; exact H | discriminate].
Qed.

(** [map] with a callback that may throw: the error is the error of the
    first element on which the callback throws. *)
Lemma mapM_Throw :
  forall (A C : Type) (f : A -> completion C) (l : list A) (e : exn),
    mapM f l = Throw e -> Exists (fun a => f a = Throw e) l.
Proof.
  intros A C f l e; induction l as [| a l IH]; simpl; [discriminate |].
  intros H; apply bind_Throw in H; destruct H as [H | [b [_ H]]].
  - left; exact H.
  - apply bind_Throw in H; destruct H as [H | [bs [_ H]]]; [| discriminate].
    right; apply IH, H.
Qed.

Lemma mapM_Normal :
  forall (A C : Type) (f : A -> completion C) (l : list A) (bs : list C),
    mapM f l = Normal bs -> Forall2 (fun a b => f a = Normal b) l bs.
Proof.
  intros A C f l; induction l as [| a l IH]; simpl; intros bs H.
  - injection H as H; subst bs; constructor.
  - destruct (f a) as [b | e] eqn:Fa; [| discriminate].
    cbn [bind] in H.
    destruct (mapM f l) as [bs' | e] eqn:M; [| discriminate].
    cbn [bind] in H; injection H as H; subst bs.
    constructor; [exact Fa | apply IH; reflexivity].
Qed.

(** [formatOrderItems] returns a string or throws a [TypeError]; the
    [SyntaxError] of [JSON.parse] is caught. *)
Lemma formatOrderItems_TypeError :
  forall (items : value) (e : exn),
    formatOrderItems items = Throw e -> e = TypeError.
Proof.
  intros items e; unfold formatOrderItems.
  set (parsed := match items with
                 | VPrim (PStr s) =>
                     match JSON_parse s with
                     | Some v => inl v
                     | None => inr "Invalid order data"
                     end
                 | _ => inl items
                 end).
  destruct parsed as [[p | elems | props] | sentinel]; try discriminate.
  intros H; apply bind_Throw in H; destruct H as [H | [parts [_ H]]];
    [| discriminate].
  apply mapM_Throw, Exists_exists in H; destruct H as [item [_ H]].
  apply renderItem_TypeError in H; exact H.
Qed.

Lemma Forall2_length_eq :
  forall (A C : Type) (P : A -> C -> Prop) (l : list A) (l' : list C),
    Forall2 P l l' -> List.length l' = List.length l.
Proof. induction 1; simpl; congruence. Qed.

(** X3.  What the table of the Recent Orders card comes to.  Either every
    one of the first ten orders has items that [formatOrderItems] can
    print: then there is one row per order, ten at most, in the order of
    the response, each with the printed items, the badge
    [getStatusColor(order.status)] and the status as its label.  Or the
    items of one of the first ten orders make [formatOrderItems] throw:
    then the whole card fails with that [TypeError], and no other error is
    possible.  Orders after the tenth do not matter. *)
Theorem tableRows_outcome :
  forall orders : list Order.t,
    match tableRows orders with
    | Normal rows =>
        List.length rows = Nat.min 10 (List.length orders)
        /\ Forall2 (fun order row =>
                      formatOrderItems (Order.items order)
                      = Normal (itemsText row)
                      /\ badge row = getStatusColor (Order.status order)
                      /\ label row = Order.status order)
                   (firstn 10 orders) rows
    | Throw e =>
        e = TypeError
        /\ Exists (fun order =>
                     formatOrderItems (Order.items order) = Throw TypeError)
                  (firstn 10 orders)
    end.
Proof.
  intros orders; unfold tableRows.
  destruct (mapM renderRow (firstn 10 orders)) as [rows | e] eqn:M.
  - apply mapM_Normal in M.
    split; [rewrite (Forall2_length_eq M), length_firstn; reflexivity |].
    eapply Forall2_impl; [| exact M].
    intros order row H; unfold renderRow in H.
    destruct (formatOrderItems (Order.items order)) as [text | e];
      [| discriminate].
    cbn [bind] in H; injection H as H; subst row; auto.
  - apply mapM_Throw in M.
    assert (T : forall order : Order.t,
               renderRow order = Throw e ->
               formatOrderItems (Order.items order) = Throw e).
    { intros order H; unfold renderRow in H.
      apply bind_Throw in H; destruct H as [H | [text [_ H]]];
        [exact H | discriminate]. }
    assert (E : e = TypeError).
    { apply Exists_exists in M; destruct M as [order [_ H]].
      apply T, formatOrderItems_TypeError in H; exact H. }
    subst e; split; [reflexivity |].
    eapply Exists_impl; [| exact M]. exact T.
Qed.

End RecentOrdersFacts.

(** ** What the pages print, in exact arithmetic *)

Module DisplayFacts.
Import Exact ExactSpec ExactFacts Storage Client.

Lemma Qc_ltb_false : forall a b : Qc, (b <= a)%Qc -> Qc_ltb a b = false.
Proof.
  intros a b H; unfold Qc_ltb.
  destruct (a ?= b)%Qc eqn:E; try reflexivity.
  apply Qclt_alt in E. exfalso; apply (Qcle_not_lt _ _ H E).
Qed.

Lemma Qc_ltb_true : forall a b : Qc, (a < b)%Qc -> Qc_ltb a b = true.
Proof.
  intros a b H; unfold Qc_ltb.
  destruct (a ?= b)%Qc eqn:E; try reflexivity.
  - apply Qceq_alt in E; subst a; exfalso.
    apply (Qcle_not_lt b b); [apply Qcle_refl | exact H].
  - apply Qcgt_alt in E; exfalso.
    apply (Qcle_not_lt b a); [apply Qclt_le_weak, E | exact H].
Qed.

Lemma Qc_leb_false : forall a b : Qc, (b < a)%Qc -> Qc_leb a b = false.
Proof.
  intros a b H; unfold Qc_leb.
  destruct (a ?= b)%Qc eqn:E; try reflexivity.
  - apply Qceq_alt in E; subst a; exfalso.
    apply (Qcle_not_lt b b); [apply Qcle_refl | exact H].
  - apply Qclt_alt in E; exfalso.
    apply (Qcle_not_lt a b); [apply Qclt_le_weak, E | exact H].
Qed.

(** [toFixed] of a magnitude below [10^21]. *)
Lemma xtoFixed_small :
  forall (q : Qc) (f : nat),
    (Qc_of_Z 0 <= q)%Qc -> (q < Qc_of_Z (10 ^ 21))%Qc ->
    xtoFixed (XFin q) f
    = Runtime.fixedDigits (Z.of_nat f) (Qnum q) (Z.pos (Qden q)).
Proof.
  intros q f H0 H1; unfold xtoFixed.
  rewrite (Qc_ltb_false H0 : isNeg q = false).
  rewrite (Qc_leb_false H1); reflexivity.
Qed.

(** The digits depend on the fraction through its rounding alone. *)
Lemma fixedDigits_scaledRound :
  forall f a b a' b' : Z,
    Runtime.scaledRound a b f = Runtime.scaledRound a' b' f ->
    Runtime.fixedDigits f a b = Runtime.fixedDigits f a' b'.
Proof. intros f a b a' b' H; unfold Runtime.fixedDigits; rewrite H; reflexivity. Qed.

(** With one digit after the point, the integer printed is [Math.round] of
    ten times the number. *)
Lemma scaledRound_roundHalfUp :
  forall q : Qc,
    Runtime.scaledRound (Qnum q) (Z.pos (Qden q)) 1
    = roundHalfUp (q * Qc_of_Z 10).
Proof.
  intros q; unfold roundHalfUp, Runtime.scaledRound.
  assert (E : (this (q * Qc_of_Z 10 + Q2Qc (1 # 2))%Qc
               == (2 * (Qnum q * 10) + Z.pos (Qden q)) # (2 * Qden q))%Q).
  { unfold Qcplus, Qcmult; cbn [this Q2Qc]; rewrite !Qred_correct, this_of_Z.
    destruct q as [[a b] canon]; cbn [this Qnum Qden].
    unfold Qeq, Qplus, Qmult, inject_Z; cbn [Qnum Qden]; lia. }
  rewrite E; unfold Qfloor.
  cbn [Z.leb Z.compare]. change (10 ^ 1) with 10.
  reflexivity.
Qed.

Lemma roundHalfUp_bounds :
  forall (q : Qc) (lo hi : Z),
    (Qc_of_Z lo <= q)%Qc -> (q <= Qc_of_Z hi)%Qc ->
    lo <= roundHalfUp q <= hi.
Proof.
  intros q lo hi L H.
  rewrite <- (roundHalfUp_of_Z lo), <- (roundHalfUp_of_Z hi).
  unfold roundHalfUp; split; apply Qfloor_resp_le.
  - unfold Qcle in L; unfold Qcplus; cbn [this Q2Qc]; rewrite !Qred_correct.
    apply Qplus_le_compat; [exact L | apply Qle_refl].
  - unfold Qcle in H; unfold Qcplus; cbn [this Q2Qc]; rewrite !Qred_correct.
    apply Qplus_le_compat; [exact H | apply Qle_refl].
Qed.

Lemma Qc_times_ten_bounds :
  forall (q : Qc) (lo hi : Z),
    (Qc_of_Z lo <= q)%Qc -> (q <= Qc_of_Z hi)%Qc ->
    (Qc_of_Z (lo * 10) <= q * Qc_of_Z 10)%Qc
    /\ (q * Qc_of_Z 10 <= Qc_of_Z (hi * 10))%Qc.
Proof.
  intros q lo hi L H; unfold Qcle in *.
  unfold Qcmult; cbn [this Q2Qc]; rewrite !Qred_correct, !this_of_Z in *.
  rewrite !inject_Z_mult.
  split; apply Qmult_le_compat_r; try assumption; discriminate.
Qed.

Lemma Qc_tenth_bounds :
  forall k lo hi : Z,
    lo * 10 <= k -> k < hi * 10 ->
    (Qc_of_Z lo <= Qc_of_Z k / Qc_of_Z 10)%Qc
    /\ (Qc_of_Z k / Qc_of_Z 10 < Qc_of_Z hi)%Qc.
Proof.
  intros k lo hi L H; unfold Qcle, Qclt.
  unfold Qcdiv, Qcmult, Qcinv; cbn [this Q2Qc]; rewrite !Qred_correct, !this_of_Z.
  unfold Qle, Qlt, Qmult, Qinv, inject_Z; cbn [Qnum Qden Z.mul Pos.mul]; lia.
Qed.

(** Rounding to one decimal place first does not change the text with one
    digit after the point. *)
Lemma toFixed_round1 :
  forall q : Qc,
    (Qc_of_Z 0 <= q)%Qc -> (q <= Qc_of_Z (10 ^ 20))%Qc ->
    xtoFixed (round1 (N := exact) (XFin q)) 1 = xtoFixed (XFin q) 1.
Proof.
  intros q L H.
  destruct (Qc_times_ten_bounds L H) as [L10 H10].
  pose proof (roundHalfUp_bounds L10 H10) as K.
  destruct (@Qc_tenth_bounds (roundHalfUp (q * Qc_of_Z 10)) 0 (10 ^ 21))
    as [L' H']; try lia.
  rewrite round1_rational.
  rewrite !xtoFixed_small; try assumption.
  - apply fixedDigits_scaledRound.
    change (Z.of_nat 1) with 1.
    rewrite !scaledRound_roundHalfUp, tenth_times_ten, roundHalfUp_of_Z.
    reflexivity.
  - apply Qcle_lt_trans with (Qc_of_Z (10 ^ 20)); [exact H |].
    apply Qc_of_Z_lt; lia.
Qed.

Lemma Qc_ratio_bounds :
  forall s n lo hi : Z,
    0 < n -> lo * n <= s -> s <= hi * n ->
    (Qc_of_Z lo <= Qc_of_Z s / Qc_of_Z n)%Qc
    /\ (Qc_of_Z s / Qc_of_Z n <= Qc_of_Z hi)%Qc.
Proof.
  intros s n lo hi N L H; unfold Qcle.
  unfold Qcdiv, Qcmult, Qcinv; cbn [this Q2Qc]; rewrite !Qred_correct, !this_of_Z.
  destruct n as [| p | p]; try lia.
  unfold Qle, Qmult, Qinv, inject_Z; cbn [Qnum Qden Z.mul Pos.mul]; lia.
Qed.

Lemma sumRatings_bounds :
  forall rs : list Review.t,
    Forall (fun r => 1 <= Review.rating r <= 5) rs ->
    Z.of_nat (List.length rs) <= sumRatings rs <= 5 * Z.of_nat (List.length rs).
Proof.
  induction 1 as [| r rs Hr _ IH]; [simpl; lia |].
  cbn [sumRatings fold_right List.length] in *.
  fold (sumRatings rs). lia.
Qed.

(** The mean of ratings between 1 and 5 lies between 1 and 5. *)
Lemma mean_in_range :
  forall (r : Review.t) (rs : list Review.t),
    Forall (fun r => 1 <= Review.rating r <= 5) (r :: rs) ->
    (Qc_of_Z 1 <= mean (r :: rs))%Qc /\ (mean (r :: rs) <= Qc_of_Z 5)%Qc.
Proof.
  intros r rs H; apply sumRatings_bounds in H; unfold mean.
  apply Qc_ratio_bounds; cbn [List.length] in *; lia.
Qed.

Lemma averageRating_in_range :
  forall rs : list Review.t,
    Forall (fun r => 1 <= Review.rating r <= 5) rs ->
    exists q : Qc,
      ReviewsPage.averageRating (N := exact) rs = XFin q
      /\ (Qc_of_Z 0 <= q)%Qc /\ (q <= Qc_of_Z 5)%Qc
      /\ (rs <> [] -> q = mean rs /\ (Qc_of_Z 1 <= q)%Qc).
Proof.
  intros [| r rs] H.
  - exists (Qc_of_Z 0); split; [reflexivity |].
    split; [apply Qcle_refl |].
    split; [apply Qc_of_Z_le; lia | intros E; exfalso; apply E; reflexivity].
  - destruct (mean_in_range H) as [L U].
    exists (mean (r :: rs)); split; [apply RoundingClaims.averageRating_mean |].
    split; [| split; [exact U | intros _; split; [reflexivity | exact L]]].
    apply Qcle_trans with (Qc_of_Z 1); [apply Qc_of_Z_le; lia | exact L].
Qed.

(** X10.  The Reviews and Profile pages compute their mean from the
    response of [getReviewsByTruckId], which holds the reviews of the truck
    latest first, not in the order in which [getDashboardStats] reads them.
    In exact arithmetic that makes no difference: the mean of either page,
    rounded as the server rounds, is the [averageRating] of the
    statistics. *)
Theorem reviews_page_mean_rounds_to_statistic :
  forall (B : Builtins (N := exact)) (t : Z) (w : World (N := exact)),
    exists (api : list Review.t) (stats : DashboardStats (N := exact)),
      getReviewsByTruckId t w = (Normal api, w)
      /\ getDashboardStats t w = (Normal stats, w)
      /\ Permutation api (reviewsOf t (reviews (db w)))
      /\ sortedBy (fun a b => desc (Review.createdAt a) (Review.createdAt b))
                  api = true
      /\ round1 (ReviewsPage.averageRating (N := exact) api)
         = averageRating stats
      /\ round1 (ProfilePage.averageRating (N := exact) api)
         = averageRating stats.
Proof.
  intros B t w.
  exists (orderBy (fun a b => desc (Review.createdAt a) (Review.createdAt b))
                  (reviewsOf t (reviews (db w)))),
         (statsOf t (db w)).
  split; [apply getReviewsByTruckId_run |].
  split; [apply getDashboardStats_run |].
  split; [apply orderBy_Permutation |].
  split.
  { apply (latestFirst_sorted Review.createdAt
                              (fun r => Review.truckId r =? t) (reviews (db w))). }
  assert (E : ReviewsPage.averageRating (N := exact)
                (orderBy (fun a b => desc (Review.createdAt a) (Review.createdAt b))
                         (reviewsOf t (reviews (db w))))
              = ReviewsPage.averageRating (N := exact) (reviewsOf t (reviews (db w))))
    by apply RoundingClaims.averageRating_order_free, orderBy_Permutation.
  split; [rewrite E; reflexivity |].
  change (ProfilePage.averageRating (N := exact))
    with (ReviewsPage.averageRating (N := exact)).
  rewrite E; reflexivity.
Qed.

(** X11.  In exact arithmetic the three places that print the average
    rating print the same text when the ratings of the truck lie in 1..5:
    the card "Average Rating" of the dashboard, which prints the statistic
    (rounded by the server to one decimal place) with [toFixed(1)], and the
    Reviews and Profile pages, which print their own unrounded mean with
    [toFixed(1)]. *)
Theorem average_rating_texts_agree :
  forall (B : Builtins (N := exact)) (t : Z) (w : World (N := exact)),
    Forall (fun r => 1 <= Review.rating r <= 5) (reviewsOf t (reviews (db w))) ->
    exists (api : list Review.t) (stats : DashboardStats (N := exact))
           (cards : list StatCards.StatCard),
      getReviewsByTruckId t w = (Normal api, w)
      /\ getDashboardStats t w = (Normal stats, w)
      /\ StatCards.statCards (F := Exact.format) (Some stats) = Some cards
      /\ In {| StatCards.title := "Average Rating";
               StatCards.value :=
                 ReviewsPage.averageText
                   (ReviewsPage.summary (F := Exact.format) api) |}
            cards
      /\ ProfilePage.averageText (F := Exact.format) api
         = ReviewsPage.averageText (ReviewsPage.summary (F := Exact.format) api).
Proof.
  intros B t w H.
  set (rs := reviewsOf t (reviews (db w))) in *.
  set (api := orderBy (fun a b => desc (Review.createdAt a) (Review.createdAt b)) rs).
  assert (E : ReviewsPage.averageRating (N := exact) api
              = ReviewsPage.averageRating (N := exact) rs)
    by apply RoundingClaims.averageRating_order_free, orderBy_Permutation.
  destruct (averageRating_in_range H) as [q [Q [L [U _]]]].
  exists api, (statsOf t (db w)).
  eexists.
  split; [apply getReviewsByTruckId_run |].
  split; [apply getDashboardStats_run |].
  split; [reflexivity |].
  split; [| reflexivity].
  right; right; left.
  f_equal.
  unfold statsOf; cbn [averageRating ReviewsPage.summary ReviewsPage.averageText].
  fold rs; rewrite E, Q.
  apply toFixed_round1; [exact L |].
  apply Qcle_trans with (Qc_of_Z 5); [exact U | apply Qc_of_Z_le; lia].
Qed.

Lemma Qc_of_Z_leb :
  forall a b : Z,
    xleb (XFin (Qc_of_Z a)) (XFin (Qc_of_Z b)) = (a <=? b).
Proof.
  intros a b; unfold xleb, xltb, xeqb.
  rewrite Qc_of_Z_eqb.
  destruct (Z.leb_spec a b) as [H | H].
  - destruct (Z.eqb_spec a b) as [E | E]; [apply orb_true_r |].
    rewrite Qc_ltb_true by (apply Qc_of_Z_lt; lia); reflexivity.
  - destruct (Z.eqb_spec a b) as [E | E]; [lia |].
    rewrite orb_false_r; apply Qc_ltb_false, Qc_of_Z_le; lia.
Qed.

Lemma renderStars_of_Z :
  forall (k : Z) (size : option string),
    ReviewsPage.renderStars (N := exact) (XFin (Qc_of_Z k)) size
    = starsFor (match size with Some s => s | None => "h-4 w-4" end) k.
Proof.
  intros k size; unfold ReviewsPage.renderStars, starsFor.
  apply map_ext; intros star.
  change (leb (JSNumber := exact) (ofZ star) (XFin (Qc_of_Z k)))
    with (xleb (XFin (Qc_of_Z star)) (XFin (Qc_of_Z k))).
  rewrite Qc_of_Z_leb; reflexivity.
Qed.

(** X12.  The stars and the badge of the Reviews page.  A review with the
    rating [r] gets the stars 1 to [r] filled (none when [r] is below 1,
    all five from 5 on) and the badge ["default"] from 4 on, ["destructive"]
    below: in exact arithmetic for every integer [r], on doubles for the
    ratings 1 to 5.  In exact arithmetic the card "Average Rating" fills
    the stars up to [Math.round] of the mean: none when there is no review,
    and for ratings in 1..5 at least one and at most five, a mean that ends
    in .5 being rounded up. *)
Theorem stars_show_rounded_rating :
  (forall review : Review.t,
      ReviewsPage.reviewStars (N := exact) review
      = starsFor "h-4 w-4" (Review.rating review)
      /\ ReviewsPage.ratingBadge (N := exact) review
         = if 4 <=? Review.rating review then "default" else "destructive")
  /\ (forall review : Review.t,
         1 <= Review.rating review <= 5 ->
         ReviewsPage.reviewStars (N := Binary64.binary64) review
         = starsFor "h-4 w-4" (Review.rating review)
         /\ ReviewsPage.ratingBadge (N := Binary64.binary64) review
            = if 4 <=? Review.rating review then "default" else "destructive")
  /\ forall reviews : list Review.t,
       Forall (fun r => 1 <= Review.rating r <= 5) reviews ->
       exists k : Z,
         ReviewsPage.averageStars (ReviewsPage.summary (F := Exact.format) reviews)
         = starsFor "h-5 w-5" k
         /\ (reviews = [] -> k = 0)
         /\ (reviews <> [] -> k = roundHalfUp (mean reviews) /\ 1 <= k <= 5).
Proof.
  split; [| split].
  - intros review; split.
    + apply (renderStars_of_Z (Review.rating review) None).
    + unfold ReviewsPage.ratingBadge.
      change (leb (JSNumber := exact) (ofZ 4) (ofZ (Review.rating review)))
        with (xleb (XFin (Qc_of_Z 4)) (XFin (Qc_of_Z (Review.rating review)))).
      rewrite Qc_of_Z_leb; reflexivity.
  - intros review H.
    unfold ReviewsPage.reviewStars, ReviewsPage.ratingBadge.
    assert (E : Review.rating review = 1 \/ Review.rating review = 2
                \/ Review.rating review = 3 \/ Review.rating review = 4
                \/ Review.rating review = 5) by lia.
    destruct E as [E | [E | [E | [E | E]]]]; rewrite E;
      split; vm_compute; reflexivity.
  - intros reviews H.
    destruct (averageRating_in_range H) as [q [Q [L [U M]]]].
    exists (roundHalfUp q).
    split.
    + cbn [ReviewsPage.averageStars ReviewsPage.summary]; rewrite Q.
      apply (renderStars_of_Z (roundHalfUp q) (Some "h-5 w-5")).
    + split.
      * intros E; subst reviews.
        injection Q as Q; subst q; apply roundHalfUp_of_Z.
      * intros E; destruct (M E) as [Eq L1]; subst q.
        split; [reflexivity |].
        apply roundHalfUp_bounds; assumption.
Qed.

(** X13.  The usage bar of a protein card, in exact arithmetic.  With a
    positive allocation [getUsagePercentage] is [used / allocated * 100];
    it lies between 0 and 100 when the amount used lies between 0 and the
    allocation, and it is above 100 (it is not capped) when more was used
    than was allocated. *)
Theorem usage_percentage_range :
  forall used allocated : Qc,
    (Qc_of_Z 0 < allocated)%Qc ->
    exists p : Qc,
      ProteinPage.getUsagePercentage (N := exact) (XFin used) (XFin allocated)
      = XFin p
      /\ p = (used / allocated * Qc_of_Z 100)%Qc
      /\ ((Qc_of_Z 0 <= used)%Qc -> (used <= allocated)%Qc ->
          (Qc_of_Z 0 <= p)%Qc /\ (p <= Qc_of_Z 100)%Qc)
      /\ ((allocated < used)%Qc -> (Qc_of_Z 100 < p)%Qc).
Proof.
  intros used allocated A.
  exists (used / allocated * Qc_of_Z 100)%Qc.
  assert (NZ : allocated <> Qc_of_Z 0).
  { intros E; rewrite E in A.
    apply (Qcle_not_lt (Qc_of_Z 0) (Qc_of_Z 0)); [apply Qcle_refl | exact A]. }
  split.
  { unfold ProteinPage.getUsagePercentage.
    change (gtb (N := exact) (XFin allocated) (ofZ 0))
      with (Qc_ltb (Qc_of_Z 0) allocated).
    rewrite (Qc_ltb_true A).
    change (xmul (xdiv (XFin used) (XFin allocated)) (XFin (Qc_of_Z 100))
            = XFin (used / allocated * Qc_of_Z 100)%Qc).
    unfold xdiv.
    apply Qc_eqb_neq in NZ; rewrite NZ; reflexivity. }
  split; [reflexivity |].
  assert (D : forall x : Qc, (x / allocated * Qc_of_Z 100)%Qc
                             = (x * (Qc_of_Z 100 / allocated))%Qc).
  { intros x; field; exact NZ. }
  assert (P : (Qc_of_Z 0 < Qc_of_Z 100 / allocated)%Qc).
  { unfold Qclt in *; unfold Qcdiv, Qcmult, Qcinv; cbn [this Q2Qc] in *.
    rewrite !Qred_correct, !this_of_Z in *.
    apply Qmult_lt_0_compat; [reflexivity | apply Qinv_lt_0_compat, A]. }
  assert (E : (allocated * (Qc_of_Z 100 / allocated))%Qc = Qc_of_Z 100)
    by (field; exact NZ).
  set (c := (Qc_of_Z 100 / allocated)%Qc) in *.
  split.
  - intros U0 U1; rewrite D; split.
    + apply RoundingClaims.Qc_mul_nonneg; [exact U0 | apply Qclt_le_weak, P].
    + rewrite <- E; apply Qcmult_le_compat_r; [exact U1 | apply Qclt_le_weak, P].
  - intros U; rewrite D, <- E.
    apply Qcmult_lt_compat_r; [exact P | exact U].
Qed.

Lemma scaledRound_tenths :
  forall k : Z, Runtime.scaledRound k 10 1 = k.
Proof.
  intros k; unfold Runtime.scaledRound; cbn [Z.leb Z.compare].
  change (10 ^ 1) with 10.
  Z.div_mod_to_equations; lia.
Qed.

(** X15.  In exact arithmetic, for ratings in 1..5 the [averageRating]
    statistic is a number of tenths [k / 10]: 0 when the truck has no
    review, and between 1.0 and 5.0 otherwise; the card of the dashboard
    prints exactly those tenths, with one digit after the point. *)
Theorem averageRating_statistic_range :
  forall (B : Builtins (N := exact)) (t : Z) (w : World (N := exact)),
    Forall (fun r => 1 <= Review.rating r <= 5) (reviewsOf t (reviews (db w))) ->
    exists (stats : DashboardStats (N := exact)) (k : Z),
      getDashboardStats t w = (Normal stats, w)
      /\ averageRating stats = XFin (Qc_of_Z k / Qc_of_Z 10)%Qc
      /\ (reviewsOf t (reviews (db w)) = [] -> k = 0)
      /\ (reviewsOf t (reviews (db w)) <> [] -> 10 <= k <= 50)
      /\ toFixed (NumberFormat := Exact.format) (averageRating stats) 1
         = Runtime.fixedDigits 1 k 10.
Proof.
  intros B t w H.
  assert (T : forall k : Z,
             0 <= k <= 50 ->
             xtoFixed (XFin (Qc_of_Z k / Qc_of_Z 10)%Qc) 1
             = Runtime.fixedDigits 1 k 10).
  { intros k K.
    destruct (@Qc_tenth_bounds k 0 (10 ^ 21)) as [L' H']; try lia.
    rewrite xtoFixed_small by assumption.
    apply fixedDigits_scaledRound.
    change (Z.of_nat 1) with 1.
    rewrite scaledRound_roundHalfUp, tenth_times_ten, roundHalfUp_of_Z.
    symmetry; apply scaledRound_tenths. }
  exists (statsOf t (db w)).
  pose proof (RoundingClaims.averageRating_exact B t (db w)) as A.
  destruct (reviewsOf t (reviews (db w))) as [| r rs] eqn:E.
  - exists 0.
    split; [apply getDashboardStats_run |].
    assert (Z0 : (Qc_of_Z 0 / Qc_of_Z 10)%Qc = Qc_of_Z 0).
    { assert (NZ : Qc_of_Z 10 <> 0%Qc)
        by (apply (Qc_of_Z_nonzero (z := 10)); lia).
      change (Qc_of_Z 0) with 0%Qc; field; exact NZ. }
    split; [rewrite A, Z0; reflexivity |].
    split; [reflexivity |].
    split; [intros NE; exfalso; apply NE; reflexivity |].
    change (toFixed (NumberFormat := Exact.format)) with xtoFixed.
    rewrite A, <- Z0; apply T; lia.
  - destruct (mean_in_range H) as [L U].
    destruct (Qc_times_ten_bounds L U) as [L10 U10].
    pose proof (roundHalfUp_bounds L10 U10) as K.
    exists (roundHalfUp (mean (r :: rs) * Qc_of_Z 10)).
    split; [apply getDashboardStats_run |].
    split; [exact A |].
    split; [discriminate |].
    split; [intros _; lia |].
    change (toFixed (NumberFormat := Exact.format)) with xtoFixed.
    rewrite A; apply T; lia.
Qed.

Lemma countOver_le_length :
  forall (A : Type) (p : A -> bool) (l : list A),
    0 <= countOver p l <= Z.of_nat (List.length l).
Proof.
  intros A p l; induction l as [| a l IH]; simpl List.length; simpl countOver;
    [lia |].
  destruct (p a); lia.
Qed.

Lemma Qc_percentage_bounds :
  forall c n : Z,
    0 < n -> 0 <= c <= n ->
    (Qc_of_Z 0 <= Qc_of_Z c / Qc_of_Z n * Qc_of_Z 100)%Qc
    /\ (Qc_of_Z c / Qc_of_Z n * Qc_of_Z 100 <= Qc_of_Z 100)%Qc.
Proof.
  intros c n N C; unfold Qcle.
  unfold Qcdiv, Qcmult, Qcinv; cbn [this Q2Qc]; rewrite !Qred_correct, !this_of_Z.
  destruct n as [| p | p]; try lia.
  unfold Qle, Qmult, Qinv, inject_Z; cbn [Qnum Qden Z.mul Pos.mul]; lia.
Qed.

(** X16.  In exact arithmetic the bars of the rating distribution never
    leave their track: whatever the ratings are, every bucket holds a count
    between 0 and the number of reviews and a percentage between 0 and
    100. *)
Theorem rating_bars_within_track :
  forall reviews : list Review.t,
    Forall (fun bucket : ReviewsPage.Bucket (N := exact) =>
              0 <= ReviewsPage.count bucket <= Z.of_nat (List.length reviews)
              /\ exists p : Qc,
                   ReviewsPage.percentage bucket = XFin p
                   /\ (Qc_of_Z 0 <= p)%Qc /\ (p <= Qc_of_Z 100)%Qc)
           (ReviewsPage.ratingDistribution (N := exact) reviews).
Proof.
  intros reviews.
  rewrite DistributionClaims.ratingDistribution_specBuckets.
  apply Forall_forall; intros bucket Hb.
  apply in_map_iff in Hb; destruct Hb as [k [Eb _]]; subst bucket.
  cbn [specBucket ReviewsPage.count ReviewsPage.percentage].
  pose proof (countOver_le_length (fun r => Review.rating r =? k) reviews) as C.
  fold (countRating k reviews) in C.
  split; [exact C |].
  unfold specPercentage.
  destruct (Z.ltb_spec 0 (Z.of_nat (List.length reviews))) as [P | P].
  - rewrite DistributionClaims.exact_percentage by lia.
    eexists; split; [reflexivity |].
    apply Qc_percentage_bounds; assumption.
  - exists (Qc_of_Z 0); split; [reflexivity |].
    split; [apply Qcle_refl | apply Qc_of_Z_le; lia].
Qed.

End DisplayFacts.

(** ** Amounts of money, in exact arithmetic *)

Module AmountFacts.
Import Exact ExactFacts Storage Client.

Section Digits.
Context {N : JSNumber}.

Lemma takeDigits_digits :
  forall (ds rest : list ascii) (acc n : Z),
    forallb isDigit ds = true ->
    match rest with [] => true | c :: _ => negb (isDigit c) end = true ->
    Runtime.takeDigits 10 (ds ++ rest) acc n
    = (valueOf ds acc, n + Z.of_nat (List.length ds), rest).
Proof.
  induction ds as [| c ds IH]; intros rest acc n D R.
  - cbn [app valueOf fold_left List.length Z.of_nat].
    rewrite Z.add_0_r.
    destruct rest as [| c r]; [reflexivity |].
    cbn [Runtime.takeDigits]; unfold isDigit in R.
    destruct (Runtime.digitIn 10 c); [discriminate | reflexivity].
  - cbn [forallb] in D; apply andb_true_iff in D; destruct D as [Dc D].
    unfold isDigit in Dc.
    destruct (Runtime.digitIn 10 c) as [d |] eqn:E; [| discriminate].
    assert (Ec : digitOf c = d) by (unfold digitOf; rewrite E; reflexivity).
    cbn [app Runtime.takeDigits]; rewrite E.
    rewrite (IH rest (acc * 10 + d) (n + 1) D R).
    unfold valueOf; cbn [fold_left List.length]; rewrite Ec.
    f_equal; f_equal; lia.
Qed.

End Digits.

Lemma chars_digits : forall d : Decimal.uint, forallb isDigit (chars d) = true.
Proof.
  unfold chars; induction d as [| d IH | d IH | d IH | d IH | d IH | d IH
                                 | d IH | d IH | d IH | d IH];
    simpl; [reflexivity | ..]; exact IH.
Qed.

Lemma valueOf_chars_acc :
  forall (d : Decimal.uint) (acc : positive),
    valueOf (chars d) (Z.pos acc) = Z.pos (Pos.of_uint_acc d acc).
Proof.
  unfold chars, valueOf;
    induction d as [| d IH | d IH | d IH | d IH | d IH | d IH
                     | d IH | d IH | d IH | d IH];
    intros acc; cbn [NilEmpty.string_of_uint list_ascii_of_string fold_left
                       Pos.of_uint_acc];
    [reflexivity | ..]; rewrite <- IH; f_equal; vm_compute digitOf; lia.
Qed.

Lemma valueOf_chars :
  forall d : Decimal.uint, valueOf (chars d) 0 = Z.of_N (Pos.of_uint d).
Proof.
  induction d as [| d IH | d IH | d IH | d IH | d IH | d IH
                   | d IH | d IH | d IH | d IH];
    [reflexivity | exact IH | ..];
    cbn [Pos.of_uint Z.of_N]; rewrite <- valueOf_chars_acc; reflexivity.
Qed.

(** What a decimal digit is not. *)
Lemma digit_facts :
  forall c : ascii,
    isDigit c = true ->
    Runtime.isStrWhiteSpace c = false
    /\ Runtime.radixOf c = None
    /\ Ascii.eqb c "I" = false
    /\ (forall r : list ascii, Runtime.signOf (c :: r) = (false, c :: r)).
Proof.
  intros [b0 b1 b2 b3 b4 b5 b6 b7].
  destruct b0, b1, b2, b3, b4, b5, b6, b7; intros H;
    try discriminate H; repeat split.
Qed.

Lemma point_facts :
  Runtime.isStrWhiteSpace "." = false
  /\ Runtime.radixOf "." = None
  /\ isDigit "." = false.
Proof. repeat split. Qed.

Lemma list_ascii_of_string_app :
  forall s1 s2 : string,
    list_ascii_of_string (s1 ++ s2)
    = list_ascii_of_string s1 ++ list_ascii_of_string s2.
Proof.
  induction s1 as [| c s1 IH]; intros s2; simpl; [reflexivity |].
  rewrite IH; reflexivity.
Qed.

Lemma list_ascii_of_string_length :
  forall s : string,
    List.length (list_ascii_of_string s) = String.length s.
Proof. induction s as [| c s IH]; simpl; [reflexivity | rewrite IH; reflexivity]. Qed.

Lemma list_ascii_of_substring :
  forall (s : string) (a b : nat),
    list_ascii_of_string (substring a b s)
    = firstn b (skipn a (list_ascii_of_string s)).
Proof.
  induction s as [| c s IH]; intros a b.
  - destruct a, b; reflexivity.
  - destruct a as [| a].
    + destruct b as [| b]; [reflexivity |].
      cbn [substring list_ascii_of_string skipn firstn].
      rewrite (IH 0%nat b); reflexivity.
    + cbn [substring list_ascii_of_string skipn]; apply IH.
Qed.

Lemma valueOf_app :
  forall (l1 l2 : list ascii) (acc : Z),
    valueOf (l1 ++ l2) acc = valueOf l2 (valueOf l1 acc).
Proof. intros; unfold valueOf; apply fold_left_app. Qed.

Lemma valueOf_zeros :
  forall n : nat, valueOf (repeat "0"%char n) 0 = 0.
Proof. induction n as [| n IH]; [reflexivity | exact IH]. Qed.

Lemma zeros_digits :
  forall n : nat, forallb isDigit (repeat "0"%char n) = true.
Proof. induction n as [| n IH]; [reflexivity | exact IH]. Qed.

(** The digits of a natural number: decimal digits, one at least, whose
    value is the number. *)
Lemma digitsOf_digits :
  forall z : Z,
    0 <= z ->
    let l := list_ascii_of_string (Runtime.digitsOf z) in
    forallb isDigit l = true /\ valueOf l 0 = z /\ l <> [].
Proof.
  intros z Hz l; subst l; unfold Runtime.digitsOf.
  destruct z as [| p | p]; [repeat split; discriminate | | lia].
  cbn [Z.to_int NilZero.string_of_int].
  pose proof (Unsigned.to_uint_nonnil p) as NN.
  pose proof (DecimalPos.Unsigned.of_to p) as OT.
  assert (E : NilZero.string_of_uint (Pos.to_uint p)
              = NilEmpty.string_of_uint (Pos.to_uint p))
    by (destruct (Pos.to_uint p); [contradiction | reflexivity ..]).
  rewrite E; fold (chars (Pos.to_uint p)).
  split; [apply chars_digits |].
  split; [rewrite valueOf_chars, OT; reflexivity |].
  unfold chars; destruct (Pos.to_uint p); [contradiction | discriminate ..].
Qed.

Lemma forallb_firstn :
  forall (A : Type) (p : A -> bool) (n : nat) (l : list A),
    forallb p l = true -> forallb p (firstn n l) = true.
Proof.
  intros A p n l H; rewrite forallb_forall in *.
  intros x Hx; apply H.
  rewrite <- (firstn_skipn n l); apply in_or_app; left; exact Hx.
Qed.

Lemma forallb_skipn :
  forall (A : Type) (p : A -> bool) (n : nat) (l : list A),
    forallb p l = true -> forallb p (skipn n l) = true.
Proof.
  intros A p n l H; rewrite forallb_forall in *.
  intros x Hx; apply H.
  rewrite <- (firstn_skipn n l); apply in_or_app; right; exact Hx.
Qed.

(** The text of an amount: decimal digits, one at least, a point, and two
    decimal digits; read as one number the digits are the hundredths. *)
Lemma amountText_shape :
  forall cents : Z,
    0 <= cents ->
    exists units fraction : list ascii,
      list_ascii_of_string (amountText cents) = units ++ "."%char :: fraction
      /\ forallb isDigit units = true
      /\ forallb isDigit fraction = true
      /\ units <> []
      /\ List.length fraction = 2%nat
      /\ valueOf (units ++ fraction) 0 = cents.
Proof.
  intros cents H.
  unfold amountText, Runtime.fixedDigits.
  assert (R : Runtime.scaledRound cents 100 2 = cents).
  { unfold Runtime.scaledRound; cbn [Z.leb Z.compare].
    change (10 ^ 2) with 100. Z.div_mod_to_equations; lia. }
  rewrite R; cbn [Z.eqb].
  destruct (digitsOf_digits H) as [D [V NE]].
  set (m := Runtime.digitsOf cents) in *.
  set (k := Z.of_nat (String.length m)).
  assert (K : 1 <= k).
  { unfold k; rewrite <- list_ascii_of_string_length.
    destruct (list_ascii_of_string m); [contradiction | simpl List.length; lia]. }
  set (m' := if k <=? 2 then (Runtime.zeros (2 + 1 - k) ++ m)%string else m).
  set (k' := if k <=? 2 then 2 + 1 else k).
  set (l' := list_ascii_of_string m').
  assert (P : forallb isDigit l' = true /\ valueOf l' 0 = cents
              /\ Z.of_nat (List.length l') = k' /\ 3 <= k').
  { unfold l', m', k'; destruct (Z.leb_spec k 2) as [L | L].
    - rewrite list_ascii_of_string_app; unfold Runtime.zeros.
      rewrite list_ascii_of_string_of_list_ascii.
      rewrite forallb_app, zeros_digits, D, valueOf_app, valueOf_zeros, V.
      rewrite length_app, repeat_length, list_ascii_of_string_length.
      fold k. repeat split; lia.
    - rewrite list_ascii_of_string_length; fold k. repeat split; auto; lia. }
  destruct P as [D' [V' [L' K']]].
  exists (firstn (Z.to_nat (k' - 2)) l'), (skipn (Z.to_nat (k' - 2)) l').
  assert (F : firstn (Z.to_nat 2) (skipn (Z.to_nat (k' - 2)) l')
              = skipn (Z.to_nat (k' - 2)) l').
  { apply firstn_all2; rewrite length_skipn; lia. }
  split.
  { rewrite !list_ascii_of_string_app; unfold Runtime.sub.
    rewrite !list_ascii_of_substring; fold l'.
    change (Z.to_nat 0) with 0%nat; cbn [skipn].
    rewrite F; reflexivity. }
  split; [apply forallb_firstn, D' |].
  split; [apply forallb_skipn, D' |].
  split.
  { intros E.
    assert (C : List.length (firstn (Z.to_nat (k' - 2)) l') = Z.to_nat (k' - 2))
      by (rewrite length_firstn; lia).
    rewrite E in C; simpl in C; lia. }
  split; [rewrite length_skipn; lia |].
  rewrite firstn_skipn; exact V'.
Qed.

Section Parsing.
Context {N : JSNumber}.

Lemma dropWhile_head :
  forall (p : ascii -> bool) (c : ascii) (r : list ascii),
    p c = false -> Runtime.dropWhile p (c :: r) = c :: r.
Proof. intros p c r H; simpl; rewrite H; reflexivity. Qed.

(** Text without white space is its own trimming. *)
Lemma trim_no_space :
  forall s : list ascii,
    forallb (fun c => negb (Runtime.isStrWhiteSpace c)) s = true ->
    Runtime.trim s = s.
Proof.
  intros s H; unfold Runtime.trim.
  assert (D : forall l : list ascii,
             forallb (fun c => negb (Runtime.isStrWhiteSpace c)) l = true ->
             Runtime.dropWhile Runtime.isStrWhiteSpace l = l).
  { intros [| c r] Hl; [reflexivity |].
    cbn [forallb] in Hl; apply andb_true_iff in Hl; destruct Hl as [Hc _].
    apply dropWhile_head, negb_true_iff, Hc. }
  rewrite (D s H), D, rev_involutive; [reflexivity |].
  rewrite forallb_forall in *; intros c Hc; apply H, in_rev, Hc.
Qed.

Lemma digits_no_space :
  forall l : list ascii,
    forallb isDigit l = true ->
    forallb (fun c => negb (Runtime.isStrWhiteSpace c)) l = true.
Proof.
  intros l H; rewrite forallb_forall in *; intros c Hc.
  destruct (digit_facts c (H c Hc)) as [W _]; rewrite W; reflexivity.
Qed.

(** [Number] reads the text of an amount as its hundredths, two places
    after the point: whatever the arithmetic, the number is the one the
    decimal text denotes. *)
Lemma StringToNumber_amountText :
  forall cents : Z,
    0 <= cents ->
    Runtime.StringToNumber (amountText cents) = ofDecimal cents (-2).
Proof.
  intros cents H.
  destruct (amountText_shape H) as [units [fraction [E [Du [Df [NE [Lf V]]]]]]].
  unfold Runtime.StringToNumber; rewrite E.
  rewrite trim_no_space.
  2:{ rewrite forallb_app; cbn [forallb].
      rewrite (digits_no_space _ Du), (digits_no_space _ Df); reflexivity. }
  destruct units as [| u units]; [contradiction |].
  cbn [forallb] in Du; apply andb_true_iff in Du; destruct Du as [Du0 Du].
  destruct (digit_facts u Du0) as [_ [_ [NI S]]].
  cbn [app Runtime.isNil].
  assert (ND : Runtime.nonDecimalLiteral
                 (u :: units ++ "."%char :: fraction) = None).
  { unfold Runtime.nonDecimalLiteral.
    destruct u as [b0 b1 b2 b3 b4 b5 b6 b7].
    destruct b0, b1, b2, b3, b4, b5, b6, b7; try reflexivity.
    destruct units as [| p units]; cbn [app]; [reflexivity |].
    cbn [forallb] in Du; apply andb_true_iff in Du; destruct Du as [Dp _].
    destruct (digit_facts p Dp) as [_ [Rp _]]; rewrite Rp; reflexivity. }
  rewrite ND.
  unfold Runtime.decimalLiteral.
  rewrite S.
  assert (I : String.eqb (string_of_list_ascii (u :: units ++ "."%char :: fraction))
                         "Infinity" = false).
  { cbn [string_of_list_ascii String.eqb]; rewrite NI; reflexivity. }
  rewrite I.
  assert (T1 : Runtime.takeDigits 10 (u :: units ++ "."%char :: fraction) 0 0
               = (valueOf (u :: units) 0,
                  0 + Z.of_nat (List.length (u :: units)),
                  "."%char :: fraction)).
  { apply (takeDigits_digits (u :: units) ("."%char :: fraction));
      [cbn [forallb]; rewrite Du0, Du; reflexivity | reflexivity]. }
  rewrite T1.
  assert (T2 : Runtime.takeDigits 10 fraction (valueOf (u :: units) 0) 0
               = (valueOf fraction (valueOf (u :: units) 0),
                  0 + Z.of_nat (List.length fraction), [])).
  { rewrite <- (app_nil_r fraction) at 1.
    apply takeDigits_digits; [exact Df | reflexivity]. }
  rewrite T2, <- valueOf_app, V, Lf.
  destruct (Z.eqb_spec (0 + Z.of_nat (List.length (u :: units)) + (0 + Z.of_nat 2)) 0)
    as [Z0 | _]; [cbn [List.length] in Z0; lia |].
  cbn [Runtime.exponentPart Runtime.applySign]; reflexivity.
Qed.

End Parsing.

(** With two digits after the point, the integer printed is [Math.round] of
    a hundred times the number. *)
Lemma scaledRound_hundredths :
  forall q : Qc,
    Runtime.scaledRound (Qnum q) (Z.pos (Qden q)) 2
    = roundHalfUp (q * Qc_of_Z 100).
Proof.
  intros q; unfold roundHalfUp, Runtime.scaledRound.
  assert (E : (this (q * Qc_of_Z 100 + Q2Qc (1 # 2))%Qc
               == (2 * (Qnum q * 100) + Z.pos (Qden q)) # (2 * Qden q))%Q).
  { unfold Qcplus, Qcmult; cbn [this Q2Qc]; rewrite !Qred_correct, this_of_Z.
    destruct q as [[a b] canon]; cbn [this Qnum Qden].
    unfold Qeq, Qplus, Qmult, inject_Z; cbn [Qnum Qden]; lia. }
  rewrite E; unfold Qfloor.
  cbn [Z.leb Z.compare]. change (10 ^ 2) with 100.
  reflexivity.
Qed.

Lemma hundredth_times_hundred :
  forall q : Qc, (q / Qc_of_Z 100 * Qc_of_Z 100)%Qc = q.
Proof.
  intros q.
  assert (H : Qc_of_Z 100 <> 0%Qc) by (apply (Qc_of_Z_nonzero (z := 100)); lia).
  field; exact H.
Qed.

Lemma Qc_hundredth_bounds :
  forall k hi : Z,
    0 <= k -> k < hi * 100 ->
    (Qc_of_Z 0 <= Qc_of_Z k / Qc_of_Z 100)%Qc
    /\ (Qc_of_Z k / Qc_of_Z 100 < Qc_of_Z hi)%Qc.
Proof.
  intros k hi L H; unfold Qcle, Qclt.
  unfold Qcdiv, Qcmult, Qcinv; cbn [this Q2Qc]; rewrite !Qred_correct, !this_of_Z.
  unfold Qle, Qlt, Qmult, Qinv, inject_Z; cbn [Qnum Qden Z.mul Pos.mul]; lia.
Qed.

(** An amount of hundredths is printed, with two digits after the point,
    as the text of the amount. *)
Lemma toFixed_hundredths :
  forall cents : Z,
    0 <= cents < 10 ^ 23 ->
    xtoFixed (XFin (Qc_of_Z cents / Qc_of_Z 100)%Qc) 2 = amountText cents.
Proof.
  intros cents H.
  destruct (@Qc_hundredth_bounds cents (10 ^ 21)) as [L U]; try lia.
  rewrite (DisplayFacts.xtoFixed_small 2 L U).
  apply DisplayFacts.fixedDigits_scaledRound.
  change (Z.of_nat 2) with 2.
  rewrite scaledRound_hundredths, hundredth_times_hundred, roundHalfUp_of_Z.
  unfold Runtime.scaledRound; cbn [Z.leb Z.compare].
  change (10 ^ 2) with 100. Z.div_mod_to_equations; lia.
Qed.

(** [Number] of the text of an amount, in exact arithmetic. *)
Lemma Number_amountText :
  forall cents : Z,
    0 <= cents ->
    Number (B := Exact.builtins) (PStr (amountText cents))
    = XFin (Qc_of_Z cents / Qc_of_Z 100)%Qc.
Proof.
  intros cents H.
  change (Number (B := Exact.builtins) (PStr (amountText cents)))
    with (Runtime.StringToNumber (N := exact) (amountText cents)).
  rewrite (StringToNumber_amountText (N := exact) H); reflexivity.
Qed.

(** X18.  In exact arithmetic the Recent Orders card prints the amount of
    an order as the table stores it: when [totalAmount] is the text of a
    number of hundredths (units, a point, two digits), the cell is a dollar
    sign and that very text. *)
Theorem order_amount_as_stored :
  forall (order : Order.t (N := exact)) (cents : Z) (row : RecentOrders.Row),
    0 <= cents < 10 ^ 23 ->
    Order.totalAmount order = amountText cents ->
    RecentOrders.renderRow (B := Exact.builtins) (F := Exact.format) order
    = Normal row ->
    RecentOrders.amount row = ("$" ++ Order.totalAmount order)%string.
Proof.
  intros order cents row H E R; unfold RecentOrders.renderRow in R.
  destruct (RecentOrders.formatOrderItems (Order.items order)) as [text | e];
    [| discriminate].
  cbn [bind] in R; injection R as R; subst row; cbn [RecentOrders.amount].
  change ("$" ++ Order.totalAmount order)%string
    with (String "$" (Order.totalAmount order)).
  f_equal; rewrite E at 1.
  rewrite (StringToNumber_amountText (N := exact)) by lia.
  rewrite E; apply toFixed_hundredths, H.
Qed.

Lemma Qc_hundredths_add :
  forall a b : Z,
    (Qc_of_Z a / Qc_of_Z 100 + Qc_of_Z b / Qc_of_Z 100)%Qc
    = (Qc_of_Z (a + b) / Qc_of_Z 100)%Qc.
Proof.
  intros a b; rewrite Qc_of_Z_add.
  assert (H : Qc_of_Z 100 <> 0%Qc) by (apply (Qc_of_Z_nonzero (z := 100)); lia).
  field; exact H.
Qed.

Lemma centsOver_nonneg :
  forall (A : Type) (p : A -> bool) (cents : A -> Z) (l : list A),
    (forall a : A, In a l -> p a = true -> 0 <= cents a) ->
    0 <= centsOver p cents l.
Proof.
  intros A p cents l; induction l as [| a l IH]; intros H; [simpl; lia |].
  assert (I : 0 <= centsOver p cents l)
    by (apply IH; intros x Hx; apply H; right; exact Hx).
  cbn [centsOver fold_right]; fold (centsOver p cents l).
  destruct (p a) eqn:P; [| exact I].
  pose proof (H a (or_introl eq_refl) P); lia.
Qed.

(** The sum of amounts of hundredths is the amount of the sum. *)
Lemma sumOver_hundredths :
  forall (A : Type) (p : A -> bool) (f : A -> xnum) (cents : A -> Z)
         (l : list A) (acc : Z),
    (forall a : A, In a l -> p a = true ->
                   f a = XFin (Qc_of_Z (cents a) / Qc_of_Z 100)%Qc) ->
    sumOver (N := exact) p f l (XFin (Qc_of_Z acc / Qc_of_Z 100)%Qc)
    = XFin (Qc_of_Z (acc + centsOver p cents l) / Qc_of_Z 100)%Qc.
Proof.
  intros A p f cents l; induction l as [| a l IH]; intros acc H.
  - simpl; rewrite Z.add_0_r; reflexivity.
  - cbn [sumOver centsOver fold_right].
    fold (centsOver p cents l).
    assert (Hl : forall x : A, In x l -> p x = true ->
                               f x = XFin (Qc_of_Z (cents x) / Qc_of_Z 100)%Qc)
      by (intros x Hx; apply H; right; exact Hx).
    destruct (p a) eqn:P.
    + rewrite (H a (or_introl eq_refl) P).
      change (add (JSNumber := exact)
                  (XFin (Qc_of_Z acc / Qc_of_Z 100)%Qc)
                  (XFin (Qc_of_Z (cents a) / Qc_of_Z 100)%Qc))
        with (XFin (Qc_of_Z acc / Qc_of_Z 100 + Qc_of_Z (cents a) / Qc_of_Z 100)%Qc).
      rewrite Qc_hundredths_add, (IH _ Hl); f_equal; f_equal; f_equal; lia.
    + apply (IH _ Hl).
Qed.

(** X17.  In exact arithmetic the card "Today's Sales" shows the sum of the
    completed orders to the cent.  When the amount of every completed order
    of the truck is stored as the text of a number of hundredths,
    [todaySales] is the sum of those hundredths, divided by 100, and the
    card prints a dollar sign and the text of that sum, with two digits
    after the point. *)
Theorem todaySales_to_the_cent :
  forall (t : Z) (w : World (N := exact)) (cents : Order.t -> Z),
    (forall o : Order.t,
        In o (orders (db w)) -> completedFor t o = true ->
        0 <= cents o /\ Order.totalAmount o = amountText (cents o)) ->
    centsOver (completedFor t) cents (orders (db w)) < 10 ^ 23 ->
    exists (stats : DashboardStats (N := exact))
           (cards : list StatCards.StatCard),
      getDashboardStats (B := Exact.builtins) t w = (Normal stats, w)
      /\ todaySales stats
         = XFin (Qc_of_Z (centsOver (completedFor t) cents (orders (db w)))
                 / Qc_of_Z 100)%Qc
      /\ StatCards.statCards (B := Exact.builtins) (F := Exact.format)
                             (Some stats)
         = Some cards
      /\ In {| StatCards.title := "Today's Sales";
               StatCards.value :=
                 ("$" ++ amountText (centsOver (completedFor t) cents
                                               (orders (db w))))%string |}
            cards.
Proof.
  intros t w cents H U.
  set (total := centsOver (completedFor t) cents (orders (db w))) in *.
  assert (P : 0 <= total).
  { apply centsOver_nonneg; intros o Ho C; apply (H o Ho C). }
  assert (S : todaySales (statsOf (B := Exact.builtins) t (db w))
              = XFin (Qc_of_Z total / Qc_of_Z 100)%Qc).
  { unfold statsOf; cbn [todaySales].
    assert (Z0 : ofZ (JSNumber := exact) 0
                 = XFin (Qc_of_Z 0 / Qc_of_Z 100)%Qc).
    { change (ofZ (JSNumber := exact) 0) with (XFin (Qc_of_Z 0)); f_equal.
      assert (NZ : Qc_of_Z 100 <> 0%Qc)
        by (apply (Qc_of_Z_nonzero (z := 100)); lia).
      change (Qc_of_Z 0) with 0%Qc; field; exact NZ. }
    rewrite Z0.
    rewrite (sumOver_hundredths (completedFor t) _ cents (orders (db w)) 0).
    - reflexivity.
    - intros o Ho C; destruct (H o Ho C) as [C0 E].
      rewrite E; apply Number_amountText, C0. }
  exists (statsOf (B := Exact.builtins) t (db w)); eexists.
  split; [apply getDashboardStats_run |].
  split; [exact S |].
  split; [reflexivity |].
  left; f_equal; f_equal.
  change (toFixed (NumberFormat := Exact.format)) with xtoFixed.
  rewrite S; apply toFixed_hundredths; lia.
Qed.

End AmountFacts.

(** ** Amounts of money, on doubles *)

Module DoubleAmounts.

Lemma allFrom_spec :
  forall (p : Z -> bool) (n : nat) (k : Z),
    allFrom p k n = true ->
    forall j : Z, k <= j < k + Z.of_nat n -> p j = true.
Proof.
  intros p n; induction n as [| n IH]; intros k H j J; [simpl in J; lia |].
  cbn [allFrom] in H.
  destruct (p k) eqn:P; [| discriminate].
  destruct (Z.eq_dec j k) as [E | E]; [subst j; exact P |].
  apply (IH (k + 1) H); lia.
Qed.

(** X19.  On doubles the amount cell of the Recent Orders card prints every
    amount from 0.00 to 99.99 as the table stores it: for each of these ten
    thousand amounts, [Number] of the stored text is a double whose
    [toFixed(2)] is that text again.  (Each amount is computed.) *)
Theorem amounts_print_as_stored_on_doubles :
  forall cents : Z,
    0 <= cents < 10000 ->
    toFixed (NumberFormat := Binary64.format)
            (Number (B := Binary64.builtins) (PStr (amountText cents))) 2
    = amountText cents.
Proof.
  intros cents H; apply String.eqb_eq.
  apply (allFrom_spec printsAsStored (Z.to_nat 10000) (k := 0));
    [vm_compute; reflexivity | rewrite Z2Nat.id; lia].
Qed.

End DoubleAmounts.

(** ** The average rating, on doubles *)

Module DoubleRatings.
Import Exact ExactSpec ExactFacts Storage Client.

Lemma add_rating_exact :
  forall s r : Z,
    0 <= s <= 500 -> 1 <= r <= 5 ->
    add (JSNumber := Binary64.binary64) (ofZ s) (ofZ r)
    = ofZ (JSNumber := Binary64.binary64) (s + r).
Proof.
  intros s r S R.
  assert (A : allFrom sumIsExact 0 (Z.to_nat 501) = true)
    by (vm_compute; reflexivity).
  pose proof (DoubleAmounts.allFrom_spec _ _ A (j := s)) as E.
  rewrite Z2Nat.id in E by lia.
  specialize (E ltac:(lia)); unfold sumIsExact in E.
  pose proof (DoubleAmounts.allFrom_spec _ _ E (j := r) ltac:(simpl; lia)) as L.
  apply Leibniz.eqb_spec, L.
Qed.

Lemma fold_ratings_doubles :
  forall (rs : list Review.t) (acc : Z),
    Forall (fun r => 1 <= Review.rating r <= 5) rs ->
    0 <= acc -> acc + 5 * Z.of_nat (List.length rs) <= 505 ->
    fold_left (fun sum review =>
                 add (JSNumber := Binary64.binary64) sum
                     (ofZ (Review.rating review)))
              rs (ofZ (JSNumber := Binary64.binary64) acc)
    = ofZ (JSNumber := Binary64.binary64) (acc + sumRatings rs).
Proof.
  induction rs as [| r rs IH]; intros acc H A U.
  - simpl; f_equal; lia.
  - inversion H as [| r' rs' Hr Hrs]; subst.
    cbn [fold_left sumRatings fold_right List.length] in *.
    fold (sumRatings rs).
    rewrite add_rating_exact by lia.
    rewrite IH by (try assumption; lia).
    f_equal; lia.
Qed.

Lemma rating_exact :
  forall s n : Z,
    1 <= n <= 100 -> n <= s <= 5 * n ->
    ratingOnDoubles s n = Binary64.b64_decimal (tenths s n) (-1).
Proof.
  intros s n Hn Hs.
  assert (A : allFrom ratingIsExact 1 (Z.to_nat 100) = true)
    by (vm_compute; reflexivity).
  pose proof (DoubleAmounts.allFrom_spec _ _ A (j := n)) as E.
  rewrite Z2Nat.id in E by lia.
  specialize (E ltac:(lia)); unfold ratingIsExact in E.
  pose proof (DoubleAmounts.allFrom_spec _ _ E (j := s)) as L.
  rewrite Z2Nat.id in L by lia.
  apply Leibniz.eqb_spec, L; lia.
Qed.

Lemma tenths_print :
  forall k : Z,
    0 <= k <= 50 ->
    Binary64.b64_toFixed (Binary64.b64_decimal k (-1)) 1
    = Runtime.fixedDigits 1 k 10.
Proof.
  intros k K.
  assert (A : allFrom tenthsPrintExactly 0 (Z.to_nat 51) = true)
    by (vm_compute; reflexivity).
  pose proof (DoubleAmounts.allFrom_spec _ _ A (j := k)) as E.
  rewrite Z2Nat.id in E by lia.
  apply String.eqb_eq, E; lia.
Qed.

(** [Math.round] of ten times a mean, in integers. *)
Lemma roundHalfUp_tenths :
  forall s n : Z,
    0 < n ->
    roundHalfUp (Qc_of_Z s / Qc_of_Z n * Qc_of_Z 10) = tenths s n.
Proof.
  intros s n H; unfold roundHalfUp, tenths.
  destruct n as [| p | p]; try lia.
  assert (E : (this (Qc_of_Z s / Qc_of_Z (Z.pos p) * Qc_of_Z 10
                     + Q2Qc (1 # 2))%Qc
               == (20 * s + Z.pos p) # (2 * p))%Q).
  { unfold Qcplus, Qcdiv, Qcmult, Qcinv; cbn [this Q2Qc].
    rewrite !Qred_correct, !this_of_Z.
    unfold Qeq, Qplus, Qmult, Qinv, inject_Z; cbn [Qnum Qden].
    rewrite ?Pos2Z.inj_mul; ring. }
  rewrite E; unfold Qfloor.
  rewrite Pos2Z.inj_mul; reflexivity.
Qed.

(** X20.  On doubles the [averageRating] statistic is exactly right for up
    to a hundred reviews with ratings in 1..5: it is the double that the
    decimal text of the exact statistic denotes (the double nearest to
    [k / 10], where the statistic in exact arithmetic is [k] tenths), and
    the card of the dashboard prints those tenths as it does in exact
    arithmetic.  (The sums and the quotients that can occur are
    computed.) *)
Theorem averageRating_exact_on_doubles :
  forall (B : Builtins (N := Binary64.binary64)) (t : Z)
         (w : World (N := Binary64.binary64)),
    Forall (fun r => 1 <= Review.rating r <= 5) (reviewsOf t (reviews (db w))) ->
    (List.length (reviewsOf t (reviews (db w))) <= 100)%nat ->
    exists (stats : DashboardStats (N := Binary64.binary64)) (k : Z),
      getDashboardStats t w = (Normal stats, w)
      /\ round1 (N := exact)
                (ReviewsPage.averageRating (N := exact)
                                           (reviewsOf t (reviews (db w))))
         = XFin (Qc_of_Z k / Qc_of_Z 10)%Qc
      /\ 0 <= k <= 50
      /\ averageRating stats = ofDecimal (JSNumber := Binary64.binary64) k (-1)
      /\ toFixed (NumberFormat := Binary64.format) (averageRating stats) 1
         = Runtime.fixedDigits 1 k 10.
Proof.
  intros B t w H L.
  set (rs := reviewsOf t (reviews (db w))) in *.
  exists (statsOf t (db w)).
  assert (T : forall k : Z,
             0 <= k <= 50 ->
             averageRating (statsOf t (db w)) = Binary64.b64_decimal k (-1) ->
             averageRating (statsOf t (db w))
             = ofDecimal (JSNumber := Binary64.binary64) k (-1)
             /\ toFixed (NumberFormat := Binary64.format)
                        (averageRating (statsOf t (db w))) 1
                = Runtime.fixedDigits 1 k 10).
  { intros k K E; split; [exact E |].
    change (toFixed (NumberFormat := Binary64.format)) with Binary64.b64_toFixed.
    rewrite E; apply tenths_print, K. }
  destruct rs as [| r rs'] eqn:R.
  - exists 0.
    split; [apply getDashboardStats_run |].
    split; [apply RoundingClaims.sameNumber_eq; vm_compute; reflexivity |].
    split; [lia |].
    apply T; [lia |].
    unfold statsOf; cbn [averageRating]; fold rs; rewrite R; reflexivity.
  - pose proof (DisplayFacts.sumRatings_bounds H) as SB.
    destruct (DisplayFacts.mean_in_range H) as [ML MU].
    destruct (DisplayFacts.Qc_times_ten_bounds ML MU) as [L10 U10].
    pose proof (DisplayFacts.roundHalfUp_bounds L10 U10) as K.
    assert (N1 : 1 <= Z.of_nat (List.length (r :: rs')) <= 100) by
      (cbn [List.length] in *; lia).
    exists (roundHalfUp (mean (r :: rs') * Qc_of_Z 10)).
    split; [apply getDashboardStats_run |].
    split; [rewrite RoundingClaims.averageRating_mean; apply round1_rational |].
    split; [lia |].
    apply T; [lia |].
    unfold mean; rewrite roundHalfUp_tenths by lia.
    rewrite <- rating_exact by lia.
    unfold statsOf; cbn [averageRating]; fold rs; rewrite R.
    unfold ratingOnDoubles; f_equal.
    unfold ReviewsPage.averageRating, ReviewsPage.len.
    destruct (Z.ltb_spec 0 (Z.of_nat (List.length (r :: rs')))) as [_ | C];
      [| lia].
    f_equal.
    rewrite (fold_ratings_doubles (acc := 0) H) by (cbn [List.length] in *; lia).
    f_equal.
Qed.

End DoubleRatings.

(** ** The properties on sample rows *)

Module SampleRuns.
Import Exact Storage Client.

Local Abbreviation sampleExact := (Fixtures.sample (N := exact)).
Local Abbreviation twoTrucksExact := (Samples.twoTrucks (N := exact)).
Local Abbreviation twentyDouble := (Samples.twenty (N := Binary64.binary64)).

(** X5 on the sample rows of truck 1, alone and beside rows of truck 2. *)
Lemma getDashboardStats_truck_isolation_witness :
  exists stats : DashboardStats (N := exact),
    getDashboardStats (B := Exact.builtins) 1 sampleExact
    = (Normal stats, sampleExact)
    /\ getDashboardStats (B := Exact.builtins) 1 twoTrucksExact
       = (Normal stats, twoTrucksExact).
Proof.
  apply (getDashboardStats_truck_isolation (B := Exact.builtins)
           1 sampleExact twoTrucksExact);
    reflexivity.
Defined.

(** X7 on the two locations of the sample, the inactive one first. *)
Lemma activeLocation_matches_statistic_witness :
  let api := [Fixtures.location 1 None; Fixtures.location 1 (Some true)] in
  exists stats : DashboardStats (N := exact),
    getDashboardStats (B := Exact.builtins) 1 sampleExact
    = (Normal stats, sampleExact)
    /\ activeLocations stats
       = ofZ (countOver (activeFor 1) (locations (db sampleExact)))
    /\ (DashboardPage.activeLocation (Rows api) = None
        <-> countOver (activeFor 1) (locations (db sampleExact)) = 0)
    /\ forall l : Location.t,
         DashboardPage.activeLocation (Rows api) = Some l ->
         In l (locations (db sampleExact)) /\ activeFor 1 l = true.
Proof.
  apply (activeLocation_matches_statistic (B := Exact.builtins) 1 sampleExact
           (api := [Fixtures.location 1 None; Fixtures.location 1 (Some true)])).
  apply perm_swap.
Defined.

(** X9 on a team member: ["ben"] owns nothing and works on truck 7. *)
Lemma getFoodTruckByUserId_sound_witness :
  In Samples.elFuego (foodTrucks Samples.directory)
  /\ ((exists org : Organization.t,
          In org (organizations Samples.directory)
          /\ Organization.ownerId org = "ben"
          /\ FoodTruck.organizationId Samples.elFuego = Organization.id org)
      \/ ((forall org : Organization.t,
              In org (organizations Samples.directory) ->
              Organization.ownerId org <> "ben")
          /\ exists member : TeamMember.t,
               In member (teamMembers Samples.directory)
               /\ TeamMember.userId member = "ben"
               /\ TeamMember.truckId member = Some (FoodTruck.id Samples.elFuego)
               /\ FoodTruck.id Samples.elFuego <> 0)).
Proof.
  apply (getFoodTruckByUserId_sound "ben" Samples.directory
           (truck := Samples.elFuego)).
  reflexivity.
Defined.

(** X11 on the reviews [5, 4, 5] of the sample. *)
Lemma average_rating_texts_agree_witness :
  exists (api : list Review.t) (stats : DashboardStats (N := exact))
         (cards : list StatCards.StatCard),
    getReviewsByTruckId 1 sampleExact = (Normal api, sampleExact)
    /\ getDashboardStats (B := Exact.builtins) 1 sampleExact
       = (Normal stats, sampleExact)
    /\ StatCards.statCards (B := Exact.builtins) (F := Exact.format) (Some stats)
       = Some cards
    /\ In {| StatCards.title := "Average Rating";
             StatCards.value :=
               ReviewsPage.averageText
                 (ReviewsPage.summary (F := Exact.format) api) |}
          cards
    /\ ProfilePage.averageText (F := Exact.format) api
       = ReviewsPage.averageText (ReviewsPage.summary (F := Exact.format) api).
Proof.
  apply (DisplayFacts.average_rating_texts_agree Exact.builtins 1 sampleExact).
  repeat constructor; discriminate.
Defined.

(** X13 on 20 lbs used of 50 allocated. *)
Lemma usage_percentage_range_witness :
  exists p : Qc,
    ProteinPage.getUsagePercentage (N := exact)
      (XFin (Qc_of_Z 20)) (XFin (Qc_of_Z 50))
    = XFin p
    /\ p = (Qc_of_Z 20 / Qc_of_Z 50 * Qc_of_Z 100)%Qc
    /\ ((Qc_of_Z 0 <= Qc_of_Z 20)%Qc -> (Qc_of_Z 20 <= Qc_of_Z 50)%Qc ->
        (Qc_of_Z 0 <= p)%Qc /\ (p <= Qc_of_Z 100)%Qc)
    /\ ((Qc_of_Z 50 < Qc_of_Z 20)%Qc -> (Qc_of_Z 100 < p)%Qc).
Proof.
  apply (DisplayFacts.usage_percentage_range (Qc_of_Z 20)
           (allocated := Qc_of_Z 50)).
  reflexivity.
Defined.

(** X15 on the reviews [5, 4, 5] of the sample. *)
Lemma averageRating_statistic_range_witness :
  exists (stats : DashboardStats (N := exact)) (k : Z),
    getDashboardStats (B := Exact.builtins) 1 sampleExact
    = (Normal stats, sampleExact)
    /\ averageRating stats = XFin (Qc_of_Z k / Qc_of_Z 10)%Qc
    /\ (reviewsOf 1 (reviews (db sampleExact)) = [] -> k = 0)
    /\ (reviewsOf 1 (reviews (db sampleExact)) <> [] -> 10 <= k <= 50)
    /\ toFixed (NumberFormat := Exact.format) (averageRating stats) 1
       = Runtime.fixedDigits 1 k 10.
Proof.
  apply (DisplayFacts.averageRating_statistic_range Exact.builtins 1 sampleExact).
  repeat constructor; discriminate.
Defined.

(** X17 on the sample: one completed order of 12.50. *)
Lemma todaySales_to_the_cent_witness :
  exists (stats : DashboardStats (N := exact))
         (cards : list StatCards.StatCard),
    getDashboardStats (B := Exact.builtins) 1 sampleExact
    = (Normal stats, sampleExact)
    /\ todaySales stats
       = XFin (Qc_of_Z (centsOver (completedFor 1) (fun _ => 1250)
                                  (orders (db sampleExact)))
               / Qc_of_Z 100)%Qc
    /\ StatCards.statCards (B := Exact.builtins) (F := Exact.format)
                           (Some stats)
       = Some cards
    /\ In {| StatCards.title := "Today's Sales";
             StatCards.value :=
               ("$" ++ amountText (centsOver (completedFor 1) (fun _ => 1250)
                                             (orders (db sampleExact))))%string |}
          cards.
Proof.
  apply (AmountFacts.todaySales_to_the_cent 1 sampleExact (fun _ => 1250)).
  - intros o [E | [E | []]]; subst o; intros C;
      [split; [lia | reflexivity] | discriminate C].
  - reflexivity.
Defined.

(** X18 on a completed order of 12.50 without items. *)
Lemma order_amount_as_stored_witness :
  RecentOrders.amount
    {| RecentOrders.orderId := "#A-1";
       RecentOrders.itemsText := EmptyString;
       RecentOrders.amount := "$12.50";
       RecentOrders.badge := "default";
       RecentOrders.label := "completed" |}
  = ("$" ++ Order.totalAmount
              (Fixtures.order (N := exact) 1 "completed" "12.50"))%string.
Proof.
  apply (AmountFacts.order_amount_as_stored
           (Fixtures.order (N := exact) 1 "completed" "12.50")
           (cents := 1250)).
  - lia.
  - reflexivity.
  - vm_compute; reflexivity.
Defined.

(** X19 on the amount 12.50. *)
Lemma amounts_print_as_stored_on_doubles_witness :
  toFixed (NumberFormat := Binary64.format)
          (Number (B := Binary64.builtins) (PStr (amountText 1250))) 2
  = amountText 1250.
Proof.
  apply (DoubleAmounts.amounts_print_as_stored_on_doubles (cents := 1250)); lia.
Defined.

(** X20 on the reviews [5, 4, 5] of the sample. *)
Lemma averageRating_exact_on_doubles_witness :
  exists (stats : DashboardStats (N := Binary64.binary64)) (k : Z),
    getDashboardStats (B := Binary64.builtins) 1 Fixtures.sample
    = (Normal stats, Fixtures.sample)
    /\ round1 (N := exact)
              (ReviewsPage.averageRating
                 (N := exact)
                 (reviewsOf 1 (reviews (db (Fixtures.sample
                                              (N := Binary64.binary64))))))
       = XFin (Qc_of_Z k / Qc_of_Z 10)%Qc
    /\ 0 <= k <= 50
    /\ averageRating stats = ofDecimal (JSNumber := Binary64.binary64) k (-1)
    /\ toFixed (NumberFormat := Binary64.format) (averageRating stats) 1
       = Runtime.fixedDigits 1 k 10.
Proof.
  apply (DoubleRatings.averageRating_exact_on_doubles
           Binary64.builtins 1 (Fixtures.sample (N := Binary64.binary64))).
  - repeat constructor; discriminate.
  - cbn; lia.
Defined.

(** X14 on two lines, 2 of Taco and 1.5 of Agua fresca. *)
Lemma formatOrderItems_lines_witness :
  let line (quantity : prim) (name : string) : value :=
    VObj [("name", VPrim (PStr name)); ("quantity", VPrim quantity)] in
  let elems :=
    [line (PNum (N := exact) (XFin (Qc_of_Z 2))) "Taco";
     line (PNum (N := exact) (XFin (Q2Qc (3 # 2)))) "Agua fresca"] in
  RecentOrders.formatOrderItems (B := Exact.builtins) (VArr elems)
  = Normal (join ", " (map (lineText (B := Exact.builtins)) elems))
  /\ forall s : string,
       JSON_parse (Builtins := Exact.builtins) s = Some (VArr elems) ->
       RecentOrders.formatOrderItems (B := Exact.builtins) (VPrim (PStr s))
       = Normal (join ", " (map (lineText (B := Exact.builtins)) elems)).
Proof.
  intros line elems.
  apply (formatOrderItems_lines (B := Exact.builtins) (elems := elems)).
  repeat constructor; discriminate.
Defined.

(** The cards of the sample, on doubles. *)
Example stat_cards_sample :
  StatCards.statCards (B := Binary64.builtins) (F := Binary64.format)
    (Some (statsOf (B := Binary64.builtins) 1 (db Fixtures.sample)))
  = Some [ {| StatCards.title := "Today's Sales"; StatCards.value := "$12.50" |};
           {| StatCards.title := "Orders Today"; StatCards.value := "1" |};
           {| StatCards.title := "Average Rating"; StatCards.value := "4.7" |};
           {| StatCards.title := "Active Locations"; StatCards.value := "1" |} ].
Proof. vm_compute; reflexivity. Qed.

(** On doubles the texts of X11 can differ.  Seven reviews with the rating
    5 and thirteen with the rating 4 have the mean 4.35, which no double
    is: the mean the pages hold is the double just below it, and
    [toFixed(1)] prints ["4.3"]; times 10 it is the double 43.5, which the
    server rounds to 44, and the dashboard prints ["4.4"]. *)
Remark average_rating_texts_differ_on_doubles :
  exists (api : list Review.t) (stats : DashboardStats (N := Binary64.binary64)),
    getReviewsByTruckId 1 twentyDouble = (Normal api, twentyDouble)
    /\ getDashboardStats (B := Binary64.builtins) 1 twentyDouble
       = (Normal stats, twentyDouble)
    /\ toFixed (NumberFormat := Binary64.format) (averageRating stats) 1 = "4.4"
    /\ ReviewsPage.averageText (ReviewsPage.summary (F := Binary64.format) api)
       = "4.3"
    /\ ProfilePage.averageText (F := Binary64.format) api = "4.3".
Proof.
  eexists; eexists.
  split; [apply getReviewsByTruckId_run |].
  split; [apply getDashboardStats_run |].
  split; [| split]; vm_compute; reflexivity.
Qed.

End SampleRuns.
